(** * Feature Pyramid Network on top of a backbone

    A shallow embedding of [libs/model/backbone/fpn.py]: the construction of
    the pyramid ([FPN.__init__]), the top-down forward pass ([FPN.forward]),
    the output-shape query, the three top blocks and the two checkpoint
    loaders.  Python's exceptions are values of [exn], dictionaries are
    insertion-ordered association lists, and the tensor library is an
    interface ([TensorOps], [Framework]) whose operations may raise. *)

From Stdlib Require Import ZArith List String Ascii Bool Lia.
From Stdlib Require Import DecimalString DecimalZ.
From Stdlib Require Import Floats.SpecFloat.
Import ListNotations.

Local Open Scope Z_scope.
Local Open Scope list_scope.

(** ** Python runtime: exceptions and results *)

Inductive exn : Type :=
| AssertionError
| KeyError
| IndexError
| ValueError
| TypeError
| NameError
| RuntimeError
| FileNotFoundError
| UnpicklingError.

Inductive result (A : Type) : Type :=
| Ok (a : A)
| Raise (e : exn).

Arguments Ok {A} a.
Arguments Raise {A} e.

Definition bind {A B : Type} (r : result A) (k : A -> result B) : result B :=
  match r with
  | Ok a => k a
  | Raise e => Raise e
  end.

Notation "x <- e ;; k" := (bind e (fun x => k))
  (at level 61, e at next level, right associativity).
Notation "' p <- e ;; k" := (bind e (fun x => match x with p => k end))
  (at level 61, p pattern, e at next level, right associativity).

Fixpoint mapM {A B : Type} (f : A -> result B) (l : list A) : result (list B) :=
  match l with
  | [] => Ok []
  | a :: l' => b <- f a ;; bs <- mapM f l' ;; Ok (b :: bs)
  end.

(** [l[i]] for a non-negative index, and [l[-1]]. *)
Definition list_item {A : Type} (l : list A) (i : nat) : result A :=
  match nth_error l i with
  | Some a => Ok a
  | None => Raise IndexError
  end.

Definition list_last {A : Type} (l : list A) : result A :=
  match rev l with
  | a :: _ => Ok a
  | [] => Raise IndexError
  end.

(** [l.index(k)] on a list of strings. *)
Fixpoint list_index (l : list string) (k : string) : result nat :=
  match l with
  | [] => Raise ValueError
  | k' :: l' => if String.eqb k' k then Ok O else i <- list_index l' k ;; Ok (S i)
  end.

(** [range(a, b)]. *)
Definition py_range (a b : Z) : list Z :=
  map (fun i => a + Z.of_nat i) (seq 0 (Z.to_nat (b - a))).

(** [zip] of three lists stops at the shortest. *)
Fixpoint zip3 {A B C : Type} (la : list A) (lb : list B) (lc : list C)
  : list (A * B * C) :=
  match la, lb, lc with
  | a :: la', b :: lb', c :: lc' => (a, b, c) :: zip3 la' lb' lc'
  | _, _, _ => []
  end.

(** ** Dictionaries with string keys

    A [dict] keeps its keys in insertion order; assigning to a key that is
    present replaces the value where the key stands. *)

Section Dict.
Context {V : Type}.

Definition dict : Type := list (string * V).

Fixpoint dict_get (d : dict) (k : string) : option V :=
  match d with
  | [] => None
  | (k', v) :: d' => if String.eqb k' k then Some v else dict_get d' k
  end.

Fixpoint dict_set (d : dict) (k : string) (v : V) : dict :=
  match d with
  | [] => [(k, v)]
  | (k', v') :: d' =>
      if String.eqb k' k then (k', v) :: d' else (k', v') :: dict_set d' k v
  end.

(** [d[k]] *)
Definition dict_item (d : dict) (k : string) : result V :=
  match dict_get d k with
  | Some v => Ok v
  | None => Raise KeyError
  end.

Definition dict_keys (d : dict) : list string := map fst d.

(** [dict(pairs)] and dictionary comprehensions: later pairs win. *)
Definition dict_of_pairs (l : list (string * V)) : dict :=
  fold_left (fun d kv => dict_set d (fst kv) (snd kv)) l [].
End Dict.

Arguments dict V : clear implicits.

Definition mem_string (k : string) (l : list string) : bool :=
  existsb (String.eqb k) l.

(** ** Strings *)

(** [k.split(".")[0]]: the text before the first dot. *)
Fixpoint first_segment (k : string) : string :=
  match k with
  | EmptyString => EmptyString
  | String c k' =>
      if Ascii.eqb c "."%char then EmptyString else String c (first_segment k')
  end.

(** [k[n:]] *)
Fixpoint drop_chars (n : nat) (k : string) : string :=
  match n, k with
  | O, _ => k
  | S n', String _ k' => drop_chars n' k'
  | S _, EmptyString => EmptyString
  end.

(** ["{}".format(n)] on an integer. *)
Definition format_int (n : Z) : string := NilZero.string_of_int (Z.to_int n).

(** [int(math.log2(s))].  [math.log2] raises [ValueError] outside the
    positive numbers.  On a power of two the float is exact, and on the
    other strides met in practice (far below 2^47) truncating it gives the
    floor of the logarithm, which is what this definition returns; just
    below a power of two from 2^49 on, the float rounds up to the next
    integer. *)
Definition int_log2 (s : Z) : result Z :=
  if s <=? 0 then Raise ValueError else Ok (Z.log2 s).

(** ** The tensor library

    Elementwise arithmetic on tensors, as [forward] uses it: [a + b] and the
    in-place [a /= n].  In [forward] the tensor divided in place is the
    fresh sum, which nothing else refers to, so the update is modelled by
    the value it leaves. *)

Class TensorOps : Type := {
  Tensor : Type;
  t_add : Tensor -> Tensor -> result Tensor;
  t_idiv : Tensor -> Z -> result Tensor
}.

(** The fusion step of [forward]:
    [prev_features = lateral_features + top_down_features], halved in place
    under the fusion mode ["avg"]. *)
Definition fuse {T : TensorOps} (fuse_type : string)
    (lateral_features top_down_features : Tensor) : result Tensor :=
  prev_features <- t_add lateral_features top_down_features ;;
  if String.eqb fuse_type "avg" then t_idiv prev_features 2
  else Ok prev_features.

(** A convolution module as configured by its constructor.  [conv_uid]
    stands for the identity of the Python object (and so for its weights). *)
Record Conv2d (Norm : Type) : Type := {
  conv_uid : nat;
  conv_in_channels : Z;
  conv_out_channels : Z;
  conv_kernel_size : Z;
  conv_stride : Z;
  conv_padding : Z;
  conv_bias : bool;
  conv_norm : option Norm
}.

Arguments conv_uid {Norm} c.
Arguments conv_in_channels {Norm} c.
Arguments conv_out_channels {Norm} c.
Arguments conv_kernel_size {Norm} c.
Arguments conv_stride {Norm} c.
Arguments conv_padding {Norm} c.
Arguments conv_bias {Norm} c.
Arguments conv_norm {Norm} c.

(** What [fpn.py] takes from [torch] and from [.wrapper]: [get_norm], the
    application of a convolution, [F.interpolate], [F.max_pool2d] and
    [F.relu].  Each may raise (shape or type errors). *)
Class Framework : Type := {
  fw_ops :: TensorOps;
  Norm : Type;
  get_norm : string -> Z -> result (option Norm);
  conv_forward : Conv2d Norm -> Tensor -> result Tensor;
  interpolate : Tensor -> Z -> string -> result Tensor;
  max_pool2d : Tensor -> Z -> Z -> Z -> result Tensor;
  relu : Tensor -> result Tensor
}.

(** [ShapeSpec(channels=..., stride=...)] of [.wrapper]; both are keyword
    arguments with default [None]. *)
Record ShapeSpec : Type := {
  channels : option Z;
  stride : option Z
}.

Section Model.
Context {F : Framework}.

(** *** Construction-time state

    Constructors run in a state that numbers the convolution objects and
    records them in creation order. *)

Record InitState : Type := {
  next_uid : nat;
  created : list (Conv2d Norm)
}.

Definition Init (A : Type) : Type := InitState -> InitState * result A.

Definition ret {A : Type} (a : A) : Init A := fun st => (st, Ok a).

Definition lift {A : Type} (r : result A) : Init A := fun st => (st, r).

Definition ibind {A B : Type} (m : Init A) (k : A -> Init B) : Init B :=
  fun st =>
    match m st with
    | (st', Ok a) => k a st'
    | (st', Raise e) => (st', Raise e)
    end.

Notation "x <~ e ;; k" := (ibind e (fun x => k))
  (at level 61, e at next level, right associativity).

Definition new_Conv2d (cin cout k s p : Z) (b : bool) (n : option Norm)
  : Init (Conv2d Norm) :=
  fun st =>
    let c := {| conv_uid := next_uid st;
                conv_in_channels := cin; conv_out_channels := cout;
                conv_kernel_size := k; conv_stride := s; conv_padding := p;
                conv_bias := b; conv_norm := n |} in
    ({| next_uid := S (next_uid st); created := created st ++ [c] |}, Ok c).

(** *** Top blocks *)

Inductive TopBlock : Type :=
| LastLevelMaxPool
| LastLevelConv (p5 : Conv2d Norm)
| LastLevelP6P7 (p6 p7 : Conv2d Norm)
| CustomTopBlock (levels : Z) (feature : string)
                 (call : Tensor -> result (list Tensor)).

Definition num_levels (tb : TopBlock) : Z :=
  match tb with
  | LastLevelMaxPool => 1
  | LastLevelConv _ => 1
  | LastLevelP6P7 _ _ => 2
  | CustomTopBlock n _ _ => n
  end.

Definition in_feature (tb : TopBlock) : string :=
  match tb with
  | LastLevelMaxPool => "p5"
  | LastLevelConv _ => "p5"
  | LastLevelP6P7 _ _ => "res5"
  | CustomTopBlock _ f _ => f
  end.

Definition LastLevelMaxPool_init : Init TopBlock := ret LastLevelMaxPool.

Definition LastLevelConv_init (in_channels : Z) : Init TopBlock :=
  p5 <~ new_Conv2d in_channels in_channels 3 2 1 true None ;;
  ret (LastLevelConv p5).

Definition LastLevelP6P7_init (in_channels out_channels : Z) : Init TopBlock :=
  p6 <~ new_Conv2d in_channels out_channels 3 2 1 true None ;;
  p7 <~ new_Conv2d out_channels out_channels 3 2 1 true None ;;
  ret (LastLevelP6P7 p6 p7).

Definition top_block_forward (tb : TopBlock) (x : Tensor)
  : result (list Tensor) :=
  match tb with
  | LastLevelMaxPool => y <- max_pool2d x 1 2 0 ;; Ok [y]
  | LastLevelConv p5 => y <- conv_forward p5 x ;; Ok [y]
  | LastLevelP6P7 p6c p7c =>
      p6 <- conv_forward p6c x ;;
      r <- relu p6 ;;
      p7 <- conv_forward p7c r ;;
      Ok [p6; p7]
  | CustomTopBlock _ _ call => call x
  end.

(** *** The bottom-up backbone and the pyramid *)

Record Backbone : Type := {
  out_feature_strides : dict Z;
  out_feature_channels : dict Z;
  backbone_forward : Tensor -> result (dict Tensor)
}.

(** [modules] holds the entries of [self._modules] that [add_module]
    registers; the [bottom_up] and [top_block] entries of the same
    dictionary have other names and are never looked up by name. *)
Record FPN : Type := {
  modules : dict (Conv2d Norm);
  lateral_convs : list (Conv2d Norm);
  output_convs : list (Conv2d Norm);
  lateral_names : list string;
  output_conv_names : list string;
  top_block : option TopBlock;
  in_features : list string;
  bottom_up : Backbone;
  _out_feature_strides : dict Z;
  _out_features : list string;
  _out_feature_channels : dict Z;
  _size_divisibility : Z;
  _fuse_type : string
}.

Fixpoint assert_contiguous_from (strides : list Z) (i : nat) (rest : list Z)
  : result unit :=
  match rest with
  | [] => Ok tt
  | s :: rest' =>
      prev <- list_item strides (i - 1) ;;
      if s =? 2 * prev then assert_contiguous_from strides (S i) rest'
      else Raise AssertionError
  end.

(** [for i, stride in enumerate(strides[1:], 1): assert ...] *)
Definition _assert_strides_are_log2_contiguous (strides : list Z)
  : result unit :=
  assert_contiguous_from strides 1 (tl strides).

(** The local variables of [__init__] that its loop updates; [lv_stage] is
    [None] while [stage] is unbound. *)
Record Levels : Type := {
  lv_modules : dict (Conv2d Norm);
  lv_lateral_convs : list (Conv2d Norm);
  lv_output_convs : list (Conv2d Norm);
  lv_lateral_names : list string;
  lv_output_conv_names : list string;
  lv_stage : option Z
}.

Definition no_levels : Levels :=
  {| lv_modules := []; lv_lateral_convs := []; lv_output_convs := [];
     lv_lateral_names := []; lv_output_conv_names := []; lv_stage := None |}.

Definition add_level (in_strides : list Z) (out_channels : Z) (norm : string)
    (use_bias : bool) (lv : Levels) (idx : nat) (in_channels : Z)
  : Init Levels :=
  lateral_norm <~ lift (get_norm norm out_channels) ;;
  output_norm <~ lift (get_norm norm out_channels) ;;
  lateral_conv <~ new_Conv2d in_channels out_channels 1 1 0 use_bias lateral_norm ;;
  output_conv <~ new_Conv2d out_channels out_channels 3 1 1 use_bias output_norm ;;
  stage <~ lift (s <- list_item in_strides idx ;; int_log2 s) ;;
  let lname := ("fpn_lateral" ++ format_int stage)%string in
  let oname := ("fpn_output" ++ format_int stage)%string in
  ret {| lv_modules := dict_set (dict_set (lv_modules lv) lname lateral_conv)
                                oname output_conv;
         lv_lateral_convs := lv_lateral_convs lv ++ [lateral_conv];
         lv_output_convs := lv_output_convs lv ++ [output_conv];
         lv_lateral_names := lv_lateral_names lv ++ [lname];
         lv_output_conv_names := lv_output_conv_names lv ++ [oname];
         lv_stage := Some stage |}.

(** [for idx, in_channels in enumerate(in_channels): ...] *)
Fixpoint build_levels (in_strides : list Z) (out_channels : Z) (norm : string)
    (use_bias : bool) (lv : Levels) (idx : nat) (in_channels : list Z)
  : Init Levels :=
  match in_channels with
  | [] => ret lv
  | c :: rest =>
      lv' <~ add_level in_strides out_channels norm use_bias lv idx c ;;
      build_levels in_strides out_channels norm use_bias lv' (S idx) rest
  end.

Definition p_name (stage : Z) : string := ("p" ++ format_int stage)%string.

(** [{"p{}".format(int(math.log2(s))): s for s in in_strides}] *)
Definition pyramid_strides (in_strides : list Z) : result (dict Z) :=
  pairs <- mapM (fun s => stage <- int_log2 s ;; Ok (p_name stage, s)) in_strides ;;
  Ok (dict_of_pairs pairs).

(** The [for s in range(stage, stage + num_levels)] loop of [__init__]. *)
Definition top_block_strides (strides : dict Z) (stage : option Z)
    (tb : option TopBlock) : result (dict Z) :=
  match tb with
  | None => Ok strides
  | Some tb =>
      match stage with
      | None => Raise NameError
      | Some stage =>
          Ok (fold_left (fun d s => dict_set d (p_name (s + 1)) (2 ^ (s + 1)))
                        (py_range stage (stage + num_levels tb)) strides)
      end
  end.

Definition FPN_init (bottom_up : Backbone) (in_features : list string)
    (out_channels : Z) (norm : string) (top_block : option TopBlock)
    (fuse_type : string) : Init FPN :=
  in_strides <~ lift (mapM (dict_item (out_feature_strides bottom_up)) in_features) ;;
  in_channels <~ lift (mapM (dict_item (out_feature_channels bottom_up)) in_features) ;;
  _ <~ lift (_assert_strides_are_log2_contiguous in_strides) ;;
  let use_bias := String.eqb norm "" in
  lv <~ build_levels in_strides out_channels norm use_bias no_levels 0 in_channels ;;
  strides0 <~ lift (pyramid_strides in_strides) ;;
  strides <~ lift (top_block_strides strides0 (lv_stage lv) top_block) ;;
  let out_features := dict_keys strides in
  size_divisibility <~ lift (list_last in_strides) ;;
  if String.eqb fuse_type "avg" || String.eqb fuse_type "sum" then
    ret {| modules := lv_modules lv;
           lateral_convs := rev (lv_lateral_convs lv);
           output_convs := rev (lv_output_convs lv);
           lateral_names := rev (lv_lateral_names lv);
           output_conv_names := rev (lv_output_conv_names lv);
           top_block := top_block;
           in_features := in_features;
           bottom_up := bottom_up;
           _out_feature_strides := strides;
           _out_features := out_features;
           _out_feature_channels :=
             dict_of_pairs (map (fun k => (k, out_channels)) out_features);
           _size_divisibility := size_divisibility;
           _fuse_type := fuse_type |}
  else lift (Raise AssertionError).

Definition size_divisibility (self : FPN) : Z := _size_divisibility self.

(** *** Forward pass *)

(** The loop over [zip(x[1:], lateral_names[1:], output_conv_names[1:])]. *)
Fixpoint top_down (self : FPN) (levels : list (Tensor * string * string))
    (prev_features : Tensor) (results : list Tensor) : result (list Tensor) :=
  match levels with
  | [] => Ok results
  | (features, lateral_conv_name, output_conv_name) :: rest =>
      lateral_conv <- dict_item (modules self) lateral_conv_name ;;
      output_conv <- dict_item (modules self) output_conv_name ;;
      top_down_features <- interpolate prev_features 2 "nearest" ;;
      lateral_features <- conv_forward lateral_conv features ;;
      fused <- fuse (_fuse_type self) lateral_features top_down_features ;;
      out <- conv_forward output_conv fused ;;
      top_down self rest fused (out :: results)
  end.

(** The pyramid outputs, from high to low resolution, before the top
    block runs. *)
Definition pyramid (self : FPN) (bottom_up_features : dict Tensor)
  : result (list Tensor) :=
  x <- mapM (dict_item bottom_up_features) (rev (in_features self)) ;;
  lateral0 <- list_item (lateral_convs self) 0 ;;
  x0 <- list_item x 0 ;;
  prev_features <- conv_forward lateral0 x0 ;;
  output0 <- list_item (output_convs self) 0 ;;
  first <- conv_forward output0 prev_features ;;
  top_down self
    (zip3 (tl x) (tl (lateral_names self)) (tl (output_conv_names self)))
    prev_features [first].

(** The input of the top block: the bottom-up feature of that name or,
    failing that, the pyramid result at the position of the name among the
    output names. *)
Definition top_block_input (self : FPN) (tb : TopBlock)
    (bottom_up_features : dict Tensor) (results : list Tensor)
  : result Tensor :=
  match dict_get bottom_up_features (in_feature tb) with
  | Some t => Ok t
  | None =>
      i <- list_index (_out_features self) (in_feature tb) ;;
      list_item results i
  end.

Definition with_top_block (self : FPN) (bottom_up_features : dict Tensor)
    (results : list Tensor) : result (list Tensor) :=
  match top_block self with
  | None => Ok results
  | Some tb =>
      top_block_in_feature <- top_block_input self tb bottom_up_features results ;;
      extra <- top_block_forward tb top_block_in_feature ;;
      Ok (results ++ extra)
  end.

(** [forward] up to and including its assertion: the bottom-up features
    and the list [results]. *)
Definition forward_results (self : FPN) (x : Tensor)
  : result (dict Tensor * list Tensor) :=
  bottom_up_features <- backbone_forward (bottom_up self) x ;;
  pyr <- pyramid self bottom_up_features ;;
  results <- with_top_block self bottom_up_features pyr ;;
  if Nat.eqb (List.length (_out_features self)) (List.length results)
  then Ok (bottom_up_features, results)
  else Raise AssertionError.

Definition forward (self : FPN) (x : Tensor) : result (dict Tensor) :=
  ' (bottom_up_features, results) <- forward_results self x ;;
  let outputs := dict_of_pairs (combine (_out_features self) results) in
  res2 <- dict_item bottom_up_features "res2" ;;
  Ok (dict_set outputs "res2" res2).

(** *** Output shapes *)

Definition output_shape (self : FPN) : result (dict ShapeSpec) :=
  pairs <- mapM (fun name =>
                   c <- dict_item (_out_feature_channels self) name ;;
                   s <- dict_item (_out_feature_strides self) name ;;
                   Ok (name, {| channels := Some c; stride := Some s |}))
                (_out_features self) ;;
  Ok (dict_of_pairs pairs).

(** *** Builders

    The bottom-up network each builder obtains from [.resnet] (or
    [vgg19_bn]) is a parameter here.  The top block, a keyword argument of
    the call, is constructed before [FPN.__init__] runs. *)

Definition build_resnet_fpn_backbone (bottom_up : Backbone) : Init FPN :=
  tb <~ LastLevelMaxPool_init ;;
  FPN_init bottom_up ["res2"; "res3"; "res4"; "res5"]%string 256 ""
           (Some tb) "sum".

Definition build_resnet34_fpn_backbone (bottom_up : Backbone) (fpn_channel : Z)
  : Init FPN :=
  tb <~ LastLevelConv_init fpn_channel ;;
  FPN_init bottom_up ["res2"; "res3"; "res4"; "res5"]%string fpn_channel "BN"
           (Some tb) "sum".

Definition build_resnet18_fpn_backbone (bottom_up : Backbone) : Init FPN :=
  tb <~ LastLevelConv_init 128 ;;
  FPN_init bottom_up ["res2"; "res3"; "res4"; "res5"]%string 128 "BN"
           (Some tb) "sum".

Definition build_vgg_fpn_backbone (bottom_up : Backbone) : Init FPN :=
  tb <~ LastLevelConv_init 512 ;;
  FPN_init bottom_up ["p2"; "p3"; "p4"; "p5"]%string 256 ""
           (Some tb) "sum".

End Model.

Notation "x <~ e ;; k" := (ibind e (fun x => k))
  (at level 61, e at next level, right associativity).

(** ** Checkpoint loading

    A checkpoint file unpickles to a dictionary whose entry ["model"] maps
    dotted parameter names to arrays.  The live parameters of a module are
    its [state_dict()], a dictionary from dotted names to weights. *)

Class Arrays : Type := {
  NdArray : Type;
  Weights : Type;
  from_numpy : NdArray -> Weights;
  shape_of : Weights -> list Z
}.

Section Loading.
Context {A : Arrays}.

Inductive pyval : Type :=
| PyArray (a : NdArray)
| PyOther.

Inductive file : Type :=
| Pickle (top : dict (dict pyval))
| NotPickle.

Definition FileSystem : Type := string -> option file.

(** [os.path.exists(model_path)] *)
Definition path_exists (fs : FileSystem) (model_path : string) : bool :=
  match fs model_path with
  | Some _ => true
  | None => false
  end.

(** [pkl.load(open(model_path, "rb"))["model"]].  On a file that is not
    a pickle, [pkl.load] raises [UnpicklingError] or, depending on the
    bytes, another exception; one stands for all here. *)
Definition read_model (fs : FileSystem) (model_path : string)
  : result (dict pyval) :=
  match fs model_path with
  | None => Raise FileNotFoundError
  | Some NotPickle => Raise UnpicklingError
  | Some (Pickle top) => dict_item top "model"
  end.

(** [torch.from_numpy(v)] accepts arrays only. *)
Definition torch_from_numpy (v : pyval) : result Weights :=
  match v with
  | PyArray a => Ok (from_numpy a)
  | PyOther => Raise TypeError
  end.

Definition is_backbone_key (k : string) : bool :=
  String.eqb (first_segment k) "backbone".

(** The loop of [load_pretrain] that fills [new_checkpoint]. *)
Fixpoint backbone_entries (items : list (string * pyval))
    (new_checkpoint : dict Weights) : result (dict Weights) :=
  match items with
  | [] => Ok new_checkpoint
  | (k, v) :: rest =>
      if is_backbone_key k then
        t <- torch_from_numpy v ;;
        backbone_entries rest (dict_set new_checkpoint (drop_chars 9 k) t)
      else backbone_entries rest new_checkpoint
  end.

(** The loop of [load_bottom_up_pretrain]: every key, as it is. *)
Fixpoint all_entries (items : list (string * pyval))
    (new_checkpoint : dict Weights) : result (dict Weights) :=
  match items with
  | [] => Ok new_checkpoint
  | (k, v) :: rest =>
      t <- torch_from_numpy v ;;
      all_entries rest (dict_set new_checkpoint k t)
  end.

Fixpoint same_shape (a b : list Z) : bool :=
  match a, b with
  | [], [] => true
  | x :: a', y :: b' => (x =? y) && same_shape a' b'
  | _, _ => false
  end.

(** [a - b] on sets of keys. *)
Definition key_diff (a b : list string) : list string :=
  nodup string_dec (filter (fun k => negb (mem_string k b)) a).

(** The copy pass of [torch.nn.Module.load_state_dict]: a live entry takes
    the checkpoint value of the same name when the shapes agree; a shape
    that differs is an error to report and leaves the entry as it was.
    The library copies into the live tensor, converting the values to its
    element type; element types are not part of [Arrays], so the entry is
    the checkpoint value as it is. *)
Fixpoint copy_state (own : dict Weights) (state_dict : dict Weights)
  : dict Weights * bool :=
  match own with
  | [] => ([], false)
  | (k, w) :: own' =>
      let (rest, bad) := copy_state own' state_dict in
      match dict_get state_dict k with
      | Some w' =>
          if same_shape (shape_of w) (shape_of w') then ((k, w') :: rest, bad)
          else ((k, w) :: rest, true)
      | None => ((k, w) :: rest, bad)
      end
  end.

(** [torch.nn.Module.load_state_dict(state_dict, strict)], which the class
    inherits: after the copy pass it raises [RuntimeError] when a shape
    differed or, under [strict], when a live name is missing from
    [state_dict] or a name of [state_dict] is unexpected. *)
Definition load_state_dict (own state_dict : dict Weights) (strict : bool)
  : dict Weights * result unit :=
  let (own', bad_shape) := copy_state own state_dict in
  let missing := key_diff (dict_keys own) (dict_keys state_dict) in
  let unexpected := key_diff (dict_keys state_dict) (dict_keys own) in
  let mismatch :=
    match missing, unexpected with
    | [], [] => false
    | _, _ => true
    end in
  if bad_shape || (strict && mismatch) then (own', Raise RuntimeError)
  else (own', Ok tt).

(** What a loader leaves behind: the live parameters, the lines printed
    and how the call ended. *)
Record Loaded : Type := {
  params : dict Weights;
  printed : list string;
  outcome : result unit
}.

Definition no_checkpoint_msg (model_path : string) : string :=
  ("=> no checkpoint found at '" ++ model_path ++ "'")%string.
Definition missing_msg (model_path k : string) : string :=
  ("missing keys from checkpoint " ++ model_path ++ ": " ++ k)%string.
Definition remain_msg (model_path k : string) : string :=
  ("remaining keys from model " ++ model_path ++ ": " ++ k)%string.
Definition success_msg (model_path : string) : string :=
  ("successfully load model from " ++ model_path)%string.

(** The report after [load_state_dict] returned.  The sets are printed in
    the order of the dictionaries they come from; Python leaves the order
    of a set open. *)
Definition report (model_path : string) (ckpt_keys own_keys : list string)
  : list string :=
  let missing_keys := key_diff own_keys ckpt_keys in
  let remain_keys := key_diff ckpt_keys own_keys in
  map (missing_msg model_path) missing_keys
  ++ map (remain_msg model_path) remain_keys
  ++ (if Nat.eqb (List.length missing_keys) 0
         && Nat.eqb (List.length remain_keys) 0
      then [success_msg model_path] else []).

Definition load_with (self : dict Weights) (model_path : string)
    (out : list string) (new_checkpoint : result (dict Weights))
    (strict : bool) : Loaded :=
  match new_checkpoint with
  | Raise e => {| params := self; printed := out; outcome := Raise e |}
  | Ok checkpoint =>
      match load_state_dict self checkpoint strict with
      | (self', Raise e) =>
          {| params := self'; printed := out; outcome := Raise e |}
      | (self', Ok _) =>
          {| params := self';
             printed := out ++ report model_path (dict_keys checkpoint)
                                      (dict_keys self');
             outcome := Ok tt |}
      end
  end.

Definition load_pretrain (fs : FileSystem) (self : dict Weights)
    (model_path : string) : Loaded :=
  let out := if path_exists fs model_path then []
             else [no_checkpoint_msg model_path] in
  load_with self model_path out
    (checkpoint <- read_model fs model_path ;; backbone_entries checkpoint [])
    true.

(** [self] is the state of [self.bottom_up]. *)
Definition load_bottom_up_pretrain (fs : FileSystem) (self : dict Weights)
    (model_path : string) : Loaded :=
  load_with self model_path []
    (checkpoint <- read_model fs model_path ;; all_entries checkpoint [])
    false.

End Loading.

(** ** Instances

    Four implementations of the interfaces above: elementwise arithmetic
    on tensors of single-precision floats, a free implementation in which
    a tensor is the expression that computed it, one in which a tensor is
    its shape, and one-dimensional arrays of integers as checkpoint
    contents. *)

(** *** Tensors of single-precision floats

    The default element type of the tensor library: IEEE 754 binary32,
    with 24 bits of precision and infinities at the exponent 128,
    rounding to nearest, ties to even. *)












(** *** Symbolic tensors *)

Inductive Sym : Type :=
| SImage
| SFeature (name : string)
| SConv (uid : nat) (x : Sym)
| SInterpolate (x : Sym) (scale : Z) (mode : string)
| SAdd (a b : Sym)
| SDiv (a : Sym) (n : Z)
| SMaxPool (x : Sym) (kernel_size stride padding : Z)
| SRelu (x : Sym).

Definition SymOps : TensorOps :=
  {| Tensor := Sym;
     t_add := fun a b => Ok (SAdd a b);
     t_idiv := fun a n => Ok (SDiv a n) |}.

Definition SymFramework : Framework :=
  {| fw_ops := SymOps;
     Norm := string;
     get_norm := fun norm _ => Ok (if String.eqb norm "" then None else Some norm);
     conv_forward := fun c x => Ok (SConv (conv_uid c) x);
     interpolate := fun x scale mode => Ok (SInterpolate x scale mode);
     max_pool2d := fun x k s p => Ok (SMaxPool x k s p);
     relu := fun x => Ok (SRelu x) |}.

(** A backbone that returns, for every level it declares, the feature of
    that name. *)
Definition sym_backbone (levels : list (string * Z * Z)) : @Backbone SymFramework :=
  @Build_Backbone SymFramework
    (map (fun l => (fst (fst l), snd (fst l))) levels)
    (map (fun l => (fst (fst l), snd l)) levels)
    (fun _ => Ok (map (fun l => (fst (fst l), SFeature (fst (fst l)))) levels)).

Definition resnet_levels : list (string * Z * Z) :=
  [("res2", 4, 256); ("res3", 8, 512); ("res4", 16, 1024); ("res5", 32, 2048)]%string.

Definition deep_levels : list (string * Z * Z) :=
  [("res2", 4, 256); ("res4", 16, 1024); ("res5", 32, 2048); ("res6", 64, 2048)]%string.

Definition vgg_levels : list (string * Z * Z) :=
  [("res2", 4, 128); ("p2", 4, 128); ("p3", 8, 256); ("p4", 16, 512);
   ("p5", 32, 512)]%string.

Definition odd_levels : list (string * Z * Z) :=
  [("res2", 6, 64); ("res3", 12, 128)]%string.



Definition fresh : @InitState SymFramework := @Build_InitState SymFramework 0 [].

(** The object [nn.Conv2d(cin, cout, 3, 2, 1)] numbered [uid]. *)
Definition nn_conv (uid : nat) (cin cout : Z) : Conv2d (@Norm SymFramework) :=
  Build_Conv2d (@Norm SymFramework) uid cin cout 3 2 1 true None.

(** *** Tensors as sizes

    A tensor reduced to its size [(N, C, H, W)].  The operations check
    sizes as the library does and raise [RuntimeError] where it would. *)

Record Size : Type := {
  sz_batch : Z;
  sz_channels : Z;
  sz_height : Z;
  sz_width : Z
}.

(** One dimension of a broadcast: equal extents, or one of them 1. *)
Definition broadcast_dim (a b : Z) : result Z :=
  if a =? b then Ok a
  else if a =? 1 then Ok b
  else if b =? 1 then Ok a
  else Raise RuntimeError.

Definition size_add (a b : Size) : result Size :=
  n <- broadcast_dim (sz_batch a) (sz_batch b) ;;
  c <- broadcast_dim (sz_channels a) (sz_channels b) ;;
  h <- broadcast_dim (sz_height a) (sz_height b) ;;
  w <- broadcast_dim (sz_width a) (sz_width b) ;;
  Ok {| sz_batch := n; sz_channels := c; sz_height := h; sz_width := w |}.

Definition SizeOps : TensorOps :=
  {| Tensor := Size; t_add := size_add; t_idiv := fun a _ => Ok a |}.

(** The extent of a convolution or pooling output along one dimension. *)
Definition window_out (d kernel_size stride padding : Z) : Z :=
  (d + 2 * padding - kernel_size) / stride + 1.

Definition size_conv (c : Conv2d string) (t : Size) : result Size :=
  if (sz_channels t =? conv_in_channels c)
     && (0 <? conv_kernel_size c) && (0 <? conv_stride c)
     && (0 <=? conv_padding c)
     && (conv_kernel_size c <=? sz_height t + 2 * conv_padding c)
     && (conv_kernel_size c <=? sz_width t + 2 * conv_padding c)
  then Ok {| sz_batch := sz_batch t;
             sz_channels := conv_out_channels c;
             sz_height := window_out (sz_height t) (conv_kernel_size c)
                                     (conv_stride c) (conv_padding c);
             sz_width := window_out (sz_width t) (conv_kernel_size c)
                                    (conv_stride c) (conv_padding c) |}
  else Raise RuntimeError.

(** [F.interpolate(t, scale_factor=scale, mode="nearest")]; the other
    modes are not covered. *)
Definition size_interpolate (t : Size) (scale : Z) (mode : string)
  : result Size :=
  if String.eqb mode "nearest" && (0 <? scale)
  then Ok {| sz_batch := sz_batch t; sz_channels := sz_channels t;
             sz_height := sz_height t * scale;
             sz_width := sz_width t * scale |}
  else Raise RuntimeError.

Definition size_max_pool2d (t : Size) (kernel_size stride padding : Z)
  : result Size :=
  if (0 <? kernel_size) && (0 <? stride) && (0 <=? padding)
     && (2 * padding <=? kernel_size)
     && (kernel_size <=? sz_height t + 2 * padding)
     && (kernel_size <=? sz_width t + 2 * padding)
  then Ok {| sz_batch := sz_batch t; sz_channels := sz_channels t;
             sz_height := window_out (sz_height t) kernel_size stride padding;
             sz_width := window_out (sz_width t) kernel_size stride padding |}
  else Raise RuntimeError.

Definition SizeFramework : Framework :=
  {| fw_ops := SizeOps;
     Norm := string;
     get_norm := fun norm _ => Ok (if String.eqb norm "" then None else Some norm);
     conv_forward := size_conv;
     interpolate := size_interpolate;
     max_pool2d := size_max_pool2d;
     relu := fun x => Ok x |}.

(** A backbone that returns, for every level it declares, a feature with
    the channels of the level and the extents of the image divided by the
    stride of the level. *)
Definition size_backbone (levels : list (string * Z * Z)) : @Backbone SizeFramework :=
  @Build_Backbone SizeFramework
    (map (fun l => (fst (fst l), snd (fst l))) levels)
    (map (fun l => (fst (fst l), snd l)) levels)
    (fun x : Size =>
       Ok (map (fun l => (fst (fst l),
                          {| sz_batch := sz_batch x;
                             sz_channels := snd l;
                             sz_height := sz_height x / snd (fst l);
                             sz_width := sz_width x / snd (fst l) |}))
               levels)).

(** A batch of [n] RGB images of [h] by [w] pixels. *)
Definition images (n h w : Z) : Size :=
  {| sz_batch := n; sz_channels := 3; sz_height := h; sz_width := w |}.

Definition size_fresh : @InitState SizeFramework := @Build_InitState SizeFramework 0 [].

(** *** Checkpoints of integer vectors *)

Definition VectorArrays : Arrays :=
  {| NdArray := list Z;
     Weights := list Z;
     from_numpy := fun a => a;
     shape_of := fun w => [Z.of_nat (List.length w)] |}.

Definition weights (l : list Z) : @Weights VectorArrays := l.

Definition array (l : list Z) : @pyval VectorArrays := @PyArray VectorArrays l.

Definition no_files : @FileSystem VectorArrays := fun _ => None.

Definition one_file (path : string) (model : dict (@pyval VectorArrays))
  : @FileSystem VectorArrays :=
  fun p => if String.eqb p path then Some (Pickle [("model"%string, model)]) else None.

(** * Properties *)

(** ** Results and dictionaries *)

Lemma bind_Ok {A B : Type} (r : result A) (k : A -> result B) (b : B) :
  bind r k = Ok b -> exists a, r = Ok a /\ k a = Ok b.
Proof.
  destruct r as [a | e]; simpl; intros E; [eauto | discriminate].
Qed.

Tactic Notation "unbind" hyp(H) "as" ident(a) ident(Ha) :=
  apply bind_Ok in H; destruct H as (a & Ha & H).

Lemma mem_string_In (k : string) (l : list string) :
  mem_string k l = true <-> In k l.
Proof.
  unfold mem_string. rewrite existsb_exists. split.
  - intros (x & Hx & E). apply String.eqb_eq in E. now subst.
  - intros H. exists k. split; [assumption | apply String.eqb_refl].
Qed.

Lemma mem_string_not_In (k : string) (l : list string) :
  mem_string k l = false <-> ~ In k l.
Proof.
  rewrite <- mem_string_In. destruct (mem_string k l); split; congruence.
Qed.

Section DictFacts.
Context {V : Type}.
Implicit Types (d : dict V) (k : string) (v : V).

Lemma dict_get_set_same d k v : dict_get (dict_set d k v) k = Some v.
Proof.
  induction d as [| [k' v'] d IH]; simpl.
  - now rewrite String.eqb_refl.
  - destruct (String.eqb k' k) eqn:E; simpl; rewrite E; [reflexivity | exact IH].
Qed.

Lemma dict_get_None d k : dict_get d k = None <-> ~ In k (dict_keys d).
Proof.
  induction d as [| [k' v'] d IH]; simpl.
  - tauto.
  - destruct (String.eqb_spec k' k) as [-> | N].
    + split; [discriminate | intros H; exfalso; apply H; now left].
    + rewrite IH. tauto.
Qed.

Lemma dict_get_Some_In d k v : dict_get d k = Some v -> In k (dict_keys d).
Proof.
  intros H. destruct (in_dec string_dec k (dict_keys d)) as [I | N]; [assumption |].
  apply dict_get_None in N. congruence.
Qed.

Lemma dict_set_keys_present d k v :
  In k (dict_keys d) -> dict_keys (dict_set d k v) = dict_keys d.
Proof.
  induction d as [| [k' v'] d IH]; simpl; [tauto |].
  intros H. destruct (String.eqb_spec k' k) as [-> | N]; simpl; [reflexivity |].
  f_equal. apply IH. destruct H; [contradiction | assumption].
Qed.

Lemma dict_set_absent d k v :
  ~ In k (dict_keys d) -> dict_set d k v = d ++ [(k, v)].
Proof.
  induction d as [| [k' v'] d IH]; simpl; [reflexivity |].
  intros H. destruct (String.eqb_spec k' k) as [-> | N]; [tauto |].
  f_equal. apply IH. tauto.
Qed.

Lemma dict_set_keys_In d k v k0 :
  In k0 (dict_keys (dict_set d k v)) <-> k0 = k \/ In k0 (dict_keys d).
Proof.
  destruct (in_dec string_dec k (dict_keys d)) as [I | N].
  - rewrite dict_set_keys_present by assumption.
    split; [tauto | intros [-> | H]; assumption].
  - rewrite dict_set_absent by assumption.
    unfold dict_keys. rewrite map_app, in_app_iff. simpl. intuition congruence.
Qed.

(** Pairs with fresh and pairwise different keys are appended in order. *)
Lemma dict_extend (pairs : list (string * V)) d :
  NoDup (map fst pairs) ->
  (forall k, In k (map fst pairs) -> ~ In k (dict_keys d)) ->
  fold_left (fun d kv => dict_set d (fst kv) (snd kv)) pairs d = d ++ pairs.
Proof.
  revert d. induction pairs as [| [k v] pairs IH]; intros d ND Fresh; simpl.
  - now rewrite app_nil_r.
  - inversion ND as [| ? ? Hk ND']; subst.
    rewrite dict_set_absent by (apply Fresh; now left).
    rewrite IH; [now rewrite <- app_assoc | assumption |].
    intros k0 I0. unfold dict_keys. rewrite map_app, in_app_iff. simpl.
    intros [I | [-> | []]]; [| contradiction].
    apply (Fresh k0); [now right | exact I].
Qed.

Lemma dict_of_pairs_NoDup (pairs : list (string * V)) :
  NoDup (map fst pairs) -> dict_of_pairs pairs = pairs.
Proof.
  intros ND. unfold dict_of_pairs. rewrite dict_extend; auto.
Qed.
Lemma dict_get_set_other d k v k0 :
  k0 <> k -> dict_get (dict_set d k v) k0 = dict_get d k0.
Proof.
  intros N. induction d as [| [k' v'] d IH]; simpl.
  - destruct (String.eqb_spec k k0); congruence.
  - destruct (String.eqb_spec k' k) as [-> | N']; simpl.
    + destruct (String.eqb_spec k k0); congruence.
    + destruct (String.eqb_spec k' k0); [reflexivity | exact IH].
Qed.

Lemma dict_set_NoDup d k v :
  NoDup (dict_keys d) -> NoDup (dict_keys (dict_set d k v)).
Proof.
  intros ND. destruct (in_dec string_dec k (dict_keys d)) as [I | N].
  - now rewrite dict_set_keys_present.
  - rewrite dict_set_absent by assumption. unfold dict_keys in *.
    rewrite map_app. simpl. apply NoDup_app; [assumption | | ].
    + constructor; [intros [] | constructor].
    + intros x Hx [<- | []]. contradiction.
Qed.

(** A loop of assignments [d[f s] = g s]. *)
Lemma dict_fold_NoDup {S : Type} (f : S -> string) (g : S -> V) (l : list S) d :
  NoDup (dict_keys d) ->
  NoDup (dict_keys (fold_left (fun d s => dict_set d (f s) (g s)) l d)).
Proof.
  revert d. induction l as [| s l IH]; intros d ND; simpl; [assumption |].
  apply IH. now apply dict_set_NoDup.
Qed.

Lemma dict_fold_keys {S : Type} (f : S -> string) (g : S -> V) (l : list S) d k :
  In k (dict_keys (fold_left (fun d s => dict_set d (f s) (g s)) l d))
  <-> In k (dict_keys d) \/ In k (map f l).
Proof.
  revert d. induction l as [| s l IH]; intros d; simpl; [tauto |].
  rewrite IH, dict_set_keys_In. intuition congruence.
Qed.

Lemma dict_fold_get {S : Type} (f : S -> string) (g : S -> V) (h : string -> V)
      (l : list S) d k :
  (forall s, In s l -> g s = h (f s)) ->
  dict_get d k = Some (h k) \/ In k (map f l) ->
  dict_get (fold_left (fun d s => dict_set d (f s) (g s)) l d) k = Some (h k).
Proof.
  revert d. induction l as [| s l IH]; intros d G H; simpl.
  - destruct H as [H | []]. exact H.
  - apply IH; [intros s' I; apply G; now right |].
    destruct (string_dec k (f s)) as [-> | N].
    + left. rewrite dict_get_set_same. f_equal. apply G. now left.
    + rewrite dict_get_set_other by assumption.
      destruct H as [H | [E | H]]; [now left | congruence | now right].
Qed.

Lemma dict_fold_pairs {S : Type} (f : S -> string) (g : S -> V) (l : list S) d :
  fold_left (fun d s => dict_set d (f s) (g s)) l d
  = fold_left (fun d kv => dict_set d (fst kv) (snd kv))
              (map (fun s => (f s, g s)) l) d.
Proof.
  revert d. induction l as [| s l IH]; intros d; simpl; [reflexivity | apply IH].
Qed.

(** A comprehension [{k: h k for k in ks}]. *)
Lemma dict_comprehension_get (h : string -> V) (ks : list string) k :
  In k ks ->
  dict_get (dict_of_pairs (map (fun k => (k, h k)) ks)) k = Some (h k).
Proof.
  intros I. unfold dict_of_pairs.
  rewrite <- (dict_fold_pairs (fun k => k) h).
  apply dict_fold_get; [reflexivity | right; now rewrite map_id].
Qed.

Lemma dict_comprehension_keys (h : string -> V) (ks : list string) :
  NoDup ks -> dict_keys (dict_of_pairs (map (fun k => (k, h k)) ks)) = ks.
Proof.
  intros ND. rewrite dict_of_pairs_NoDup.
  - unfold dict_keys. rewrite map_map. simpl. apply map_id.
  - rewrite map_map. simpl. now rewrite map_id.
Qed.

Lemma dict_of_pairs_keys_NoDup (pairs : list (string * V)) :
  NoDup (dict_keys (dict_of_pairs pairs)).
Proof.
  unfold dict_of_pairs. apply (dict_fold_NoDup fst snd). constructor.
Qed.
End DictFacts.

Lemma mapM_total {X Y : Type} (f : X -> result Y) (g : X -> Y) (l : list X) :
  (forall x, In x l -> f x = Ok (g x)) -> mapM f l = Ok (map g l).
Proof.
  induction l as [| x l IH]; intros H; simpl; [reflexivity |].
  rewrite (H x) by now left. simpl. rewrite IH; [reflexivity |].
  intros y I. apply H. now right.
Qed.

Lemma py_range_In (a b s : Z) : In s (py_range a b) <-> a <= s < b.
Proof.
  unfold py_range. rewrite in_map_iff. split.
  - intros (i & <- & I). apply in_seq in I. lia.
  - intros H. exists (Z.to_nat (s - a)). split; [lia |].
    apply in_seq. lia.
Qed.

(** ** Checkpoint loading *)

Section LoadingFacts.
Context {A : Arrays}.

Lemma key_diff_In (a b : list string) (k : string) :
  In k (key_diff a b) <-> In k a /\ ~ In k b.
Proof.
  unfold key_diff. rewrite nodup_In, filter_In, negb_true_iff.
  now rewrite mem_string_not_In.
Qed.

Lemma key_diff_witness (a b : list string) :
  (exists k, In k a /\ ~ In k b) -> key_diff a b <> [].
Proof.
  intros (k & Ha & Hb) E.
  assert (I : In k (key_diff a b)) by (apply key_diff_In; tauto).
  rewrite E in I. exact I.
Qed.

Lemma copy_state_keys (own state_dict : dict Weights) :
  dict_keys (fst (copy_state own state_dict)) = dict_keys own.
Proof.
  induction own as [| [k w] own IH]; simpl; [reflexivity |].
  destruct (copy_state own state_dict) as [rest bad]. simpl in IH.
  destruct (dict_get state_dict k) as [w' |]; [| simpl; now f_equal].
  destruct (same_shape _ _); simpl; now f_equal.
Qed.

Lemma backbone_entries_filter (items : dict pyval) (acc : dict Weights) :
  backbone_entries (filter (fun kv => is_backbone_key (fst kv)) items) acc
  = backbone_entries items acc.
Proof.
  revert acc. induction items as [| [k v] items IH]; intros acc; simpl; [reflexivity |].
  destruct (is_backbone_key k) eqn:E; simpl; [| apply IH].
  rewrite E. destruct (torch_from_numpy v); simpl; [apply IH | reflexivity].
Qed.

Lemma backbone_entries_keys (items : dict pyval) (acc checkpoint : dict Weights) :
  backbone_entries items acc = Ok checkpoint ->
  forall r, In r (dict_keys checkpoint) ->
    In r (dict_keys acc) \/
    exists k v, In (k, v) items /\ is_backbone_key k = true /\ r = drop_chars 9 k.
Proof.
  revert acc. induction items as [| [k v] items IH]; intros acc H r I; simpl in H.
  - injection H as <-. now left.
  - destruct (is_backbone_key k) eqn:E.
    + unbind H as t Ht. destruct (IH _ H r I) as [I' | (k0 & v0 & I0 & R)].
      * apply dict_set_keys_In in I'. destruct I' as [-> | I']; [| now left].
        right. exists k, v. simpl. auto.
      * right. exists k0, v0. simpl. tauto.
    + destruct (IH _ H r I) as [I' | (k0 & v0 & I0 & R)]; [now left |].
      right. exists k0, v0. simpl. tauto.
Qed.

Lemma read_model_exists (fs : FileSystem) (model_path : string) (model : dict pyval) :
  read_model fs model_path = Ok model -> path_exists fs model_path = true.
Proof.
  unfold read_model, path_exists. destruct (fs model_path); [reflexivity | discriminate].
Qed.

(** C1 (as the code behaves): on a path that is not on disk [load_pretrain]
    prints the diagnostic, leaves every live parameter as it was, and then
    raises [FileNotFoundError] from [open]: it does not return. *)
Theorem load_pretrain_missing_file_raises :
  forall (fs : FileSystem) (self : dict Weights) (model_path : string),
    fs model_path = None ->
    load_pretrain fs self model_path
    = {| params := self;
         printed := [no_checkpoint_msg model_path];
         outcome := Raise FileNotFoundError |}.
Proof.
  intros fs self model_path H.
  unfold load_pretrain, path_exists, read_model. now rewrite H.
Qed.

(** C2 (as the code behaves): when the prefix-stripped names of an existing
    checkpoint and the live names differ, the strict [load_state_dict]
    raises [RuntimeError] after its copy pass; no warning is printed. *)
Theorem load_pretrain_mismatch_raises :
  forall (fs : FileSystem) (self : dict Weights) (model_path : string)
         (model : dict pyval) (checkpoint : dict Weights),
    read_model fs model_path = Ok model ->
    backbone_entries model [] = Ok checkpoint ->
    (exists k, In k (dict_keys checkpoint) /\ ~ In k (dict_keys self)) \/
    (exists k, In k (dict_keys self) /\ ~ In k (dict_keys checkpoint)) ->
    outcome (load_pretrain fs self model_path) = Raise RuntimeError /\
    printed (load_pretrain fs self model_path) = [] /\
    params (load_pretrain fs self model_path) = fst (copy_state self checkpoint).
Proof.
  intros fs self model_path model checkpoint R B D.
  unfold load_pretrain. rewrite (read_model_exists _ _ _ R), R. simpl bind.
  rewrite B. unfold load_with, load_state_dict.
  destruct (copy_state self checkpoint) as [own' bad]. simpl fst.
  assert (M : match key_diff (dict_keys self) (dict_keys checkpoint),
                    key_diff (dict_keys checkpoint) (dict_keys self) with
              | [], [] => false
              | _, _ => true
              end = true).
  { destruct D as [D | D]; apply key_diff_witness in D.
    - destruct (key_diff (dict_keys self) (dict_keys checkpoint)); [| reflexivity].
      destruct (key_diff (dict_keys checkpoint) (dict_keys self)); congruence.
    - destruct (key_diff (dict_keys self) (dict_keys checkpoint)); congruence. }
  rewrite M. simpl. rewrite orb_true_r. simpl. auto.
Qed.

(** Under [strict=True] the report that follows [load_state_dict] has
    nothing to list: a [load_pretrain] that returns has printed the success
    line and nothing else. *)
Lemma load_pretrain_Ok_prints_success (fs : FileSystem) (self : dict Weights)
      (model_path : string) :
  outcome (load_pretrain fs self model_path) = Ok tt ->
  printed (load_pretrain fs self model_path) = [success_msg model_path].
Proof.
  unfold load_pretrain, load_with.
  destruct (read_model fs model_path) as [model | e] eqn:R; [| discriminate].
  rewrite (read_model_exists _ _ _ R). simpl bind.
  destruct (backbone_entries model []) as [checkpoint | e]; [| discriminate].
  unfold load_state_dict.
  pose proof (copy_state_keys self checkpoint) as K.
  destruct (copy_state self checkpoint) as [own' bad]. simpl in K.
  destruct bad; [discriminate |]. simpl orb. simpl andb.
  destruct (key_diff (dict_keys self) (dict_keys checkpoint)) eqn:M;
    destruct (key_diff (dict_keys checkpoint) (dict_keys self)) eqn:U;
    simpl; try discriminate.
  intros _. unfold report. now rewrite K, M, U.
Qed.

Lemma load_pretrain_printed (fs : FileSystem) (self : dict Weights)
      (model_path : string) (model : dict pyval) :
  read_model fs model_path = Ok model ->
  printed (load_pretrain fs self model_path) = [] \/
  printed (load_pretrain fs self model_path) = [success_msg model_path].
Proof.
  intros R.
  destruct (outcome (load_pretrain fs self model_path)) as [[] | e] eqn:O.
  - right. now apply load_pretrain_Ok_prints_success.
  - left. revert O. unfold load_pretrain, load_with.
    rewrite (read_model_exists _ _ _ R), R. simpl bind.
    destruct (backbone_entries model []) as [checkpoint | e']; [| reflexivity].
    destruct (load_state_dict self checkpoint true) as [own' [[] | e']];
      [discriminate | reflexivity].
Qed.

(** C10: the entries of the checkpoint whose first dotted segment is not
    ["backbone"] play no part in [load_pretrain]: the stripped checkpoint
    and the whole outcome of the call are those of the checkpoint without
    them, every name of [remain_keys] is the stripped form of a retained
    key, and no remaining-keys line is printed for any key. *)
Theorem non_backbone_entries_are_dropped :
  forall (fs : FileSystem) (self : dict Weights) (model_path : string)
         (model : dict pyval),
    read_model fs model_path = Ok model ->
    let kept := filter (fun kv => is_backbone_key (fst kv)) model in
    let fs' := fun p => if String.eqb p model_path
                        then Some (Pickle [("model"%string, kept)]) else fs p in
    backbone_entries model [] = backbone_entries kept [] /\
    load_pretrain fs self model_path = load_pretrain fs' self model_path /\
    (forall checkpoint r,
        backbone_entries model [] = Ok checkpoint ->
        In r (key_diff (dict_keys checkpoint) (dict_keys self)) ->
        exists k v, In (k, v) model /\ is_backbone_key k = true /\
                    r = drop_chars 9 k) /\
    (forall k,
        ~ In (remain_msg model_path k)
             (printed (load_pretrain fs self model_path))).
Proof.
  intros fs self model_path model R kept fs'. split; [| split; [| split]].
  - symmetry. apply backbone_entries_filter.
  - unfold load_pretrain. rewrite (read_model_exists _ _ _ R), R.
    unfold path_exists, read_model, fs'. rewrite String.eqb_refl.
    simpl. unfold kept. now rewrite backbone_entries_filter.
  - intros checkpoint r B I. apply key_diff_In in I. destruct I as [I _].
    destruct (backbone_entries_keys _ _ _ B r I) as [[] | H]. exact H.
  - intros k.
    destruct (load_pretrain_printed fs self model_path model R) as [-> | ->].
    + intros [].
    + intros [H | []]. discriminate H.
Qed.

End LoadingFacts.

(** ** Construction *)

Lemma format_int_inj (a b : Z) : format_int a = format_int b -> a = b.
Proof.
  unfold format_int. intros E. apply DecimalZ.to_int_inj.
  assert (N : forall z, Z.to_int z <> Decimal.Pos Decimal.Nil /\
                        Z.to_int z <> Decimal.Neg Decimal.Nil).
  { intros [| p | p]; simpl; split; try discriminate;
      intros [= H]; exact (DecimalPos.Unsigned.to_uint_nonnil p H). }
  apply (f_equal NilZero.int_of_string) in E.
  rewrite !NilZero.isi in E by apply N. congruence.
Qed.

Lemma mapM_length {X Y : Type} (f : X -> result Y) (l : list X) (l' : list Y) :
  mapM f l = Ok l' -> List.length l' = List.length l.
Proof.
  revert l'. induction l as [| x l IH]; intros l' H; simpl in H.
  - injection H as <-. reflexivity.
  - unbind H as y Hy. unbind H as ys Hys. injection H as <-. simpl. f_equal.
    now apply IH.
Qed.

Lemma list_last_app {X : Type} (l : list X) (x : X) : list_last (l ++ [x]) = Ok x.
Proof.
  unfold list_last. now rewrite rev_app_distr.
Qed.

Lemma list_last_nth {X : Type} (l : list X) (x : X) :
  list_last l = Ok x -> nth_error l (List.length l - 1) = Some x.
Proof.
  destruct l as [| y l] using rev_ind; [discriminate |].
  rewrite list_last_app. intros [= ->].
  rewrite length_app. simpl. rewrite Nat.add_sub, nth_error_app2 by lia.
  now rewrite Nat.sub_diag.
Qed.

Lemma py_range_one (a : Z) : py_range a (a + 1) = [a].
Proof.
  unfold py_range. replace (a + 1 - a) with 1 by lia. simpl. f_equal. lia.
Qed.

Lemma py_range_NoDup (a b : Z) : NoDup (py_range a b).
Proof.
  unfold py_range. generalize (Z.to_nat (b - a)) as n. generalize 0%nat as i.
  intros i n. revert i. induction n as [| n IH]; intros i; simpl; constructor.
  - rewrite in_map_iff. intros (j & E & I). apply in_seq in I. lia.
  - apply IH.
Qed.

Lemma NoDup_map_inj {X Y : Type} (f : X -> Y) (l : list X) :
  (forall x y, In x l -> In y l -> f x = f y -> x = y) ->
  NoDup l -> NoDup (map f l).
Proof.
  induction l as [| x l IH]; intros Inj ND; simpl; constructor.
  - inversion ND as [| ? ? Hx ND']; subst. rewrite in_map_iff.
    intros (y & E & I). apply Hx.
    rewrite (Inj x y); [assumption | now left | now right | congruence].
  - inversion ND; subst. apply IH; [| assumption].
    intros a b Ia Ib. apply Inj; now right.
Qed.

Lemma list_index_last (l r : list string) (k : string) :
  NoDup (l ++ [k]) -> list_index ((l ++ [k]) ++ r) k = Ok (List.length l).
Proof.
  induction l as [| k' l IH]; intros ND; simpl.
  - now rewrite String.eqb_refl.
  - inversion ND as [| ? ? Hk ND']; subst.
    destruct (String.eqb_spec k' k) as [-> | N].
    + exfalso. apply Hk. apply in_or_app. right. now left.
    + now rewrite IH.
Qed.


Lemma list_item_last {X : Type} (l : list X) (x : X) :
  list_item (l ++ [x]) (List.length l) = Ok x.
Proof.
  unfold list_item. now rewrite nth_error_app2, Nat.sub_diag by lia.
Qed.

Section ModelFacts.
Context {F : Framework}.

Lemma p_name_inj (a b : Z) : p_name a = p_name b -> a = b.
Proof.
  unfold p_name. simpl. intros [= E]. now apply format_int_inj.
Qed.

Lemma ibind_Ok {X Y : Type} (m : Init X) (k : X -> Init Y) st st' (y : Y) :
  ibind m k st = (st', Ok y) ->
  exists x st1, m st = (st1, Ok x) /\ k x st1 = (st', Ok y).
Proof.
  unfold ibind. destruct (m st) as [st1 [x | e]]; intros H; [eauto | discriminate].
Qed.

Lemma lift_Ok {X : Type} (r : result X) st st' (x : X) :
  lift r st = (st', Ok x) -> r = Ok x /\ st' = st.
Proof.
  unfold lift. intros [= -> ->]. auto.
Qed.

Tactic Notation "unibind" hyp(H) "as" ident(x) ident(Hx) :=
  let st1 := fresh "st" in
  apply ibind_Ok in H; destruct H as (x & st1 & Hx & H).

(** A step [x <~ lift r ;; k] that succeeded. *)
Tactic Notation "unlift" hyp(H) "as" ident(x) ident(Hx) :=
  let st1 := fresh "st" in
  let E := fresh "E" in
  apply ibind_Ok in H; destruct H as (x & st1 & Hx & H);
  apply lift_Ok in Hx; destruct Hx as [Hx E]; subst st1.

Lemma assert_contiguous_from_step (pre rest : list Z) (p s : Z) :
  assert_contiguous_from (pre ++ p :: s :: rest) (S (List.length pre)) (s :: rest)
  = if s =? 2 * p
    then assert_contiguous_from ((pre ++ [p]) ++ s :: rest)
                                (S (List.length (pre ++ [p]))) rest
    else Raise AssertionError.
Proof.
  cbn [assert_contiguous_from]. unfold list_item.
  replace (S (List.length pre) - 1)%nat with (List.length pre) by lia.
  rewrite nth_error_app2, Nat.sub_diag by lia. cbn [nth_error bind].
  now rewrite <- app_assoc, length_app, Nat.add_1_r.
Qed.

(** The assertion on strides either passes or raises [AssertionError]; it
    never runs off the list. *)
Lemma assert_contiguous_from_cases (rest pre : list Z) (p : Z) :
  assert_contiguous_from (pre ++ p :: rest) (S (List.length pre)) rest = Ok tt \/
  assert_contiguous_from (pre ++ p :: rest) (S (List.length pre)) rest
  = Raise AssertionError.
Proof.
  revert pre p. induction rest as [| s rest IH]; intros pre p; [now left |].
  rewrite assert_contiguous_from_step.
  destruct (s =? 2 * p); [apply IH | now right].
Qed.

Lemma assert_contiguous_from_Ok (rest pre : list Z) (p : Z) :
  assert_contiguous_from (pre ++ p :: rest) (S (List.length pre)) rest = Ok tt ->
  forall i a b, nth_error (p :: rest) i = Some a ->
                nth_error (p :: rest) (S i) = Some b -> b = 2 * a.
Proof.
  revert pre p. induction rest as [| s rest IH]; intros pre p H i a b Ha Hb.
  - destruct i; discriminate.
  - rewrite assert_contiguous_from_step in H.
    destruct (Z.eqb_spec s (2 * p)) as [-> | N]; [| discriminate].
    destruct i as [| i].
    + cbn [nth_error] in Ha, Hb. congruence.
    + exact (IH _ _ H i a b Ha Hb).
Qed.

Lemma assert_strides_cases (strides : list Z) :
  _assert_strides_are_log2_contiguous strides = Ok tt \/
  _assert_strides_are_log2_contiguous strides = Raise AssertionError.
Proof.
  unfold _assert_strides_are_log2_contiguous.
  destruct strides as [| p rest]; [now left |].
  exact (assert_contiguous_from_cases rest [] p).
Qed.

Lemma assert_strides_Ok (strides : list Z) :
  _assert_strides_are_log2_contiguous strides = Ok tt ->
  forall i a b, nth_error strides i = Some a ->
                nth_error strides (S i) = Some b -> b = 2 * a.
Proof.
  unfold _assert_strides_are_log2_contiguous.
  destruct strides as [| p rest]; [intros _ [| i] a b H; discriminate |].
  exact (assert_contiguous_from_Ok rest [] p).
Qed.

(** C8: when some selected stride is not twice the one before it,
    [FPN.__init__] raises from [_assert_strides_are_log2_contiguous] (an
    [AssertionError] when the backbone also declares the channels of the
    selected features) and the construction state is the one it started
    from: no convolution has been created. *)
Theorem noncontiguous_strides_rejected :
  forall (bottom_up : Backbone) (in_features : list string) (out_channels : Z)
         (norm : string) (top_block : option TopBlock) (fuse_type : string)
         (st : InitState) (in_strides : list Z),
    mapM (dict_item (out_feature_strides bottom_up)) in_features = Ok in_strides ->
    (exists i a b, nth_error in_strides i = Some a /\
                   nth_error in_strides (S i) = Some b /\ b <> 2 * a) ->
    exists e,
      FPN_init bottom_up in_features out_channels norm top_block fuse_type st
      = (st, Raise e) /\
      (forall in_channels,
          mapM (dict_item (out_feature_channels bottom_up)) in_features
          = Ok in_channels -> e = AssertionError).
Proof.
  intros bottom_up in_features out_channels norm top_block fuse_type st in_strides
         Hs (i & a & b & Ha & Hb & N).
  assert (R : _assert_strides_are_log2_contiguous in_strides = Raise AssertionError).
  { destruct (assert_strides_cases in_strides) as [H | H]; [| exact H].
    exfalso. apply N. exact (assert_strides_Ok _ H i a b Ha Hb). }
  unfold FPN_init, ibind, lift. rewrite Hs.
  destruct (mapM (dict_item (out_feature_channels bottom_up)) in_features)
    as [in_channels | e] eqn:Hc.
  - rewrite R. exists AssertionError. split; [reflexivity | auto].
  - exists e. split; [reflexivity | intros ? [=]].
Qed.

Lemma int_log2_Ok (s z : Z) : int_log2 s = Ok z -> 0 < s /\ z = Z.log2 s.
Proof.
  unfold int_log2. destruct (Z.leb_spec s 0); [discriminate |].
  intros [= <-]. split; [assumption | reflexivity].
Qed.

Lemma add_level_stage in_strides out_channels norm use_bias lv idx c st st' lv' :
  add_level in_strides out_channels norm use_bias lv idx c st = (st', Ok lv') ->
  exists s, nth_error in_strides idx = Some s /\ 0 < s /\
            lv_stage lv' = Some (Z.log2 s).
Proof.
  unfold add_level. intros H.
  unlift H as lateral_norm Hln. unlift H as output_norm Hon.
  unibind H as lateral_conv Hlc. unibind H as output_conv Hoc.
  unlift H as stage Hst. unbind Hst as s Hs.
  apply int_log2_Ok in Hst. destruct Hst as [P ->].
  unfold ret in H. injection H as _ <-. exists s. simpl.
  unfold list_item in Hs. destruct (nth_error in_strides idx); [| discriminate].
  injection Hs as ->. auto.
Qed.

Lemma build_levels_stage in_strides out_channels norm use_bias :
  forall chs lv idx st st' lv',
    build_levels in_strides out_channels norm use_bias lv idx chs st = (st', Ok lv') ->
    chs <> [] ->
    exists s, nth_error in_strides (idx + List.length chs - 1) = Some s /\ 0 < s /\
              lv_stage lv' = Some (Z.log2 s).
Proof.
  induction chs as [| c chs IH]; intros lv idx st st' lv' H N; [congruence |].
  simpl in H. unibind H as lv1 H1. destruct chs as [| c' chs].
  - simpl in H. unfold ret in H. injection H as _ <-.
    apply add_level_stage in H1. simpl List.length.
    now replace (idx + 1 - 1)%nat with idx by lia.
  - apply IH in H; [| discriminate].
    simpl List.length in *.
    now replace (idx + S (S (List.length chs)) - 1)%nat
      with (S idx + S (List.length chs) - 1)%nat by lia.
Qed.

(** What a successful [FPN.__init__] has computed. *)
Lemma FPN_init_Ok bu feats out_channels norm tb fuse_type st st' fpn :
  FPN_init bu feats out_channels norm tb fuse_type st = (st', Ok fpn) ->
  exists in_strides strides0 last,
    mapM (dict_item (out_feature_strides bu)) feats = Ok in_strides /\
    _assert_strides_are_log2_contiguous in_strides = Ok tt /\
    list_last in_strides = Ok last /\ 0 < last /\
    pyramid_strides in_strides = Ok strides0 /\
    top_block_strides strides0 (Some (Z.log2 last)) tb
    = Ok (_out_feature_strides fpn) /\
    _out_features fpn = dict_keys (_out_feature_strides fpn) /\
    _out_feature_channels fpn
    = dict_of_pairs (map (fun k => (k, out_channels)) (_out_features fpn)) /\
    top_block fpn = tb /\
    in_features fpn = feats /\
    bottom_up fpn = bu /\
    _fuse_type fpn = fuse_type /\
    _size_divisibility fpn = last.
Proof.
  unfold FPN_init. intros H.
  unlift H as in_strides Hs. unlift H as in_channels Hc. unlift H as u Ha.
  unibind H as lv Hlv. unlift H as strides0 H0. unlift H as strides H1.
  unlift H as last Hl.
  destruct (String.eqb fuse_type "avg" || String.eqb fuse_type "sum");
    [| discriminate].
  unfold ret in H. injection H as _ <-. simpl.
  assert (L : List.length in_channels = List.length in_strides).
  { apply mapM_length in Hs, Hc. congruence. }
  assert (NE : in_channels <> []).
  { intros ->. destruct in_strides; discriminate. }
  destruct (build_levels_stage _ _ _ _ _ _ _ _ _ _ Hlv NE) as (s & Hn & P & St).
  simpl in Hn. rewrite L, (list_last_nth _ _ Hl) in Hn. injection Hn as <-.
  exists in_strides, strides0, last. rewrite St in H1. destruct u.
  repeat split; try assumption; reflexivity.
Qed.

Lemma out_strides_NoDup in_strides strides0 stage tb strides :
  pyramid_strides in_strides = Ok strides0 ->
  top_block_strides strides0 stage tb = Ok strides ->
  NoDup (dict_keys strides).
Proof.
  unfold pyramid_strides, top_block_strides. intros H0 H1.
  unbind H0 as pairs Hp. injection H0 as <-.
  pose proof (dict_of_pairs_keys_NoDup pairs) as ND.
  destruct tb as [tb |]; [| now injection H1 as <-].
  destruct stage as [stage |]; [| discriminate].
  injection H1 as <-. now apply dict_fold_NoDup.
Qed.

Lemma LastLevelP6P7_init_Ok cin cout s0 s1 tb :
  LastLevelP6P7_init cin cout s0 = (s1, Ok tb) ->
  exists p6 p7, tb = LastLevelP6P7 p6 p7 /\
                conv_out_channels p6 = cout /\ conv_out_channels p7 = cout.
Proof.
  unfold LastLevelP6P7_init, ibind, new_Conv2d, ret. intros [= _ <-].
  eexists _, _. repeat split.
Qed.

(** ** Output shapes *)

(** C9: for a constructed pyramid, [output_shape] lists exactly the output
    names and gives each the channel count [out_channels] with the stride
    recorded for it; the names contributed by the top block are among them,
    whatever the channel counts the top block's own convolutions were
    created with ([LastLevelP6P7(in_channels, out_channels)] sets those of
    its two convolutions independently of the pyramid's). *)
Theorem output_shape_reports_out_channels :
  forall (bottom_up : Backbone) (in_features : list string) (out_channels : Z)
         (norm : string) (top_block : option TopBlock) (fuse_type : string)
         (st st' : InitState) (fpn : FPN),
    FPN_init bottom_up in_features out_channels norm top_block fuse_type st
    = (st', Ok fpn) ->
    exists shapes,
      output_shape fpn = Ok shapes /\
      dict_keys shapes = _out_features fpn /\
      (forall name, In name (_out_features fpn) ->
         exists s, dict_get (_out_feature_strides fpn) name = Some s /\
                   dict_get shapes name
                   = Some {| channels := Some out_channels; stride := Some s |}) /\
      (forall tb s,
          top_block = Some tb ->
          Z.log2 (size_divisibility fpn) <= s
          < Z.log2 (size_divisibility fpn) + num_levels tb ->
          In (p_name (s + 1)) (_out_features fpn)) /\
      (forall tb cin cout s0 s1,
          top_block = Some tb ->
          LastLevelP6P7_init cin cout s0 = (s1, Ok tb) ->
          exists p6 p7, tb = LastLevelP6P7 p6 p7 /\
                        conv_out_channels p6 = cout /\
                        conv_out_channels p7 = cout).
Proof.
  intros bottom_up in_features out_channels norm top_block fuse_type st st' fpn H.
  destruct (FPN_init_Ok _ _ _ _ _ _ _ _ _ H)
    as (in_strides & strides0 & last & Hs & Ha & Hl & P & H0 & H1 & Hf & Hc
        & Ht & _ & _ & _ & Hd).
  pose proof (out_strides_NoDup _ _ _ _ _ H0 H1) as ND.
  set (h := fun name => {| channels := Some out_channels;
                           stride := dict_get (_out_feature_strides fpn) name |}).
  assert (M : mapM (fun name =>
                      c <- dict_item (_out_feature_channels fpn) name ;;
                      s <- dict_item (_out_feature_strides fpn) name ;;
                      Ok (name, {| channels := Some c; stride := Some s |}))
                   (_out_features fpn)
              = Ok (map (fun name => (name, h name)) (_out_features fpn))).
  { apply mapM_total. intros name I. unfold dict_item.
    rewrite Hc, (dict_comprehension_get (fun _ => out_channels)) by assumption.
    simpl. unfold h.
    destruct (dict_get (_out_feature_strides fpn) name) as [s |] eqn:G;
      [reflexivity |].
    apply dict_get_None in G. rewrite Hf in I. contradiction. }
  exists (dict_of_pairs (map (fun name => (name, h name)) (_out_features fpn))).
  split; [| split; [| split; [| split]]].
  - unfold output_shape. now rewrite M.
  - apply dict_comprehension_keys. now rewrite Hf.
  - intros name I.
    destruct (dict_get (_out_feature_strides fpn) name) as [s |] eqn:G.
    + exists s. split; [reflexivity |].
      rewrite (dict_comprehension_get h) by assumption. unfold h. now rewrite G.
    + apply dict_get_None in G. rewrite Hf in I. contradiction.
  - intros tb s -> R. unfold size_divisibility in R. rewrite Hd in R.
    simpl in H1. injection H1 as H1. rewrite Hf, <- H1.
    apply dict_fold_keys. right.
    apply (in_map (fun s => p_name (s + 1))). now apply py_range_In.
  - intros tb cin cout s0 s1 _ I. exact (LastLevelP6P7_init_Ok _ _ _ _ _ I).
Qed.

(** ** Output names and strides *)

Lemma pyramid_strides_Ok (in_strides : list Z) (strides0 : dict Z) :
  pyramid_strides in_strides = Ok strides0 ->
  Forall (fun s => 0 < s) in_strides /\
  strides0 = dict_of_pairs (map (fun s => (p_name (Z.log2 s), s)) in_strides).
Proof.
  unfold pyramid_strides. intros H. unbind H as pairs Hp. injection H as <-.
  enough (G : Forall (fun s => 0 < s) in_strides /\
              pairs = map (fun s => (p_name (Z.log2 s), s)) in_strides)
    by (destruct G as [G ->]; auto).
  revert pairs Hp. induction in_strides as [| s l IH]; intros pairs Hp; simpl in Hp.
  - injection Hp as <-. auto.
  - unbind Hp as kv Hkv. unbind Hp as rest Hrest. injection Hp as <-.
    unbind Hkv as stage Hst. injection Hkv as <-.
    apply int_log2_Ok in Hst. destruct Hst as [P ->].
    destruct (IH _ Hrest) as [Fa ->]. auto.
Qed.

(** The strides a top block adds come after those of the pyramid when the
    pyramid's stages do not exceed [stage]. *)
Lemma top_block_strides_append strides0 stage tb strides :
  (forall k, In k (dict_keys strides0) -> exists z, k = p_name z /\ z <= stage) ->
  top_block_strides strides0 (Some stage) (Some tb) = Ok strides ->
  strides = strides0
            ++ map (fun s => (p_name (s + 1), 2 ^ (s + 1)))
                   (py_range stage (stage + num_levels tb)).
Proof.
  intros K H. simpl in H. injection H as <-.
  rewrite dict_fold_pairs. apply dict_extend.
  - rewrite map_map. simpl. apply NoDup_map_inj; [| apply py_range_NoDup].
    intros a b _ _ E. apply p_name_inj in E. lia.
  - intros k I. rewrite map_map in I. simpl in I. apply in_map_iff in I.
    destruct I as (s & <- & I). apply py_range_In in I.
    intros I'. destruct (K _ I') as (z & E & B). apply p_name_inj in E. lia.
Qed.

(** C3, amended: with input strides [4, 8, 16, 32] the output strides are
    [p2: 4, p3: 8, p4: 16, p5: 32], followed, when a top block is attached,
    by one entry [p<s+1>: 2^(s+1)] for each of its levels
    [s = 5, ..., 5 + num_levels - 1]. *)
Theorem strides_4_8_16_32_outputs :
  forall (bottom_up : Backbone) (in_features : list string) (out_channels : Z)
         (norm : string) (top_block : option TopBlock) (fuse_type : string)
         (st st' : InitState) (fpn : FPN),
    mapM (dict_item (out_feature_strides bottom_up)) in_features
    = Ok [4; 8; 16; 32] ->
    FPN_init bottom_up in_features out_channels norm top_block fuse_type st
    = (st', Ok fpn) ->
    _out_feature_strides fpn
    = [("p2", 4); ("p3", 8); ("p4", 16); ("p5", 32)]%string
      ++ match top_block with
         | None => []
         | Some tb => map (fun s => (p_name (s + 1), 2 ^ (s + 1)))
                          (py_range 5 (5 + num_levels tb))
         end.
Proof.
  intros bottom_up in_features out_channels norm top_block fuse_type st st' fpn
         S4 H.
  destruct (FPN_init_Ok _ _ _ _ _ _ _ _ _ H)
    as (in_strides & strides0 & last & Hs & _ & Hl & _ & H0 & H1 & _).
  rewrite S4 in Hs. injection Hs as <-.
  injection Hl as <-. vm_compute in H0. injection H0 as <-.
  change (Z.log2 32) with 5 in H1.
  destruct top_block as [tb |].
  - apply top_block_strides_append in H1; [exact H1 |].
    intros k [<- | [<- | [<- | [<- | []]]]];
      [exists 2 | exists 3 | exists 4 | exists 5]; split; (reflexivity || lia).
  - simpl in H1. injection H1 as <-. reflexivity.
Qed.

Lemma contiguous_scaled (strides : list Z) (s0 : Z) :
  (forall i a b, nth_error strides i = Some a ->
                 nth_error strides (S i) = Some b -> b = 2 * a) ->
  nth_error strides 0 = Some s0 ->
  forall i s, nth_error strides i = Some s -> s = s0 * 2 ^ Z.of_nat i.
Proof.
  intros C H0. induction i as [| i IH]; intros s Hs.
  - rewrite H0 in Hs. injection Hs as <-. simpl. lia.
  - destruct (nth_error strides i) as [a |] eqn:Ha.
    + rewrite (C i a s Ha Hs), (IH a eq_refl), Nat2Z.inj_succ, Z.pow_succ_r by lia.
      ring.
    + apply nth_error_None in Ha.
      assert (nth_error strides (S i) = None) by (apply nth_error_None; lia).
      congruence.
Qed.

Lemma contiguous_stage (strides : list Z) (s0 : Z) :
  (forall i a b, nth_error strides i = Some a ->
                 nth_error strides (S i) = Some b -> b = 2 * a) ->
  nth_error strides 0 = Some s0 -> 0 < s0 ->
  forall i s, nth_error strides i = Some s -> Z.log2 s = Z.of_nat i + Z.log2 s0.
Proof.
  intros C H0 P i s Hs.
  rewrite (contiguous_scaled _ _ C H0 i s Hs). apply Z.log2_mul_pow2; lia.
Qed.

(** Contiguous positive strides give pairwise different output names. *)
Lemma pyramid_names_NoDup (strides : list Z) :
  (forall i a b, nth_error strides i = Some a ->
                 nth_error strides (S i) = Some b -> b = 2 * a) ->
  Forall (fun s => 0 < s) strides ->
  NoDup (map (fun s => p_name (Z.log2 s)) strides).
Proof.
  intros C Pos. destruct strides as [| s0 l] eqn:E; [constructor |].
  rewrite <- E in *. assert (H0 : nth_error strides 0 = Some s0) by now subst.
  assert (P0 : 0 < s0) by (subst; now inversion Pos).
  clear E. apply NoDup_nth_error. intros i j Li Eq.
  rewrite !nth_error_map in Eq. rewrite length_map in Li.
  destruct (nth_error strides i) as [a |] eqn:Ha;
    [| apply nth_error_None in Ha; lia].
  destruct (nth_error strides j) as [b |] eqn:Hb; [| discriminate].
  simpl in Eq. injection Eq as Eq. apply format_int_inj in Eq.
  rewrite (contiguous_stage _ _ C H0 P0 i a Ha),
          (contiguous_stage _ _ C H0 P0 j b Hb) in Eq. lia.
Qed.

Lemma contiguous_stage_le (strides : list Z) (last : Z) :
  (forall i a b, nth_error strides i = Some a ->
                 nth_error strides (S i) = Some b -> b = 2 * a) ->
  Forall (fun s => 0 < s) strides ->
  list_last strides = Ok last ->
  forall s, In s strides -> Z.log2 s <= Z.log2 last.
Proof.
  intros C Pos Hl s I. destruct strides as [| s0 l] eqn:E; [destruct I |].
  rewrite <- E in *. assert (H0 : nth_error strides 0 = Some s0) by now subst.
  assert (P0 : 0 < s0) by (subst; now inversion Pos).
  clear E. apply In_nth_error in I. destruct I as [i Hi].
  apply list_last_nth in Hl.
  rewrite (contiguous_stage _ _ C H0 P0 i s Hi),
          (contiguous_stage _ _ C H0 P0 _ last Hl).
  assert (i < List.length strides)%nat by (apply nth_error_Some; congruence).
  lia.
Qed.

(** The output strides of a constructed pyramid, level by level. *)
Lemma FPN_init_strides bu feats out_channels norm tb fuse_type st st' fpn :
  FPN_init bu feats out_channels norm tb fuse_type st = (st', Ok fpn) ->
  exists in_strides last,
    mapM (dict_item (out_feature_strides bu)) feats = Ok in_strides /\
    list_last in_strides = Ok last /\ 0 < last /\
    NoDup (map (fun s => p_name (Z.log2 s)) in_strides) /\
    _out_feature_strides fpn
    = map (fun s => (p_name (Z.log2 s), s)) in_strides
      ++ match tb with
         | None => []
         | Some tb => map (fun s => (p_name (s + 1), 2 ^ (s + 1)))
                          (py_range (Z.log2 last) (Z.log2 last + num_levels tb))
         end.
Proof.
  intros H.
  destruct (FPN_init_Ok _ _ _ _ _ _ _ _ _ H)
    as (in_strides & strides0 & last & Hs & Ha & Hl & P & H0 & H1 & _).
  pose proof (assert_strides_Ok _ Ha) as C.
  destruct (pyramid_strides_Ok _ _ H0) as [Pos E0].
  pose proof (pyramid_names_NoDup _ C Pos) as ND.
  rewrite dict_of_pairs_NoDup in E0
    by (rewrite map_map; simpl; exact ND).
  subst strides0. exists in_strides, last. repeat split; try assumption.
  destruct tb as [tb |].
  - apply top_block_strides_append in H1; [exact H1 |].
    intros k I. unfold dict_keys in I. rewrite map_map in I. simpl in I.
    apply in_map_iff in I. destruct I as (s & <- & I).
    exists (Z.log2 s). split; [reflexivity |].
    exact (contiguous_stage_le _ _ C Pos Hl s I).
  - simpl in H1. injection H1 as <-. now rewrite app_nil_r.
Qed.

(** The output names of a constructed pyramid all have the form [p<n>]. *)
Lemma FPN_init_names bu feats out_channels norm tb fuse_type st st' fpn :
  FPN_init bu feats out_channels norm tb fuse_type st = (st', Ok fpn) ->
  forall k, In k (_out_features fpn) -> exists z, k = p_name z.
Proof.
  intros H k I.
  destruct (FPN_init_Ok _ _ _ _ _ _ _ _ _ H)
    as (_ & _ & _ & _ & _ & _ & _ & _ & _ & Hf & _).
  destruct (FPN_init_strides _ _ _ _ _ _ _ _ _ H)
    as (in_strides & last & _ & _ & _ & _ & E).
  rewrite Hf, E in I. unfold dict_keys in I.
  rewrite map_app, in_app_iff, map_map in I. simpl in I.
  destruct I as [I | I].
  - apply in_map_iff in I. destruct I as (s & <- & _). eauto.
  - destruct tb as [tb |]; [| destruct I].
    rewrite map_map in I. simpl in I.
    apply in_map_iff in I. destruct I as (s & <- & _). eauto.
Qed.

(** ** Forward pass *)

Lemma forward_results_Ok (fpn : FPN) (x : Tensor) buf results :
  forward_results fpn x = Ok (buf, results) ->
  exists pyr,
    backbone_forward (bottom_up fpn) x = Ok buf /\
    pyramid fpn buf = Ok pyr /\
    with_top_block fpn buf pyr = Ok results /\
    List.length (_out_features fpn) = List.length results.
Proof.
  unfold forward_results. intros H.
  unbind H as buf' Hb. unbind H as pyr Hp. unbind H as res Hr.
  destruct (Nat.eqb_spec (List.length (_out_features fpn)) (List.length res));
    [| discriminate].
  injection H as -> ->. eauto.
Qed.

Lemma with_top_block_Ok (fpn : FPN) (tb : TopBlock) buf pyr results :
  top_block fpn = Some tb ->
  with_top_block fpn buf pyr = Ok results ->
  exists t extra,
    top_block_input fpn tb buf pyr = Ok t /\
    top_block_forward tb t = Ok extra /\
    results = pyr ++ extra.
Proof.
  unfold with_top_block. intros -> H.
  unbind H as t Ht. unbind H as extra He. injection H as <-. eauto.
Qed.



(** C7, amended: a pyramid constructed with [LastLevelMaxPool] over strides
    that end in [2^k] names its levels [p<log2 stride>] and adds exactly one
    level after them, [p<k+1>] with stride [2 * 2^k].  When [forward]
    reaches its assertion, the value of that level is
    [max_pool2d(t, kernel_size=1, stride=2, padding=0)], where [t] is the
    input found for the name ["p5"]; [t] is the last pyramid output when the
    last stride is 32 and the backbone returned no feature named ["p5"]. *)
Theorem maxpool_adds_one_level :
  forall (bu : Backbone) (feats : list string) (out_channels : Z)
         (norm : string) (fuse_type : string) (st st' : InitState) (fpn : FPN)
         (in_strides : list Z) (k : Z),
    FPN_init bu feats out_channels norm (Some LastLevelMaxPool) fuse_type st
    = (st', Ok fpn) ->
    mapM (dict_item (out_feature_strides bu)) feats = Ok in_strides ->
    list_last in_strides = Ok (2 ^ k) ->
    0 <= k ->
    _out_feature_strides fpn
    = map (fun s => (p_name (Z.log2 s), s)) in_strides
      ++ [(p_name (k + 1), 2 * 2 ^ k)] /\
    (forall x buf results,
        forward_results fpn x = Ok (buf, results) ->
        exists pyr t y,
          pyramid fpn buf = Ok pyr /\
          top_block_input fpn LastLevelMaxPool buf pyr = Ok t /\
          max_pool2d t 1 2 0 = Ok y /\
          results = pyr ++ [y] /\
          (k = 5 -> dict_get buf "p5" = None -> list_last pyr = Ok t)).
Proof.
  intros bu feats out_channels norm fuse_type st st' fpn in_strides k Hi Hs Hl K.
  destruct (FPN_init_strides _ _ _ _ _ _ _ _ _ Hi)
    as (in_strides' & last & Hs' & Hl' & P & ND & E).
  rewrite Hs in Hs'. injection Hs' as <-.
  rewrite Hl in Hl'. injection Hl' as <-.
  rewrite Z.log2_pow2 in E by assumption. simpl num_levels in E.
  rewrite py_range_one in E. cbn [map] in E.
  replace (2 ^ (k + 1)) with (2 * 2 ^ k) in E by (rewrite Z.pow_add_r; lia).
  split; [exact E |].
  intros x buf results Hf.
  destruct (forward_results_Ok _ _ _ _ Hf) as (pyr & Hb & Hp & Hw & Hlen).
  destruct (FPN_init_Ok _ _ _ _ _ _ _ _ _ Hi)
    as (_ & _ & _ & _ & _ & _ & _ & _ & _ & Hnames & _ & Ht & _).
  destruct (with_top_block_Ok _ _ _ _ _ Ht Hw) as (t & extra & Hin & Hfw & ->).
  simpl in Hfw. unbind Hfw as y Hy. injection Hfw as <-.
  exists pyr, t, y. repeat split; try assumption.
  intros -> Hnone. unfold top_block_input in Hin. simpl in_feature in Hin.
  rewrite Hnone in Hin.
  destruct in_strides as [| s l] using rev_ind; [discriminate |].
  rewrite list_last_app in Hl. injection Hl as ->.
  rewrite Hnames, E in Hin, Hlen. unfold dict_keys in Hin, Hlen.
  rewrite !map_app, !map_map in Hin, Hlen. simpl in Hin, Hlen.
  rewrite map_app in ND. simpl in ND.
  change (p_name (Z.log2 32)) with "p5"%string in ND.
  change (p_name (Z.log2 32)) with "p5"%string in Hin.
  rewrite list_index_last in Hin by exact ND. simpl in Hin.
  rewrite !length_app, !length_map in Hlen. simpl in Hlen.
  rewrite length_map in Hin.
  destruct pyr as [| z pyr] using rev_ind; [simpl in Hlen; lia |].
  rewrite length_app in Hlen. simpl in Hlen.
  assert (L : List.length l = List.length pyr) by lia.
  rewrite L, list_item_last in Hin. injection Hin as <-.
  apply list_last_app.
Qed.

End ModelFacts.

(** ** Fusion on tensors of floats *)



















(** ** The properties on concrete networks and checkpoints *)

Local Open Scope string_scope.

Lemma load_pretrain_missing_file_witness :
  load_pretrain (A := VectorArrays) no_files [("w", weights [1; 2])] "/tmp/none.pkl"
  = {| params := [("w", weights [1; 2])];
       printed := ["=> no checkpoint found at '/tmp/none.pkl'"];
       outcome := Raise FileNotFoundError |}.
Proof.
  exact (load_pretrain_missing_file_raises (A := VectorArrays)
           no_files [("w", weights [1; 2])] "/tmp/none.pkl" eq_refl).
Defined.

Lemma load_pretrain_mismatch_witness :
  let fs := one_file "ckpt.pkl"
              [("backbone.a", array [1]);
               ("backbone.b", array [2])] in
  let self := [("a", weights [0]); ("c", weights [0])] in
  outcome (load_pretrain (A := VectorArrays) fs self "ckpt.pkl")
  = Raise RuntimeError /\
  printed (load_pretrain (A := VectorArrays) fs self "ckpt.pkl") = [] /\
  params (load_pretrain (A := VectorArrays) fs self "ckpt.pkl")
  = [("a", weights [1]); ("c", weights [0])].
Proof.
  intros fs self.
  apply (load_pretrain_mismatch_raises (A := VectorArrays) fs self "ckpt.pkl"
           [("backbone.a", array [1]);
            ("backbone.b", array [2])]
           [("a", weights [1]); ("b", weights [2])]).
  - reflexivity.
  - reflexivity.
  - left. exists "b". split.
    + simpl. right. left. reflexivity.
    + simpl. intros [H | [H | []]]; discriminate H.
Defined.

(** The loader of the bottom-up weights passes [strict=False]: on names
    that differ it returns and prints both sets. *)
Example load_bottom_up_pretrain_reports :
  load_bottom_up_pretrain (A := VectorArrays)
    (one_file "ckpt.pkl" [("a", array [1]); ("b", array [2])])
    [("a", weights [0]); ("c", weights [0])] "ckpt.pkl"
  = {| params := [("a", weights [1]); ("c", weights [0])];
       printed := ["missing keys from checkpoint ckpt.pkl: c";
                   "remaining keys from model ckpt.pkl: b"];
       outcome := Ok tt |}.
Proof.
  reflexivity.
Qed.

Lemma non_backbone_entries_witness :
  let model := [("backbone.w", array [1]);
                ("head.w", PyOther);
                ("backbone.extra", array [2])] in
  let kept := [("backbone.w", array [1]);
               ("backbone.extra", array [2])] in
  let self := [("w", weights [0])] in
  backbone_entries model [] = backbone_entries kept [] /\
  load_pretrain (one_file "ckpt.pkl" model) self "ckpt.pkl"
  = load_pretrain
      (fun p => if String.eqb p "ckpt.pkl"
                then Some (Pickle [("model", kept)])
                else one_file "ckpt.pkl" model p) self "ckpt.pkl" /\
  (forall checkpoint r,
      backbone_entries model [] = Ok checkpoint ->
      In r (key_diff (dict_keys checkpoint) (dict_keys self)) ->
      exists k v, In (k, v) model /\ is_backbone_key k = true /\
                  r = drop_chars 9 k) /\
  (forall k,
      ~ In (remain_msg "ckpt.pkl" k)
           (printed (load_pretrain (one_file "ckpt.pkl" model) self "ckpt.pkl"))).
Proof.
  intros model kept self.
  exact (non_backbone_entries_are_dropped (A := VectorArrays)
           (one_file "ckpt.pkl" model) self "ckpt.pkl" model eq_refl).
Defined.

Lemma noncontiguous_strides_witness :
  exists e,
    FPN_init (sym_backbone deep_levels) ["res2"; "res4"; "res5"] 256 ""
             None "sum" fresh
    = (fresh, Raise e) /\
    (forall in_channels,
        mapM (dict_item (out_feature_channels (sym_backbone deep_levels)))
             ["res2"; "res4"; "res5"] = Ok in_channels ->
        e = AssertionError).
Proof.
  apply (noncontiguous_strides_rejected (F := SymFramework)
           (sym_backbone deep_levels) ["res2"; "res4"; "res5"] 256 ""
           None "sum" fresh [4; 16; 32]).
  - reflexivity.
  - exists 0%nat, 4, 16. split; [reflexivity | split; [reflexivity | lia]].
Defined.

(** C3, as stated, fails with a top block: the pyramid that
    [build_resnet_fpn_backbone] constructs over the strides 4, 8, 16, 32
    has a fifth entry, [p6: 64]. *)
Lemma strides_4_8_16_32_with_max_pool :
  exists st' fpn,
    mapM (dict_item (out_feature_strides (sym_backbone resnet_levels)))
         ["res2"; "res3"; "res4"; "res5"] = Ok [4; 8; 16; 32] /\
    build_resnet_fpn_backbone (sym_backbone resnet_levels) fresh = (st', Ok fpn) /\
    _out_feature_strides fpn
    = [("p2", 4); ("p3", 8); ("p4", 16); ("p5", 32); ("p6", 64)] /\
    _out_feature_strides fpn
    <> [("p2", 4); ("p3", 8); ("p4", 16); ("p5", 32)].
Proof.
  do 2 eexists. split; [reflexivity | split; [vm_compute; reflexivity |]].
  split; [reflexivity | simpl; discriminate].
Qed.

Lemma strides_4_8_16_32_witness :
  exists st' fpn,
    FPN_init (sym_backbone resnet_levels) ["res2"; "res3"; "res4"; "res5"]
             256 "" (Some LastLevelMaxPool) "sum" fresh = (st', Ok fpn) /\
    _out_feature_strides fpn
    = [("p2", 4); ("p3", 8); ("p4", 16); ("p5", 32); ("p6", 64)].
Proof.
  do 2 eexists. split; [vm_compute; reflexivity |].
  eapply (strides_4_8_16_32_outputs (F := SymFramework)
            (sym_backbone resnet_levels) ["res2"; "res3"; "res4"; "res5"]
            256 "" (Some LastLevelMaxPool) "sum" fresh).
  - reflexivity.
  - vm_compute. reflexivity.
Defined.






(** C7, as stated, fails when the pyramid does not end at [p5]: over the
    strides 16, 32, 64 the block still reads the level named ["p5"], so the
    added level [p7] is the max-pooling of [p5] and not of the last pyramid
    output [p6].  It also fails on strides that are no powers of two: over
    6, 12 the added level [p4] has stride 16, not 24. *)
Lemma maxpool_reads_p5_not_last_output :
  (exists st' fpn buf o4 o5 o6 y,
      FPN_init (sym_backbone deep_levels) ["res4"; "res5"; "res6"]
               256 "" (Some LastLevelMaxPool) "sum" fresh = (st', Ok fpn) /\
      _out_features fpn = ["p4"; "p5"; "p6"; "p7"] /\
      forward_results fpn SImage = Ok (buf, [o4; o5; o6; y]) /\
      max_pool2d (Framework := SymFramework) o5 1 2 0 = Ok y /\
      max_pool2d (Framework := SymFramework) o6 1 2 0 <> Ok y) /\
  (exists st' fpn,
      FPN_init (sym_backbone odd_levels) ["res2"; "res3"]
               256 "" (Some LastLevelMaxPool) "sum" fresh = (st', Ok fpn) /\
      size_divisibility fpn = 12 /\
      _out_feature_strides fpn = [("p2", 6); ("p3", 12); ("p4", 16)]).
Proof.
  split.
  - do 7 eexists. split; [vm_compute; reflexivity |].
    split; [reflexivity |].
    split; [vm_compute; reflexivity |].
    split; [reflexivity |].
    simpl. discriminate.
  - do 2 eexists. split; [vm_compute; reflexivity |].
    split; reflexivity.
Qed.

Lemma maxpool_adds_one_level_witness :
  exists st' fpn,
    FPN_init (sym_backbone resnet_levels) ["res2"; "res3"; "res4"; "res5"]
             256 "" (Some LastLevelMaxPool) "sum" fresh = (st', Ok fpn) /\
    _out_feature_strides fpn
    = (map (fun s => (p_name (Z.log2 s), s)) [4; 8; 16; 32]
       ++ [(p_name (5 + 1), 2 * 2 ^ 5)])%list /\
    (forall x buf results,
        forward_results fpn x = Ok (buf, results) ->
        exists pyr t y,
          pyramid fpn buf = Ok pyr /\
          top_block_input fpn LastLevelMaxPool buf pyr = Ok t /\
          max_pool2d t 1 2 0 = Ok y /\
          results = (pyr ++ [y])%list /\
          (5 = 5 -> dict_get buf "p5" = None -> list_last pyr = Ok t)).
Proof.
  do 2 eexists. split; [vm_compute; reflexivity |].
  eapply (maxpool_adds_one_level (F := SymFramework)
            (sym_backbone resnet_levels) ["res2"; "res3"; "res4"; "res5"]
            256 "" "sum" fresh).
  - vm_compute. reflexivity.
  - reflexivity.
  - reflexivity.
  - lia.
Defined.

Lemma output_shape_witness :
  let p6c := nn_conv 0 2048 128 in
  let p7c := nn_conv 1 128 128 in
  let st1 := @Build_InitState SymFramework 2 [p6c; p7c] in
  LastLevelP6P7_init 2048 128 fresh = (st1, Ok (LastLevelP6P7 p6c p7c)) /\
  conv_out_channels p6c = 128 /\ conv_out_channels p7c = 128 /\
  exists st' fpn shapes,
    FPN_init (sym_backbone resnet_levels) ["res3"; "res4"; "res5"]
             256 "" (Some (LastLevelP6P7 p6c p7c)) "sum" st1 = (st', Ok fpn) /\
    output_shape fpn = Ok shapes /\
    shapes = [("p3", {| channels := Some 256; stride := Some 8 |});
              ("p4", {| channels := Some 256; stride := Some 16 |});
              ("p5", {| channels := Some 256; stride := Some 32 |});
              ("p6", {| channels := Some 256; stride := Some 64 |});
              ("p7", {| channels := Some 256; stride := Some 128 |})].
Proof.
  intros p6c p7c st1.
  split; [reflexivity | split; [reflexivity | split; [reflexivity |]]].
  eassert (Hi : FPN_init (sym_backbone resnet_levels) ["res3"; "res4"; "res5"]
                  256 "" (Some (LastLevelP6P7 p6c p7c)) "sum" st1 = (_, Ok _))
    by (vm_compute; reflexivity).
  destruct (output_shape_reports_out_channels (F := SymFramework)
              _ _ _ _ _ _ _ _ _ Hi) as (shapes & Ho & _).
  do 2 eexists. exists shapes. split; [exact Hi |].
  split; [exact Ho |].
  vm_compute in Ho. now injection Ho as <-.
Defined.

(** * Further properties *)

Local Close Scope string_scope.

(** ** Checkpoint keys *)

Lemma append_cancel (p a b : string) :
  String.append p a = String.append p b -> a = b.
Proof.
  induction p as [| c p IH]; simpl; [auto | intros [= H]; auto].
Qed.

(** A key split at its first dot: the first segment is [seg] exactly when
    the key is [seg] or starts with [seg] and a dot. *)
Lemma first_segment_spec (seg : string) :
  first_segment seg = seg ->
  forall k,
    first_segment k = seg <->
    k = seg \/ exists rest, k = String.append seg (String "."%char rest).
Proof.
  induction seg as [| c seg IH]; intros D k.
  - destruct k as [| c' k]; simpl.
    + split; [now left | reflexivity].
    + destruct (Ascii.eqb_spec c' "."%char) as [-> | N].
      * split; [intros _; right; now exists k | reflexivity].
      * split; [discriminate | intros [H | (rest & [= H _])]; congruence].
  - simpl in D. destruct (Ascii.eqb_spec c "."%char) as [-> | Nc]; [discriminate |].
    injection D as D. destruct k as [| c' k]; simpl.
    + split; [discriminate | intros [H | (rest & H)]; discriminate].
    + destruct (Ascii.eqb_spec c' "."%char) as [-> | N].
      * split; [discriminate |].
        intros [[= H _] | (rest & [= H _])]; congruence.
      * split.
        -- intros [= -> H]. apply (IH D) in H.
           destruct H as [-> | (rest & ->)]; [now left | right; now exists rest].
        -- intros [[= -> ->] | (rest & [= -> ->])]; f_equal; apply (IH D); auto.
           right. now exists rest.
Qed.

Lemma same_shape_refl (s : list Z) : same_shape s s = true.
Proof.
  induction s as [| z s IH]; simpl; [reflexivity |].
  now rewrite Z.eqb_refl.
Qed.

Section LoaderFacts.
Context {A : Arrays}.

(** X1: [load_pretrain] retains exactly the key ["backbone"] and the keys
    that start with ["backbone."]; the name it stores is empty for the
    first and what follows the nine-character prefix for the others. *)
Theorem retained_keys_have_backbone_prefix :
  forall k : string,
    (is_backbone_key k = true <->
     k = "backbone"%string \/
     exists name, k = String.append "backbone." name) /\
    drop_chars 9 "backbone" = EmptyString /\
    (forall name, drop_chars 9 (String.append "backbone." name) = name).
Proof.
  intros k. split; [| split; reflexivity].
  unfold is_backbone_key. rewrite String.eqb_eq.
  rewrite (first_segment_spec "backbone" eq_refl). simpl. tauto.
Qed.

Lemma backbone_entries_prefixed (l : list (string * NdArray)) (acc : dict Weights) :
  NoDup (map fst l) ->
  (forall n, In n (map fst l) -> ~ In n (dict_keys acc)) ->
  backbone_entries
    (map (fun na => (String.append "backbone." (fst na), PyArray (snd na))) l) acc
  = Ok (acc ++ map (fun na => (fst na, from_numpy (snd na))) l).
Proof.
  revert acc. induction l as [| [n a] l IH]; intros acc ND Fr; simpl.
  - now rewrite app_nil_r.
  - inversion ND as [| ? ? Hn ND']; subst.
    rewrite dict_set_absent by (apply Fr; now left).
    rewrite IH; [now rewrite <- app_assoc | assumption |].
    intros n0 I0. unfold dict_keys. rewrite map_app, in_app_iff. simpl.
    intros [I | [-> | []]]; [| contradiction].
    apply (Fr n0); [now right | exact I].
Qed.

(** X2: a state dictionary saved under the prefix ["backbone."] comes back
    under its own names: the stripped checkpoint has the same names in the
    same order, each with the tensor of its array. *)
Theorem prefixed_state_dict_round_trip :
  forall l : list (string * NdArray),
    NoDup (map fst l) ->
    backbone_entries
      (map (fun na => (String.append "backbone." (fst na), PyArray (snd na))) l) []
    = Ok (map (fun na => (fst na, from_numpy (snd na))) l).
Proof.
  intros l ND. rewrite backbone_entries_prefixed; [reflexivity | assumption |].
  intros n _ [].
Qed.




Lemma load_with_names (self : dict Weights) model_path out nc strict :
  dict_keys (params (load_with self model_path out nc strict)) = dict_keys self.
Proof.
  unfold load_with, load_state_dict. destruct nc as [checkpoint | e]; [| reflexivity].
  pose proof (copy_state_keys self checkpoint) as K.
  destruct (copy_state self checkpoint) as [own' bad]. simpl in K.
  destruct (bad || _); assumption.
Qed.

(** X3: neither loader adds, removes, renames or reorders a live
    parameter, however the call ends. *)
Theorem loaders_keep_parameter_names :
  forall (fs : FileSystem) (self : dict Weights) (model_path : string),
    dict_keys (params (load_pretrain fs self model_path)) = dict_keys self /\
    dict_keys (params (load_bottom_up_pretrain fs self model_path))
    = dict_keys self.
Proof.
  intros fs self model_path. split; apply load_with_names.
Qed.

Lemma load_with_early_failure (self : dict Weights) model_path out nc strict e :
  outcome (load_with self model_path out nc strict) = Raise e ->
  e <> RuntimeError ->
  params (load_with self model_path out nc strict) = self /\
  printed (load_with self model_path out nc strict) = out.
Proof.
  unfold load_with, load_state_dict. destruct nc as [checkpoint | e']; [| auto].
  destruct (copy_state self checkpoint) as [own' bad].
  destruct (bad || _); simpl; [intros [= <-]; congruence | discriminate].
Qed.

(** X4: the live parameters change only inside [load_state_dict].  When a
    loader ends with any exception other than its [RuntimeError] (file not
    found, not a pickle, no ["model"] entry, a value that is not an array),
    every parameter is as before; [load_pretrain] has then printed at most
    its no-checkpoint line and [load_bottom_up_pretrain] nothing. *)
Theorem loaders_fail_early_without_change :
  forall (fs : FileSystem) (self : dict Weights) (model_path : string) (e : exn),
    e <> RuntimeError ->
    (outcome (load_pretrain fs self model_path) = Raise e ->
     params (load_pretrain fs self model_path) = self /\
     printed (load_pretrain fs self model_path)
     = if path_exists fs model_path then [] else [no_checkpoint_msg model_path]) /\
    (outcome (load_bottom_up_pretrain fs self model_path) = Raise e ->
     params (load_bottom_up_pretrain fs self model_path) = self /\
     printed (load_bottom_up_pretrain fs self model_path) = []).
Proof.
  intros fs self model_path e N. split; intros H;
    exact (load_with_early_failure _ _ _ _ _ _ H N).
Qed.








End LoaderFacts.

(** ** What the constructor builds *)

Lemma Forall2_rev {X Y : Type} (R : X -> Y -> Prop) (l : list X) (l' : list Y) :
  Forall2 R l l' -> Forall2 R (rev l) (rev l').
Proof.
  induction 1 as [| x y l l' Hxy H IH]; simpl; [constructor |].
  apply Forall2_app; [exact IH | repeat constructor; exact Hxy].
Qed.

Lemma Forall2_map_both {X Y Z' : Type} (R : Y -> Z' -> Prop)
      (f : X -> Y) (g : X -> Z') (l : list X) :
  (forall x, In x l -> R (f x) (g x)) -> Forall2 R (map f l) (map g l).
Proof.
  induction l as [| x l IH]; intros H; simpl; constructor.
  - apply H. now left.
  - apply IH. intros y I. apply H. now right.
Qed.

Lemma firstn_skipn_step {X : Type} (l : list X) (i n : nat) (x : X) :
  nth_error l i = Some x ->
  firstn (S n) (skipn i l) = x :: firstn n (skipn (S i) l).
Proof.
  revert l. induction i as [| i IH]; intros [| y l] H; try discriminate.
  - injection H as ->. reflexivity.
  - simpl in H. exact (IH l H).
Qed.

Lemma mapM_nth {X Y : Type} (f : X -> result Y) (l : list X) (l' : list Y) i a :
  mapM f l = Ok l' -> nth_error l i = Some a ->
  exists b, nth_error l' i = Some b /\ f a = Ok b.
Proof.
  revert l' i. induction l as [| x l IH]; intros l' i H Hn;
    [destruct i; discriminate |].
  simpl in H. unbind H as y Hy. unbind H as ys Hys. injection H as <-.
  destruct i as [| i]; simpl in *.
  - injection Hn as ->. eauto.
  - exact (IH _ _ Hys Hn).
Qed.

Lemma mapM_app {X Y : Type} (f : X -> result Y) (l1 l2 : list X) l1' l2' :
  mapM f l1 = Ok l1' -> mapM f l2 = Ok l2' ->
  mapM f (l1 ++ l2) = Ok (l1' ++ l2').
Proof.
  revert l1'. induction l1 as [| x l1 IH]; intros l1' H1 H2; simpl in *.
  - injection H1 as <-. exact H2.
  - unbind H1 as y Hy. unbind H1 as ys Hys. injection H1 as <-.
    rewrite Hy. simpl. now rewrite (IH _ Hys H2).
Qed.

Lemma mapM_rev {X Y : Type} (f : X -> result Y) (l : list X) (l' : list Y) :
  mapM f l = Ok l' -> mapM f (rev l) = Ok (rev l').
Proof.
  revert l'. induction l as [| x l IH]; intros l' H; simpl in *.
  - now injection H as <-.
  - unbind H as y Hy. unbind H as ys Hys. injection H as <-. simpl.
    apply mapM_app; [now apply IH |]. simpl. now rewrite Hy.
Qed.

Lemma Forall2_nth {X Y : Type} (R : X -> Y -> Prop) (l : list X) (l' : list Y) i y :
  Forall2 R l l' -> nth_error l' i = Some y ->
  exists x, nth_error l i = Some x /\ R x y.
Proof.
  intros H. revert i. induction H as [| a b l l' Hab H IH]; intros i Hn;
    [destruct i; discriminate |].
  destruct i as [| i]; simpl in *.
  - injection Hn as ->. eauto.
  - exact (IH _ Hn).
Qed.

(** Contiguous strides read backwards: each is twice the next. *)
Lemma contiguous_rev (l : list Z) :
  (forall i a b, nth_error l i = Some a ->
                 nth_error l (S i) = Some b -> b = 2 * a) ->
  forall i a b, nth_error (rev l) i = Some a ->
                nth_error (rev l) (S i) = Some b -> a = 2 * b.
Proof.
  intros C i a b Ha Hb. rewrite nth_error_rev in Ha, Hb.
  destruct (Nat.ltb_spec (S i) (List.length l)); [| discriminate].
  destruct (Nat.ltb_spec i (List.length l)); [| lia].
  apply (C (List.length l - S (S i))%nat); [exact Hb |].
  now replace (S (List.length l - S (S i))) with (List.length l - S i)%nat by lia.
Qed.

Lemma div_halving (H s : Z) : 0 < s -> (2 * s | H) -> H / s = 2 * (H / (2 * s)).
Proof.
  intros P [q ->]. rewrite Z.div_mul by lia.
  replace (q * (2 * s)) with (2 * q * s) by ring. now rewrite Z.div_mul by lia.
Qed.

Lemma Forall2_map_r {X Y Y' : Type} (R : X -> Y' -> Prop) (g : Y -> Y')
      (l : list X) (l' : list Y) :
  Forall2 (fun a b => R a (g b)) l l' -> Forall2 R l (map g l').
Proof.
  induction 1; simpl; constructor; assumption.
Qed.

Lemma Forall2_and_left {X Y : Type} (R : X -> Y -> Prop) (S : X -> Prop)
      (l : list X) (l' : list Y) :
  Forall2 R l l' -> (forall a, In a l -> S a) ->
  Forall2 (fun a b => S a /\ R a b) l l'.
Proof.
  induction 1 as [| a b l l' Hab H IH]; intros HS; constructor.
  - split; [apply HS; now left | exact Hab].
  - apply IH. intros a' I. apply HS. now right.
Qed.

Lemma py_range_nil (a b : Z) : b <= a -> py_range a b = [].
Proof.
  intros H. unfold py_range. now replace (Z.to_nat (b - a)) with 0%nat by lia.
Qed.

Lemma py_range_cons (a b : Z) : a < b -> py_range a b = a :: py_range (a + 1) b.
Proof.
  intros H. unfold py_range.
  replace (Z.to_nat (b - a)) with (S (Z.to_nat (b - (a + 1)))) by lia.
  cbn [seq map]. f_equal; [lia |].
  rewrite <- seq_shift, map_map. apply map_ext. intros i. lia.
Qed.

Lemma py_range_app (a b c : Z) :
  a <= b <= c -> py_range a b ++ py_range b c = py_range a c.
Proof.
  intros H. remember (Z.to_nat (b - a)) as n eqn:E.
  revert a H E. induction n as [| n IH]; intros a H E.
  - assert (a = b) by lia. subst a. now rewrite (py_range_nil b b) by lia.
  - rewrite (py_range_cons a b), (py_range_cons a c) by lia.
    simpl. f_equal. apply IH; lia.
Qed.

Lemma py_range_succ (a b : Z) :
  map (fun s => s + 1) (py_range a b) = py_range (a + 1) (b + 1).
Proof.
  unfold py_range. rewrite map_map.
  replace (b + 1 - (a + 1)) with (b - a) by lia.
  apply map_ext. intros i. lia.
Qed.

Lemma contiguous_powers (l : list Z) :
  forall j, 0 <= j ->
    (forall i a b, nth_error (2 ^ j :: l) i = Some a ->
                   nth_error (2 ^ j :: l) (S i) = Some b -> b = 2 * a) ->
    2 ^ j :: l
    = map (fun z => 2 ^ z) (py_range j (j + Z.of_nat (S (List.length l)))).
Proof.
  induction l as [| a l IH]; intros j J C.
  - cbn [List.length]. change (Z.of_nat 1) with 1. now rewrite py_range_one.
  - assert (E : a = 2 ^ (j + 1)).
    { rewrite (C 0%nat (2 ^ j) a eq_refl eq_refl), Z.pow_add_r by lia.
      change (2 ^ 1) with 2. ring. }
    subst a. rewrite py_range_cons by lia. cbn [map List.length]. f_equal.
    replace (j + Z.of_nat (S (S (List.length l))))
      with (j + 1 + Z.of_nat (S (List.length l))) by lia.
    apply IH; [lia |].
    intros i a b Ha Hb. exact (C (S i) a b Ha Hb).
Qed.

Section TopologyFacts.
Context {F : Framework}.

Local Abbreviation lname s := (String.append "fpn_lateral" (format_int (Z.log2 s))).
Local Abbreviation oname s := (String.append "fpn_output" (format_int (Z.log2 s))).
Local Abbreviation level := (Z * (Conv2d Norm * Conv2d Norm))%type.
Local Abbreviation register :=
  (fun (d : dict (Conv2d Norm)) (t : level) =>
     dict_set (dict_set d (lname (fst t)) (fst (snd t)))
              (oname (fst t)) (snd (snd t))).

Tactic Notation "unibind" hyp(H) "as" ident(x) ident(Hx) :=
  let st1 := fresh "st" in
  apply ibind_Ok in H; destruct H as (x & st1 & Hx & H).

Tactic Notation "unlift" hyp(H) "as" ident(x) ident(Hx) :=
  let st1 := fresh "st" in
  let E := fresh "E" in
  apply ibind_Ok in H; destruct H as (x & st1 & Hx & H);
  apply lift_Ok in Hx; destruct Hx as [Hx E]; subst st1.

Lemma add_level_Ok in_strides oc norm ub lv idx c st st' lv' :
  add_level in_strides oc norm ub lv idx c st = (st', Ok lv') ->
  exists n s,
    get_norm norm oc = Ok n /\ nth_error in_strides idx = Some s /\ 0 < s /\
    let l := Build_Conv2d Norm (next_uid st) c oc 1 1 0 ub n in
    let o := Build_Conv2d Norm (S (next_uid st)) oc oc 3 1 1 ub n in
    created st' = created st ++ [l; o] /\
    next_uid st' = S (S (next_uid st)) /\
    lv_modules lv' = register (lv_modules lv) (s, (l, o)) /\
    lv_lateral_convs lv' = lv_lateral_convs lv ++ [l] /\
    lv_output_convs lv' = lv_output_convs lv ++ [o] /\
    lv_lateral_names lv' = lv_lateral_names lv ++ [lname s] /\
    lv_output_conv_names lv' = lv_output_conv_names lv ++ [oname s].
Proof.
  unfold add_level. intros H.
  unlift H as n Hn. unlift H as n' Hn'.
  rewrite Hn in Hn'. injection Hn' as <-.
  unibind H as l Hl. unibind H as o Ho.
  unlift H as stage Hst. unbind Hst as s Hs.
  apply int_log2_Ok in Hst. destruct Hst as [P ->].
  unfold new_Conv2d in Hl, Ho. injection Hl as <- <-. injection Ho as <- <-.
  unfold ret in H. injection H as <- <-. exists n, s. simpl.
  unfold list_item in Hs. destruct (nth_error in_strides idx); [| discriminate].
  injection Hs as ->. rewrite <- app_assoc. repeat split; auto.
Qed.

Lemma build_levels_Ok in_strides oc norm ub :
  forall chs lv idx st st' lv',
    build_levels in_strides oc norm ub lv idx chs st = (st', Ok lv') ->
    exists lvls : list level,
      map fst lvls = firstn (List.length chs) (skipn idx in_strides) /\
      List.length lvls = List.length chs /\
      Forall2 (fun t c =>
                 0 < fst t /\
                 conv_in_channels (fst (snd t)) = c /\
                 conv_out_channels (fst (snd t)) = oc /\
                 conv_kernel_size (fst (snd t)) = 1 /\
                 conv_stride (fst (snd t)) = 1 /\
                 conv_padding (fst (snd t)) = 0 /\
                 conv_bias (fst (snd t)) = ub /\
                 get_norm norm oc = Ok (conv_norm (fst (snd t))) /\
                 conv_in_channels (snd (snd t)) = oc /\
                 conv_out_channels (snd (snd t)) = oc /\
                 conv_kernel_size (snd (snd t)) = 3 /\
                 conv_stride (snd (snd t)) = 1 /\
                 conv_padding (snd (snd t)) = 1 /\
                 conv_bias (snd (snd t)) = ub /\
                 get_norm norm oc = Ok (conv_norm (snd (snd t))))
              lvls chs /\
      created st' = created st ++ flat_map (fun t => [fst (snd t); snd (snd t)]) lvls /\
      lv_modules lv' = fold_left register lvls (lv_modules lv) /\
      lv_lateral_convs lv' = lv_lateral_convs lv ++ map (fun t => fst (snd t)) lvls /\
      lv_output_convs lv' = lv_output_convs lv ++ map (fun t => snd (snd t)) lvls /\
      lv_lateral_names lv' = lv_lateral_names lv ++ map (fun t => lname (fst t)) lvls /\
      lv_output_conv_names lv'
      = lv_output_conv_names lv ++ map (fun t => oname (fst t)) lvls.
Proof.
  induction chs as [| c chs IH]; intros lv idx st st' lv' H.
  - simpl in H. unfold ret in H. injection H as <- <-. exists [].
    simpl. rewrite !app_nil_r. repeat split; constructor.
  - cbn [build_levels] in H. unibind H as lv1 H1.
    destruct (add_level_Ok _ _ _ _ _ _ _ _ _ _ H1)
      as (n & s & Hn & Hs & P & Hc & _ & Hm & Hl & Ho & Hln & Hon).
    destruct (IH _ _ _ _ _ H)
      as (lvls & Hf & Hlen & H2 & Hc' & Hm' & Hl' & Ho' & Hln' & Hon').
    exists ((s, (Build_Conv2d Norm (next_uid st) c oc 1 1 0 ub n,
                 Build_Conv2d Norm (S (next_uid st)) oc oc 3 1 1 ub n)) :: lvls).
    cbn [map fst snd List.length flat_map fold_left].
    rewrite (firstn_skipn_step _ _ _ _ Hs), Hf.
    rewrite Hc', Hc, Hm', Hm, Hl', Hl, Ho', Ho, Hln', Hln, Hon', Hon.
    rewrite <- !app_assoc. cbn [app].
    repeat split; auto. constructor; [| exact H2]. simpl. repeat split; auto.
Qed.

(** A successful [FPN.__init__], level by level: [lvls] lists, from high to
    low resolution, each stride with the lateral and the output convolution
    created for it. *)
Lemma FPN_init_levels bu feats oc norm tb fuse_type st st' fpn :
  FPN_init bu feats oc norm tb fuse_type st = (st', Ok fpn) ->
  exists (in_strides in_channels : list Z) (lvls : list level),
    mapM (dict_item (out_feature_strides bu)) feats = Ok in_strides /\
    mapM (dict_item (out_feature_channels bu)) feats = Ok in_channels /\
    map fst lvls = in_strides /\
    NoDup (map (fun t => Z.log2 (fst t)) lvls) /\
    Forall2 (fun t c =>
               0 < fst t /\
               conv_in_channels (fst (snd t)) = c /\
               conv_out_channels (fst (snd t)) = oc /\
               conv_kernel_size (fst (snd t)) = 1 /\
               conv_stride (fst (snd t)) = 1 /\
               conv_padding (fst (snd t)) = 0 /\
               conv_bias (fst (snd t)) = String.eqb norm "" /\
               get_norm norm oc = Ok (conv_norm (fst (snd t))) /\
               conv_in_channels (snd (snd t)) = oc /\
               conv_out_channels (snd (snd t)) = oc /\
               conv_kernel_size (snd (snd t)) = 3 /\
               conv_stride (snd (snd t)) = 1 /\
               conv_padding (snd (snd t)) = 1 /\
               conv_bias (snd (snd t)) = String.eqb norm "" /\
               get_norm norm oc = Ok (conv_norm (snd (snd t))))
            lvls in_channels /\
    created st' = created st ++ flat_map (fun t => [fst (snd t); snd (snd t)]) lvls /\
    modules fpn = fold_left register lvls [] /\
    lateral_convs fpn = rev (map (fun t => fst (snd t)) lvls) /\
    output_convs fpn = rev (map (fun t => snd (snd t)) lvls) /\
    lateral_names fpn = rev (map (fun t => lname (fst t)) lvls) /\
    output_conv_names fpn = rev (map (fun t => oname (fst t)) lvls).
Proof.
  unfold FPN_init. intros H.
  unlift H as in_strides Hs. unlift H as in_channels Hc. unlift H as u Ha.
  unibind H as lv Hlv. unlift H as strides0 H0. unlift H as strides H1.
  unlift H as last Hl.
  destruct (String.eqb fuse_type "avg" || String.eqb fuse_type "sum");
    [| discriminate].
  unfold ret in H. injection H as <- <-. simpl.
  destruct (build_levels_Ok _ _ _ _ _ _ _ _ _ _ Hlv)
    as (lvls & Hf & Hlen & H2 & Hcr & Hm & Hlc & Hoc & Hln & Hon).
  assert (L : List.length in_channels = List.length in_strides).
  { apply mapM_length in Hs, Hc. congruence. }
  simpl in Hf. rewrite L, firstn_all in Hf.
  exists in_strides, in_channels, lvls. simpl in *.
  rewrite Hm, Hlc, Hoc, Hln, Hon.
  repeat split; auto.
  destruct u. pose proof (assert_strides_Ok _ Ha) as C.
  destruct (pyramid_strides_Ok _ _ H0) as [Pos _].
  pose proof (pyramid_names_NoDup _ C Pos) as ND.
  rewrite <- Hf, map_map in ND.
  rewrite <- (map_map (fun t => Z.log2 (fst t)) p_name) in ND.
  exact (NoDup_map_inv _ _ ND).
Qed.

Lemma combine_map_same {X Y Z' : Type} (f : X -> Y) (g : X -> Z') (l : list X) :
  combine (map f l) (map g l) = map (fun x => (f x, g x)) l.
Proof.
  induction l as [| x l IH]; simpl; [reflexivity | now f_equal].
Qed.

(** X7: a constructed pyramid owns, for every selected input feature, one
    1x1 lateral convolution from that feature's channels to [out_channels]
    and one 3x3 output convolution (stride 1, padding 1) on [out_channels],
    both with a bias exactly when [norm] is empty and with the layer
    [get_norm(norm, out_channels)] returned; the constructor has created
    these convolutions and no others, lateral before output, from the
    highest to the lowest resolution; the lists it keeps are in the
    opposite, top-down order. *)
Theorem constructor_creates_conv_pairs :
  forall (bu : Backbone) (feats : list string) (oc : Z) (norm : string)
         (tb : option TopBlock) (fuse_type : string) (st st' : InitState)
         (fpn : FPN) (in_channels : list Z),
    FPN_init bu feats oc norm tb fuse_type st = (st', Ok fpn) ->
    mapM (dict_item (out_feature_channels bu)) feats = Ok in_channels ->
    Forall2 (fun l c =>
               conv_in_channels l = c /\ conv_out_channels l = oc /\
               conv_kernel_size l = 1 /\ conv_stride l = 1 /\
               conv_padding l = 0 /\ conv_bias l = String.eqb norm "" /\
               get_norm norm oc = Ok (conv_norm l))
            (lateral_convs fpn) (rev in_channels) /\
    Forall2 (fun o (_ : Z) =>
               conv_in_channels o = oc /\ conv_out_channels o = oc /\
               conv_kernel_size o = 3 /\ conv_stride o = 1 /\
               conv_padding o = 1 /\ conv_bias o = String.eqb norm "" /\
               get_norm norm oc = Ok (conv_norm o))
            (output_convs fpn) (rev in_channels) /\
    created st'
    = created st
      ++ flat_map (fun lo => [fst lo; snd lo])
                  (combine (rev (lateral_convs fpn)) (rev (output_convs fpn))).
Proof.
  intros bu feats oc norm tb fuse_type st st' fpn in_channels H Hc.
  destruct (FPN_init_levels _ _ _ _ _ _ _ _ _ H)
    as (in_strides & in_channels' & lvls & _ & Hc' & _ & _ & H2 & Hcr
        & _ & Hl & Ho & _).
  rewrite Hc in Hc'. injection Hc' as <-.
  rewrite Hl, Ho, !rev_involutive, combine_map_same.
  split; [| split].
  - apply Forall2_rev. clear - H2.
    induction H2 as [| t c lvls chs Ht H2 IH]; simpl; constructor; [| exact IH].
    tauto.
  - apply Forall2_rev. clear - H2.
    induction H2 as [| t c lvls chs Ht H2 IH]; simpl; constructor; [| exact IH].
    tauto.
  - rewrite Hcr. f_equal. clear. induction lvls as [| t lvls IH]; simpl;
      [reflexivity | now rewrite IH].
Qed.

Lemma lname_inj (s s' : Z) : lname s = lname s' -> Z.log2 s = Z.log2 s'.
Proof.
  intros H. apply append_cancel in H. now apply format_int_inj.
Qed.

Lemma oname_inj (s s' : Z) : oname s = oname s' -> Z.log2 s = Z.log2 s'.
Proof.
  intros H. apply append_cancel in H. now apply format_int_inj.
Qed.

Lemma lname_oname (s s' : Z) : lname s <> oname s'.
Proof.
  simpl. discriminate.
Qed.

Lemma register_other (lvls : list level) (d : dict (Conv2d Norm)) (k : string) :
  (forall t, In t lvls -> k <> lname (fst t) /\ k <> oname (fst t)) ->
  dict_get (fold_left register lvls d) k = dict_get d k.
Proof.
  revert d. induction lvls as [| t lvls IH]; intros d H; simpl; [reflexivity |].
  rewrite IH by (intros t' I; apply H; now right).
  destruct (H t (or_introl eq_refl)) as [Nl No].
  now rewrite !dict_get_set_other.
Qed.

Lemma register_get (lvls : list level) (d : dict (Conv2d Norm)) :
  NoDup (map (fun t => Z.log2 (fst t)) lvls) ->
  forall t, In t lvls ->
    dict_get (fold_left register lvls d) (lname (fst t)) = Some (fst (snd t)) /\
    dict_get (fold_left register lvls d) (oname (fst t)) = Some (snd (snd t)).
Proof.
  revert d. induction lvls as [| t0 lvls IH]; intros d ND t I; [destruct I |].
  inversion ND as [| ? ? N0 ND']; subst. simpl. destruct I as [<- | I].
  - assert (Fr : forall t, In t lvls -> Z.log2 (fst t) <> Z.log2 (fst t0)).
    { intros t I E. apply N0. rewrite <- E.
      now apply (in_map (fun t => Z.log2 (fst t))). }
    rewrite !register_other.
    + rewrite dict_get_set_other by apply lname_oname.
      now rewrite !dict_get_set_same.
    + intros t I. split; [intros E; exact (lname_oname _ _ (eq_sym E)) |].
      intros E. apply oname_inj in E. exact (Fr t I (eq_sym E)).
    + intros t I. split; [| apply lname_oname].
      intros E. apply lname_inj in E. exact (Fr t I (eq_sym E)).
  - now apply IH.
Qed.

(** X8: in a pyramid constructed over strides that start at a power of
    two [2^j], the registry of named modules agrees with the lists: the
    names kept in [lateral_names] (in [output_conv_names]) are
    ["fpn_lateral<z>"] (["fpn_output<z>"]) for the stages
    [z = j + n - 1, ..., j] of the [n] selected features, from the lowest
    resolution to the highest, and looking the name at a position up in
    [_modules] gives the convolution at the same position of
    [lateral_convs] ([output_convs]).  So [forward], which takes the first
    level from the lists and the others by name, uses one and the same
    pair of convolutions per level. *)
Theorem modules_match_conv_lists :
  forall (bu : Backbone) (feats : list string) (oc : Z) (norm : string)
         (tb : option TopBlock) (fuse_type : string) (st st' : InitState)
         (fpn : FPN) (in_strides : list Z) (j : Z),
    FPN_init bu feats oc norm tb fuse_type st = (st', Ok fpn) ->
    mapM (dict_item (out_feature_strides bu)) feats = Ok in_strides ->
    nth_error in_strides 0 = Some (2 ^ j) ->
    0 <= j ->
    lateral_names fpn
    = rev (map (fun z => String.append "fpn_lateral" (format_int z))
               (py_range j (j + Z.of_nat (List.length feats)))) /\
    output_conv_names fpn
    = rev (map (fun z => String.append "fpn_output" (format_int z))
               (py_range j (j + Z.of_nat (List.length feats)))) /\
    Forall2 (fun name c => dict_get (modules fpn) name = Some c)
            (lateral_names fpn) (lateral_convs fpn) /\
    Forall2 (fun name c => dict_get (modules fpn) name = Some c)
            (output_conv_names fpn) (output_convs fpn).
Proof.
  intros bu feats oc norm tb fuse_type st st' fpn in_strides j H Hs N0 J.
  destruct (FPN_init_levels _ _ _ _ _ _ _ _ _ H)
    as (in_strides' & in_channels & lvls & Hs' & _ & Hf & ND & _ & _
        & Hm & Hl & Ho & Hln & Hon).
  rewrite Hs in Hs'. injection Hs' as <-.
  destruct (FPN_init_Ok _ _ _ _ _ _ _ _ _ H)
    as (in_strides0 & _ & _ & Hs0 & Ha & _).
  rewrite Hs in Hs0. injection Hs0 as <-.
  pose proof (assert_strides_Ok _ Ha) as C.
  pose proof (mapM_length _ _ _ Hs) as Ls.
  assert (P : map fst lvls
              = map (fun z => 2 ^ z)
                    (py_range j (j + Z.of_nat (List.length feats)))).
  { rewrite Hf, <- Ls. destruct in_strides as [| s0 l]; [discriminate |].
    injection N0 as ->. exact (contiguous_powers l j J C). }
  assert (Names : forall prefix : string,
             map (fun t => String.append prefix (format_int (Z.log2 (fst t)))) lvls
             = map (fun z => String.append prefix (format_int z))
                   (py_range j (j + Z.of_nat (List.length feats)))).
  { intros prefix.
    rewrite <- (map_map fst (fun s => String.append prefix (format_int (Z.log2 s)))).
    rewrite P, map_map. apply map_ext_in. intros z I. apply py_range_In in I.
    now rewrite Z.log2_pow2 by lia. }
  rewrite Hln, Hon, Hl, Ho, Hm, (Names "fpn_lateral"%string),
          (Names "fpn_output"%string).
  split; [reflexivity | split; [reflexivity |]].
  rewrite <- (Names "fpn_lateral"%string), <- (Names "fpn_output"%string).
  split; apply Forall2_rev, Forall2_map_both; intros t I; now apply register_get.
Qed.

(** ** What [forward] computes *)

Lemma zip3_length {X Y Z' : Type} (a : list X) (b : list Y) (c : list Z') :
  List.length (zip3 a b c)
  = Nat.min (List.length a) (Nat.min (List.length b) (List.length c)).
Proof.
  revert b c. induction a as [| x a IH]; intros [| y b] [| z c]; simpl;
    try reflexivity.
  now rewrite IH.
Qed.

Lemma top_down_shape (self : FPN) levels prev results r :
  top_down self levels prev results = Ok r ->
  exists front, r = front ++ results /\ List.length front = List.length levels.
Proof.
  revert prev results r. induction levels as [| [[x ln] on] levels IH];
    intros prev results r H; simpl in H.
  - injection H as <-. now exists [].
  - unbind H as lc Hlc. unbind H as ocv Hoc. unbind H as td Htd.
    unbind H as lf Hlf. unbind H as fused Hfu. unbind H as out Hout.
    destruct (IH _ _ _ H) as (front & -> & L).
    exists (front ++ [out]). rewrite <- app_assoc, length_app. simpl.
    split; [reflexivity | lia].
Qed.

Lemma mapM_In {X Y : Type} (f : X -> result Y) (l : list X) (l' : list Y) :
  mapM f l = Ok l' -> forall x, In x l -> exists y, f x = Ok y.
Proof.
  revert l'. induction l as [| a l IH]; intros l' H x I; [destruct I |].
  simpl in H. unbind H as b Hb. unbind H as bs Hbs.
  destruct I as [<- | I]; [eauto | exact (IH _ Hbs x I)].
Qed.

(** X9: the coarsest pyramid output has no top-down term: whenever the
    pyramid is computed, its last element is the first output convolution
    applied to the first lateral convolution of the bottom-up feature named
    last in [in_features]; and the pyramid never has more levels than there
    are input features. *)
Theorem coarsest_level_is_not_fused :
  forall (fpn : FPN) (buf : dict Tensor) (pyr : list Tensor),
    pyramid fpn buf = Ok pyr ->
    exists name x0 l0 o0 p f,
      list_last (in_features fpn) = Ok name /\
      dict_get buf name = Some x0 /\
      nth_error (lateral_convs fpn) 0 = Some l0 /\
      nth_error (output_convs fpn) 0 = Some o0 /\
      conv_forward l0 x0 = Ok p /\
      conv_forward o0 p = Ok f /\
      list_last pyr = Ok f /\
      (List.length pyr <= List.length (in_features fpn))%nat.
Proof.
  intros fpn buf pyr H. unfold pyramid in H.
  unbind H as xs Hxs. unbind H as l0 Hl0. unbind H as x0 Hx0.
  unbind H as p Hp. unbind H as o0 Ho0. unbind H as f Hf.
  destruct (top_down_shape _ _ _ _ _ H) as (front & -> & L).
  pose proof (mapM_length _ _ _ Hxs) as Lx. rewrite length_rev in Lx.
  unfold list_item in Hl0, Hx0, Ho0.
  destruct (nth_error (lateral_convs fpn) 0) as [l0' |]; [| discriminate].
  destruct (nth_error (output_convs fpn) 0) as [o0' |]; [| discriminate].
  injection Hl0 as ->. injection Ho0 as ->.
  destruct xs as [| x0' xs]; [discriminate |]. injection Hx0 as ->.
  destruct (rev (in_features fpn)) as [| name names] eqn:R; [discriminate |].
  simpl in Hxs. unbind Hxs as y Hy. unbind Hxs as ys Hys. injection Hxs as -> ->.
  exists name, x0, l0, o0, p, f. unfold list_last at 1. rewrite R.
  unfold dict_item in Hy. destruct (dict_get buf name); [| discriminate].
  injection Hy as ->.
  repeat split; auto; [apply list_last_app |].
  rewrite length_app, L, zip3_length. simpl in *. lia.
Qed.

(** In a constructed pyramid there is one result per input feature. *)
Lemma pyramid_length bu feats oc norm tb fuse_type st st' fpn buf pyr :
  FPN_init bu feats oc norm tb fuse_type st = (st', Ok fpn) ->
  pyramid fpn buf = Ok pyr ->
  List.length pyr = List.length feats.
Proof.
  intros Hi H.
  destruct (FPN_init_levels _ _ _ _ _ _ _ _ _ Hi)
    as (in_strides & in_channels & lvls & Hs & _ & Hf & _ & _ & _
        & _ & _ & _ & Hln & Hon).
  destruct (FPN_init_Ok _ _ _ _ _ _ _ _ _ Hi)
    as (_ & _ & _ & _ & _ & _ & _ & _ & _ & _ & _ & _ & Hfe & _).
  unfold pyramid in H.
  unbind H as xs Hxs. unbind H as l0 Hl0. unbind H as x0 Hx0.
  unbind H as p Hp. unbind H as o0 Ho0. unbind H as f Hf0.
  destruct (top_down_shape _ _ _ _ _ H) as (front & -> & L).
  pose proof (mapM_length _ _ _ Hxs) as Lx. rewrite length_rev, Hfe in Lx.
  pose proof (mapM_length _ _ _ Hs) as Ls.
  assert (Ll : List.length lvls = List.length feats).
  { rewrite <- Ls, <- Hf. now rewrite length_map. }
  rewrite length_app, L, zip3_length, Hln, Hon. simpl.
  destruct xs as [| x1 xs]; [discriminate |]. simpl in *.
  assert (E : forall (g : level -> string),
             List.length (tl (rev (map g lvls))) = List.length xs).
  { intros g. destruct (rev (map g lvls)) as [| a r] eqn:R.
    - apply (f_equal (@List.length _)) in R.
      rewrite length_rev, length_map in R. simpl in R. lia.
    - apply (f_equal (@List.length _)) in R.
      rewrite length_rev, length_map in R. simpl in *. lia. }
  rewrite !E. lia.
Qed.

Lemma combine_fst {X Y : Type} (l : list X) (l' : list Y) :
  List.length l = List.length l' -> map fst (combine l l') = l.
Proof.
  revert l'. induction l as [| x l IH]; intros [| y l'] H; simpl in *;
    try discriminate; [reflexivity |].
  f_equal. apply IH. lia.
Qed.

Lemma combine_get {X : Type} (ks : list string) (vs : list X) (i : nat) k :
  NoDup ks -> nth_error ks i = Some k ->
  List.length ks = List.length vs ->
  dict_get (combine ks vs) k = nth_error vs i.
Proof.
  revert vs i. induction ks as [| k0 ks IH]; intros [| v vs] i ND Hk L;
    simpl in *; try discriminate; [destruct i; discriminate |].
  inversion ND as [| ? ? N0 ND']; subst.
  destruct i as [| i]; simpl in *.
  - injection Hk as ->. now rewrite String.eqb_refl.
  - destruct (String.eqb_spec k0 k) as [-> | N].
    + exfalso. apply N0. exact (nth_error_In _ _ Hk).
    + apply IH; auto.
Qed.

(** X10: what [forward] of a constructed pyramid returns has exactly the
    declared output names, in their order, followed by ["res2"]; the value
    under the i-th output name is the i-th element of [results]. *)
Theorem forward_returns_declared_names :
  forall (bu : Backbone) (feats : list string) (oc : Z) (norm : string)
         (tb : option TopBlock) (fuse_type : string) (st st' : InitState)
         (fpn : FPN) (x : Tensor) (outputs : dict Tensor),
    FPN_init bu feats oc norm tb fuse_type st = (st', Ok fpn) ->
    forward fpn x = Ok outputs ->
    dict_keys outputs = _out_features fpn ++ ["res2"%string] /\
    exists buf results,
      forward_results fpn x = Ok (buf, results) /\
      forall i name, nth_error (_out_features fpn) i = Some name ->
                     dict_get outputs name = nth_error results i.
Proof.
  intros bu feats oc norm tb fuse_type st st' fpn x outputs Hi H.
  unfold forward in H. unbind H as br Hr. destruct br as [buf results].
  unbind H as raw Hraw. injection H as <-.
  destruct (forward_results_Ok _ _ _ _ Hr) as (pyr & _ & _ & _ & Hlen).
  destruct (FPN_init_Ok _ _ _ _ _ _ _ _ _ Hi)
    as (in_strides & strides0 & last & _ & _ & _ & _ & H0 & H1 & Hf & _).
  assert (ND : NoDup (_out_features fpn))
    by (rewrite Hf; exact (out_strides_NoDup _ _ _ _ _ H0 H1)).
  assert (NR : forall name, In name (_out_features fpn) -> name <> "res2"%string).
  { intros name I E. subst name.
    destruct (FPN_init_names _ _ _ _ _ _ _ _ _ Hi _ I) as (z & E).
    discriminate E. }
  pose proof (combine_fst _ _ Hlen) as Kc.
  rewrite dict_of_pairs_NoDup by (rewrite Kc; exact ND).
  split.
  - rewrite dict_set_absent.
    + unfold dict_keys in *. now rewrite map_app, Kc.
    + unfold dict_keys. rewrite Kc. intros I. exact (NR _ I eq_refl).
  - exists buf, results. split; [exact Hr |]. intros i name Hn.
    rewrite dict_get_set_other by (apply NR; exact (nth_error_In _ _ Hn)).
    now apply combine_get.
Qed.

(** The number of declared outputs of a pyramid constructed with a top
    block. *)
Lemma out_features_length bu feats oc norm (tb : TopBlock) fuse_type st st' fpn :
  FPN_init bu feats oc norm (Some tb) fuse_type st = (st', Ok fpn) ->
  List.length (_out_features fpn)
  = (List.length feats + Z.to_nat (num_levels tb))%nat.
Proof.
  intros Hi.
  destruct (FPN_init_Ok _ _ _ _ _ _ _ _ _ Hi)
    as (in_strides & _ & _ & Hs & _ & _ & _ & _ & _ & Hn & _).
  destruct (FPN_init_strides _ _ _ _ _ _ _ _ _ Hi)
    as (in_strides' & last & Hs' & _ & _ & _ & E).
  rewrite Hs in Hs'. injection Hs' as <-.
  pose proof (mapM_length _ _ _ Hs) as Ls.
  rewrite Hn, E. unfold dict_keys, py_range.
  rewrite !length_map, !length_app, !length_map, length_seq.
  replace (Z.log2 last + num_levels tb - Z.log2 last) with (num_levels tb)
    by lia.
  lia.
Qed.

(** X11: the assertion of [forward] holds the top block to its declared
    [num_levels].  When [forward] of a pyramid constructed with a top
    block gets past the assertion, [results] is the pyramid, one tensor per
    input feature, followed by what the top block returned on its input,
    exactly [num_levels] tensors.  Conversely, once the pyramid is computed
    and the top block has returned on its input, [forward] gets past the
    assertion when the block returned [num_levels] tensors and raises
    [AssertionError] when it returned another number. *)
Theorem top_block_emits_num_levels :
  forall (bu : Backbone) (feats : list string) (oc : Z) (norm : string)
         (tb : TopBlock) (fuse_type : string) (st st' : InitState)
         (fpn : FPN),
    FPN_init bu feats oc norm (Some tb) fuse_type st = (st', Ok fpn) ->
    (forall (x : Tensor) (buf : dict Tensor) (results : list Tensor),
        forward_results fpn x = Ok (buf, results) ->
        exists pyr t extra,
          pyramid fpn buf = Ok pyr /\
          top_block_input fpn tb buf pyr = Ok t /\
          top_block_forward tb t = Ok extra /\
          results = pyr ++ extra /\
          List.length pyr = List.length feats /\
          List.length extra = Z.to_nat (num_levels tb)) /\
    (forall (x : Tensor) (buf : dict Tensor) (pyr : list Tensor) (t : Tensor)
            (extra : list Tensor),
        backbone_forward bu x = Ok buf ->
        pyramid fpn buf = Ok pyr ->
        top_block_input fpn tb buf pyr = Ok t ->
        top_block_forward tb t = Ok extra ->
        (List.length extra = Z.to_nat (num_levels tb) ->
         forward_results fpn x = Ok (buf, pyr ++ extra)) /\
        (List.length extra <> Z.to_nat (num_levels tb) ->
         forward_results fpn x = Raise AssertionError /\
         forward fpn x = Raise AssertionError)).
Proof.
  intros bu feats oc norm tb fuse_type st st' fpn Hi.
  pose proof (out_features_length _ _ _ _ _ _ _ _ _ Hi) as Lo.
  destruct (FPN_init_Ok _ _ _ _ _ _ _ _ _ Hi)
    as (_ & _ & _ & _ & _ & _ & _ & _ & _ & _ & _ & Ht & _ & Hb & _).
  split.
  - intros x buf results Hf.
    destruct (forward_results_Ok _ _ _ _ Hf) as (pyr & _ & Hp & Hw & Hlen).
    destruct (with_top_block_Ok _ _ _ _ _ Ht Hw) as (t & extra & Hin & Hfw & ->).
    pose proof (pyramid_length _ _ _ _ _ _ _ _ _ _ _ Hi Hp) as Lp.
    exists pyr, t, extra. repeat split; try assumption.
    rewrite Lo, length_app in Hlen. lia.
  - intros x buf pyr t extra Hbu Hp Hin Hfw.
    pose proof (pyramid_length _ _ _ _ _ _ _ _ _ _ _ Hi Hp) as Lp.
    assert (R : forward_results fpn x
                = if Nat.eqb (List.length (_out_features fpn))
                             (List.length (pyr ++ extra))
                  then Ok (buf, pyr ++ extra) else Raise AssertionError).
    { unfold forward_results, with_top_block.
      rewrite Hb, Hbu. cbn [bind]. rewrite Hp. cbn [bind].
      rewrite Ht, Hin. cbn [bind]. rewrite Hfw. reflexivity. }
    rewrite Lo, length_app, Lp in R. split; intros L.
    + rewrite L, Nat.eqb_refl in R. exact R.
    + destruct (Nat.eqb_spec (List.length feats + Z.to_nat (num_levels tb))
                             (List.length feats + List.length extra));
        [lia |].
      unfold forward. now rewrite R.
Qed.

Section WellShaped.
Variable shaped : Tensor -> Z -> Z -> Z -> Z -> Prop.

Hypothesis conv_same :
  forall (c : Conv2d Norm) (t : Tensor) (n h w : Z),
    shaped t n (conv_in_channels c) h w ->
    0 < conv_out_channels c ->
    conv_stride c = 1 ->
    0 <= conv_padding c ->
    conv_kernel_size c = 2 * conv_padding c + 1 ->
    exists t', conv_forward c t = Ok t' /\
               shaped t' n (conv_out_channels c) h w.
Hypothesis interpolate_doubles :
  forall (t : Tensor) (n c h w : Z),
    shaped t n c h w ->
    exists t', interpolate t 2 "nearest" = Ok t' /\
               shaped t' n c (2 * h) (2 * w).
Hypothesis add_same :
  forall (a b : Tensor) (n c h w : Z),
    shaped a n c h w -> shaped b n c h w ->
    exists t, t_add a b = Ok t /\ shaped t n c h w.
Hypothesis halve_same :
  forall (a : Tensor) (n c h w : Z),
    shaped a n c h w ->
    exists t, t_idiv a 2 = Ok t /\ shaped t n c h w.

Lemma fuse_shaped (fuse_type : string) (a b : Tensor) (n c h w : Z) :
  shaped a n c h w -> shaped b n c h w ->
  exists t, fuse fuse_type a b = Ok t /\ shaped t n c h w.
Proof.
  intros Ha Hb. unfold fuse. destruct (add_same _ _ _ _ _ _ Ha Hb) as (s & -> & Hs).
  cbn [bind]. destruct (String.eqb fuse_type "avg"); [| eauto].
  now apply halve_same.
Qed.

(** A lateral and an output convolution as [FPN.__init__] configures
    them, for an input feature of [c] channels. *)
Local Abbreviation configured oc t c :=
  (conv_in_channels (fst (snd t)) = c /\
   conv_out_channels (fst (snd t)) = oc /\
   conv_kernel_size (fst (snd t)) = 1 /\
   conv_stride (fst (snd t)) = 1 /\
   conv_padding (fst (snd t)) = 0 /\
   conv_in_channels (snd (snd t)) = oc /\
   conv_out_channels (snd (snd t)) = oc /\
   conv_kernel_size (snd (snd t)) = 3 /\
   conv_stride (snd (snd t)) = 1 /\
   conv_padding (snd (snd t)) = 1).

Lemma level_shaped (oc : Z) (t : level) (x : Tensor) (n c h w : Z) :
  0 < oc -> configured oc t c -> shaped x n c h w ->
  exists p, conv_forward (fst (snd t)) x = Ok p /\ shaped p n oc h w.
Proof.
  intros P (Li & Lo & Lk & Ls & Lp & _) Hx.
  rewrite <- Li in Hx.
  destruct (conv_same _ _ _ _ _ Hx) as (p & Hp & Sp); try lia.
  rewrite Lo in Sp. eauto.
Qed.

Lemma output_shaped (oc : Z) (t : level) (x : Tensor) (n c h w : Z) :
  0 < oc -> configured oc t c -> shaped x n oc h w ->
  exists p, conv_forward (snd (snd t)) x = Ok p /\ shaped p n oc h w.
Proof.
  intros P (_ & _ & _ & _ & _ & Oi & Oo & Ok' & Os & Op) Hx.
  rewrite <- Oi in Hx.
  destruct (conv_same _ _ _ _ _ Hx) as (p & Hp & Sp); try lia.
  rewrite Oo in Sp. eauto.
Qed.

(** The top-down loop on well-shaped features: every level doubles the
    extents of the one before it. *)
Lemma top_down_shaped (self : FPN) (n oc H W : Z) :
  0 < oc ->
  forall (rest : list level) (xs : list Tensor),
    Forall2 (fun t x =>
               dict_get (modules self) (lname (fst t)) = Some (fst (snd t)) /\
               dict_get (modules self) (oname (fst t)) = Some (snd (snd t)) /\
               0 < fst t /\
               exists c, configured oc t c /\
                         shaped x n c (H / fst t) (W / fst t))
            rest xs ->
    forall (prev : Tensor) (sp : Z) (results : list Tensor),
      shaped prev n oc (H / sp) (W / sp) ->
      (sp | H) -> (sp | W) ->
      (forall i a b, nth_error (sp :: map fst rest) i = Some a ->
                     nth_error (sp :: map fst rest) (S i) = Some b ->
                     a = 2 * b) ->
      exists front,
        top_down self
          (zip3 xs (map (fun t => lname (fst t)) rest)
                   (map (fun t => oname (fst t)) rest))
          prev results
        = Ok (front ++ results) /\
        Forall2 (fun r t => shaped r n oc (H / fst t) (W / fst t))
                front (rev rest).
Proof.
  intros P rest xs HF.
  induction HF as [| t x rest xs (Gl & Go & Ps & c & Cf & Sx) HF IH];
    intros prev sp results Sp DH DW C.
  - exists []. split; [reflexivity | constructor].
  - assert (E : sp = 2 * fst t) by (apply (C 0%nat); reflexivity). subst sp.
    cbn [map zip3 top_down]. unfold dict_item. rewrite Gl, Go. cbn [bind].
    destruct (interpolate_doubles _ _ _ _ _ Sp) as (td & -> & Std). cbn [bind].
    rewrite <- !div_halving in Std by assumption.
    destruct (level_shaped _ _ _ _ _ _ _ P Cf Sx) as (lf & -> & Slf). cbn [bind].
    destruct (fuse_shaped (_fuse_type self) _ _ _ _ _ _ Slf Std)
      as (fused & -> & Sf).
    cbn [bind].
    destruct (output_shaped _ _ _ _ _ _ _ P Cf Sf) as (out & -> & So). cbn [bind].
    destruct (IH fused (fst t) (out :: results) Sf) as (front & -> & HR).
    + destruct DH as [q ->]. exists (q * 2). ring.
    + destruct DW as [q ->]. exists (q * 2). ring.
    + intros i a b Ha Hb. exact (C (S i) a b Ha Hb).
    + exists (front ++ [out]). rewrite <- app_assoc. split; [reflexivity |].
      cbn [rev]. apply Forall2_app; [exact HR |]. repeat constructor. exact So.
Qed.

Lemma selected_features_shaped (bu : Backbone) (buf : dict Tensor)
      (n H W : Z) (Q : level -> Z -> Prop) :
  forall (feats : list string) (in_strides in_channels : list Z)
         (lvls : list level),
    mapM (dict_item (out_feature_strides bu)) feats = Ok in_strides ->
    mapM (dict_item (out_feature_channels bu)) feats = Ok in_channels ->
    map fst lvls = in_strides ->
    Forall2 Q lvls in_channels ->
    (forall f s c, In f feats ->
                   dict_get (out_feature_strides bu) f = Some s ->
                   dict_get (out_feature_channels bu) f = Some c ->
                   exists t, dict_get buf f = Some t /\
                             shaped t n c (H / s) (W / s)) ->
    exists xs,
      mapM (dict_item buf) feats = Ok xs /\
      Forall2 (fun t x => exists c, Q t c /\
                                    shaped x n c (H / fst t) (W / fst t))
              lvls xs.
Proof.
  induction feats as [| f feats IH]; intros in_strides in_channels lvls Hs Hc Hf HQ Hb.
  - simpl in Hs. injection Hs as <-. destruct lvls; [| discriminate].
    exists []. split; [reflexivity | constructor].
  - simpl in Hs, Hc. unbind Hs as s Gs. unbind Hs as ss Hss. injection Hs as <-.
    unbind Hc as c Gc. unbind Hc as cs Hcs. injection Hc as <-.
    destruct lvls as [| t lvls]; [discriminate |]. injection Hf as Ht Hf.
    inversion HQ as [| ? ? ? ? Qt HQ']; subst.
    unfold dict_item in Gs, Gc.
    destruct (dict_get (out_feature_strides bu) f) as [s' |] eqn:Es;
      [| discriminate].
    destruct (dict_get (out_feature_channels bu) f) as [c' |] eqn:Ec;
      [| discriminate].
    injection Gs as ->. injection Gc as ->.
    destruct (Hb f _ _ (or_introl eq_refl) Es Ec) as (x & Gx & Sx).
    destruct (IH _ _ lvls Hss Hcs eq_refl HQ') as (xs & Hxs & HF).
    { intros f' s' c' I. apply Hb. now right. }
    exists (x :: xs). simpl. unfold dict_item at 1. rewrite Gx. simpl.
    rewrite Hxs. split; [reflexivity |]. constructor; [eauto | exact HF].
Qed.

(** The pyramid of a constructed network on well-shaped features: one
    output per selected feature, with [out_channels] channels and the
    extents of that feature. *)
Lemma pyramid_shaped bu feats oc norm tb fuse_type st st' fpn buf
      (n H W : Z) (in_strides : list Z) :
  FPN_init bu feats oc norm tb fuse_type st = (st', Ok fpn) ->
  mapM (dict_item (out_feature_strides bu)) feats = Ok in_strides ->
  0 < oc ->
  (size_divisibility fpn | H) -> (size_divisibility fpn | W) ->
  (forall f s c, In f feats ->
                 dict_get (out_feature_strides bu) f = Some s ->
                 dict_get (out_feature_channels bu) f = Some c ->
                 exists t, dict_get buf f = Some t /\
                           shaped t n c (H / s) (W / s)) ->
  exists pyr,
    pyramid fpn buf = Ok pyr /\
    Forall2 (fun r s => shaped r n oc (H / s) (W / s)) pyr in_strides.
Proof.
  intros Hi Hs0 P DH DW Hb.
  destruct (FPN_init_levels _ _ _ _ _ _ _ _ _ Hi)
    as (in_strides' & in_channels & lvls & Hs & Hc & Hf & ND & HQ & _
        & Hm & Hl & Ho & Hln & Hon).
  rewrite Hs0 in Hs. injection Hs as <-.
  destruct (FPN_init_Ok _ _ _ _ _ _ _ _ _ Hi)
    as (in_strides' & _ & last & Hs' & Ha & Hlast & _ & _ & _ & _ & _ & _
        & Hfe & _ & _ & Hd).
  rewrite Hs0 in Hs'. injection Hs' as <-.
  pose proof (assert_strides_Ok _ Ha) as C.
  unfold size_divisibility in DH, DW. rewrite Hd in DH, DW.
  destruct (selected_features_shaped bu buf n H W _ _ _ _ _ Hs0 Hc Hf HQ Hb)
    as (xs & Hxs & HF).
  apply (fun H0 => Forall2_and_left _ (fun t => In t lvls) _ _ H0 (fun a I => I))
    in HF.
  apply Forall2_rev in HF. apply mapM_rev in Hxs.
  unfold list_last in Hlast. rewrite <- Hf, <- map_rev in Hlast.
  pose proof (contiguous_rev _ C) as CR. rewrite <- Hf, <- map_rev in CR.
  unfold pyramid. rewrite Hfe, Hxs. cbn [bind].
  rewrite Hl, Ho, Hln, Hon, <- !map_rev.
  destruct (rev lvls) as [| t0 rest] eqn:R; [discriminate |].
  cbn [map] in Hlast, CR. injection Hlast as <-.
  inversion HF as [| ? x0 ? xs' (I0 & c0 & Q0 & S0) HF' E1 E2]; subst.
  cbn [map list_item nth_error bind tl].
  assert (Cf : forall t c,
             (0 < fst t /\
              conv_in_channels (fst (snd t)) = c /\
              conv_out_channels (fst (snd t)) = oc /\
              conv_kernel_size (fst (snd t)) = 1 /\
              conv_stride (fst (snd t)) = 1 /\
              conv_padding (fst (snd t)) = 0 /\
              conv_bias (fst (snd t)) = String.eqb norm "" /\
              get_norm norm oc = Ok (conv_norm (fst (snd t))) /\
              conv_in_channels (snd (snd t)) = oc /\
              conv_out_channels (snd (snd t)) = oc /\
              conv_kernel_size (snd (snd t)) = 3 /\
              conv_stride (snd (snd t)) = 1 /\
              conv_padding (snd (snd t)) = 1 /\
              conv_bias (snd (snd t)) = String.eqb norm "" /\
              get_norm norm oc = Ok (conv_norm (snd (snd t)))) ->
             0 < fst t /\ configured oc t c) by (intros t c; tauto).
  destruct (Cf _ _ Q0) as [P0 C0].
  destruct (level_shaped _ _ _ _ _ _ _ P C0 S0) as (prev & -> & Sprev).
  cbn [bind].
  destruct (output_shaped _ _ _ _ _ _ _ P C0 Sprev) as (first & -> & Sfirst).
  cbn [bind].
  destruct (top_down_shaped fpn n oc H W P rest xs') with
    (prev := prev) (sp := fst t0) (results := [first])
    as (front & -> & HR); try assumption.
  - clear - HF' Cf Hm ND R. revert HF'. apply Forall2_impl.
    intros t x (It & c & Q & S). destruct (Cf _ _ Q) as [Pt Ct].
    rewrite Hm. destruct (register_get lvls [] ND t It) as [Gl Go].
    repeat split; try assumption. eauto.
  - exists (front ++ [first]). split; [reflexivity |].
    rewrite <- (rev_involutive lvls), R. cbn [rev map].
    rewrite map_app. apply Forall2_app.
    + apply Forall2_map_r. exact HR.
    + repeat constructor. exact Sfirst.
Qed.

(** X12: [forward] returns on well-shaped input.  Let the tensor library
    obey the size rules of its operations: a convolution of stride 1 whose
    kernel size is twice its padding plus one keeps the extents and gives
    its output channels; [interpolate] by 2 doubles the extents; the sum
    of two tensors of one size, and its half, have that size.  If the
    bottom-up network returns, for every selected feature, a tensor with
    the channels it declares and the extents [H / stride] by [W / stride]
    of an image whose extents [H] and [W] are multiples of
    [size_divisibility], and returns a feature ["res2"], and the top
    block, if any, returns [num_levels] tensors on the input found for it,
    then [forward] of a constructed pyramid returns: no name lookup, index
    or count check of [forward] raises; and the output at the position of
    each selected feature has [out_channels] channels and the extents of
    that feature. *)
Theorem forward_returns :
  forall (bu : Backbone) (feats : list string) (oc : Z) (norm : string)
         (tb : option TopBlock) (fuse_type : string) (st st' : InitState)
         (fpn : FPN) (x : Tensor) (buf : dict Tensor) (n H W : Z),
    FPN_init bu feats oc norm tb fuse_type st = (st', Ok fpn) ->
    0 < oc ->
    backbone_forward bu x = Ok buf ->
    (size_divisibility fpn | H) ->
    (size_divisibility fpn | W) ->
    (forall f s c, In f feats ->
                   dict_get (out_feature_strides bu) f = Some s ->
                   dict_get (out_feature_channels bu) f = Some c ->
                   exists t, dict_get buf f = Some t /\
                             shaped t n c (H / s) (W / s)) ->
    dict_get buf "res2" <> None ->
    (forall b pyr, tb = Some b ->
                   pyramid fpn buf = Ok pyr ->
                   exists t extra,
                     top_block_input fpn b buf pyr = Ok t /\
                     top_block_forward b t = Ok extra /\
                     List.length extra = Z.to_nat (num_levels b)) ->
    exists outputs,
      forward fpn x = Ok outputs /\
      forall i f s,
        nth_error feats i = Some f ->
        dict_get (out_feature_strides bu) f = Some s ->
        exists name t,
          nth_error (_out_features fpn) i = Some name /\
          dict_get outputs name = Some t /\
          shaped t n oc (H / s) (W / s).
Proof.
  intros bu feats oc norm tb fuse_type st st' fpn x buf n H W
         Hi P Hbu DH DW Hfe Hres Htb.
  destruct (FPN_init_Ok _ _ _ _ _ _ _ _ _ Hi)
    as (in_strides & strides0 & last & Hs & _ & _ & _ & H0 & H1 & Hn & _ & Ht
        & _ & Hb & _).
  destruct (pyramid_shaped _ _ _ _ _ _ _ _ _ buf n H W in_strides
                           Hi Hs P DH DW Hfe) as (pyr & Hp & HS).
  pose proof (pyramid_length _ _ _ _ _ _ _ _ _ _ _ Hi Hp) as Lp.
  assert (Hw : exists extra,
             with_top_block fpn buf pyr = Ok (pyr ++ extra) /\
             List.length (_out_features fpn) = List.length (pyr ++ extra)).
  { unfold with_top_block. rewrite Ht. destruct tb as [b |].
    - destruct (Htb b pyr eq_refl Hp) as (t & extra & -> & He & Le).
      cbn [bind]. rewrite He. exists extra. split; [reflexivity |].
      rewrite (out_features_length _ _ _ _ _ _ _ _ _ Hi), length_app. lia.
    - exists []. rewrite app_nil_r. split; [reflexivity |].
      destruct (FPN_init_strides _ _ _ _ _ _ _ _ _ Hi)
        as (in_strides' & _ & Hs' & _ & _ & _ & E).
      rewrite Hs in Hs'. injection Hs' as <-.
      pose proof (mapM_length _ _ _ Hs) as Ls.
      rewrite Hn, E, app_nil_r. unfold dict_keys. rewrite !length_map. lia. }
  destruct Hw as (extra & Hw & Hlen).
  destruct (dict_get buf "res2") as [raw |] eqn:G; [| congruence].
  assert (ND : NoDup (_out_features fpn))
    by (rewrite Hn; exact (out_strides_NoDup _ _ _ _ _ H0 H1)).
  assert (NR : forall name, In name (_out_features fpn) -> name <> "res2"%string).
  { intros name I E. subst name.
    destruct (FPN_init_names _ _ _ _ _ _ _ _ _ Hi _ I) as (z & E).
    discriminate E. }
  pose proof (combine_fst _ _ Hlen) as Kc.
  eexists. split.
  - unfold forward, forward_results. rewrite Hb, Hbu. cbn [bind].
    rewrite Hp. cbn [bind]. rewrite Hw. cbn [bind].
    rewrite Hlen, Nat.eqb_refl. cbn [bind]. unfold dict_item. rewrite G.
    reflexivity.
  - intros i f s Hf Gs.
    destruct (mapM_nth _ _ _ _ _ Hs Hf) as (s' & Hs' & Gs').
    unfold dict_item in Gs'. rewrite Gs in Gs'. injection Gs' as <-.
    destruct (Forall2_nth _ _ _ _ _ HS Hs') as (r & Hr & Sr).
    assert (Li : (i < List.length pyr)%nat)
      by (apply nth_error_Some; congruence).
    destruct (nth_error (_out_features fpn) i) as [name |] eqn:Hname.
    + exists name, r. split; [reflexivity |]. split; [| exact Sr].
      rewrite dict_get_set_other by (apply NR; exact (nth_error_In _ _ Hname)).
      rewrite dict_of_pairs_NoDup by (rewrite Kc; exact ND).
      rewrite (combine_get _ _ i name ND Hname Hlen).
      now rewrite nth_error_app1.
    + apply nth_error_None in Hname. rewrite Hlen, length_app in Hname. lia.
Qed.

End WellShaped.

(** X13: a top block whose [in_feature] is one of the selected input
    features reads the bottom-up feature of that name, not the pyramid
    output computed from it: [forward] cannot reach the top block unless
    the backbone returned that feature, and the lookup among the bottom-up
    features comes first.  ([build_vgg_fpn_backbone] selects ["p2"] to
    ["p5"] and attaches [LastLevelConv], which reads ["p5"].) *)
Theorem top_block_reads_selected_input_raw :
  forall (fpn : FPN) (tb : TopBlock) (x : Tensor) (buf : dict Tensor)
         (results : list Tensor),
    top_block fpn = Some tb ->
    In (in_feature tb) (in_features fpn) ->
    forward_results fpn x = Ok (buf, results) ->
    exists pyr raw extra,
      pyramid fpn buf = Ok pyr /\
      dict_get buf (in_feature tb) = Some raw /\
      top_block_forward tb raw = Ok extra /\
      results = pyr ++ extra.
Proof.
  intros fpn tb x buf results Ht I Hf.
  destruct (forward_results_Ok _ _ _ _ Hf) as (pyr & _ & Hp & Hw & _).
  destruct (with_top_block_Ok _ _ _ _ _ Ht Hw) as (t & extra & Hin & Hfw & ->).
  assert (G : exists raw, dict_get buf (in_feature tb) = Some raw).
  { unfold pyramid in Hp. unbind Hp as xs Hxs.
    destruct (mapM_In _ _ _ Hxs (in_feature tb)) as (raw & G);
      [now rewrite <- in_rev |].
    unfold dict_item in G. destruct (dict_get buf (in_feature tb)); [eauto |].
    discriminate G. }
  destruct G as (raw & G). exists pyr, raw, extra.
  unfold top_block_input in Hin. rewrite G in Hin. injection Hin as <-. auto.
Qed.

(** ** What the constructor checks and records *)

Lemma assert_contiguous_from_complete (rest pre : list Z) (p : Z) :
  (forall i a b, nth_error (p :: rest) i = Some a ->
                 nth_error (p :: rest) (S i) = Some b -> b = 2 * a) ->
  assert_contiguous_from (pre ++ p :: rest) (S (List.length pre)) rest = Ok tt.
Proof.
  revert pre p. induction rest as [| s rest IH]; intros pre p C; [reflexivity |].
  assert (E : s = 2 * p) by (apply (C 0%nat); reflexivity). subst s.
  rewrite assert_contiguous_from_step, Z.eqb_refl.
  apply IH. intros i a b Ha Hb. apply (C (S i) a b); assumption.
Qed.

(** X14: [_assert_strides_are_log2_contiguous] passes exactly on the lists in
    which every stride is twice the one before it (the empty and the
    one-element list among them), and otherwise raises [AssertionError];
    its index [i - 1] never leaves the list. *)
Theorem assert_strides_accepts_exactly_contiguous :
  forall strides : list Z,
    (_assert_strides_are_log2_contiguous strides = Ok tt <->
     forall i a b, nth_error strides i = Some a ->
                   nth_error strides (S i) = Some b -> b = 2 * a) /\
    (_assert_strides_are_log2_contiguous strides = Ok tt \/
     _assert_strides_are_log2_contiguous strides = Raise AssertionError).
Proof.
  intros strides. split; [| apply assert_strides_cases].
  split; [apply assert_strides_Ok |].
  unfold _assert_strides_are_log2_contiguous.
  destruct strides as [| p rest]; [reflexivity |].
  exact (assert_contiguous_from_complete rest [] p).
Qed.

Lemma mapM_dict_item_missing {V : Type} (d : dict V) (l : list string) (f : string) :
  In f l -> dict_get d f = None -> mapM (dict_item d) l = Raise KeyError.
Proof.
  induction l as [| k l IH]; intros I G; [destruct I |]. simpl.
  unfold dict_item at 1. destruct (dict_get d k) as [v |] eqn:Gk.
  - destruct I as [-> | I]; [congruence |]. simpl. now rewrite IH.
  - reflexivity.
Qed.

(** X15: a selected feature whose stride the bottom-up network does not
    declare makes the constructor raise [KeyError] at once: the
    construction state is untouched. *)
Theorem undeclared_feature_rejected :
  forall (bu : Backbone) (feats : list string) (oc : Z) (norm : string)
         (tb : option TopBlock) (fuse_type : string) (st : InitState)
         (f : string),
    In f feats ->
    dict_get (out_feature_strides bu) f = None ->
    FPN_init bu feats oc norm tb fuse_type st = (st, Raise KeyError).
Proof.
  intros bu feats oc norm tb fuse_type st f I G.
  unfold FPN_init, ibind, lift.
  now rewrite (mapM_dict_item_missing _ _ _ I G).
Qed.

(** X16: with no input feature selected the constructor cannot finish: it
    creates nothing and raises [NameError] for the unbound [stage] when a
    top block is given, and [IndexError] from [in_strides[-1]] when none
    is. *)
Theorem empty_in_features_rejected :
  forall (bu : Backbone) (oc : Z) (norm : string) (tb : option TopBlock)
         (fuse_type : string) (st : InitState),
    FPN_init bu [] oc norm tb fuse_type st
    = (st, Raise (match tb with Some _ => NameError | None => IndexError end)).
Proof.
  intros bu oc norm tb fuse_type st. destruct tb; reflexivity.
Qed.

(** X17: the fusion mode is checked last.  A constructed pyramid has the
    mode ["avg"] or ["sum"]; with any other mode the constructor does all
    the work of the valid construction, the convolutions included, and
    then raises [AssertionError]. *)
Theorem fuse_type_is_checked_last :
  forall (bu : Backbone) (feats : list string) (oc : Z) (norm : string)
         (tb : option TopBlock) (fuse_type : string) (st st' : InitState)
         (fpn : FPN),
    FPN_init bu feats oc norm tb fuse_type st = (st', Ok fpn) ->
    (fuse_type = "avg"%string \/ fuse_type = "sum"%string) /\
    _fuse_type fpn = fuse_type /\
    forall other : string,
      other <> "avg"%string -> other <> "sum"%string ->
      FPN_init bu feats oc norm tb other st = (st', Raise AssertionError).
Proof.
  intros bu feats oc norm tb fuse_type st st' fpn H.
  assert (V : fuse_type = "avg"%string \/ fuse_type = "sum"%string /\ True
              \/ String.eqb fuse_type "avg" || String.eqb fuse_type "sum" = false).
  { destruct (String.eqb_spec fuse_type "avg"); [now left |].
    destruct (String.eqb_spec fuse_type "sum"); [right; left; auto |].
    right. right. reflexivity. }
  unfold FPN_init, ibind, lift in *.
  destruct (mapM (dict_item (out_feature_strides bu)) feats) as [ss |];
    [| discriminate].
  destruct (mapM (dict_item (out_feature_channels bu)) feats) as [cs |];
    [| discriminate].
  destruct (_assert_strides_are_log2_contiguous ss); [| discriminate].
  destruct (build_levels ss oc norm (String.eqb norm "") no_levels 0 cs st)
    as [st1 [lv |]]; [| discriminate].
  destruct (pyramid_strides ss) as [s0 |]; [| discriminate].
  destruct (top_block_strides s0 (lv_stage lv) tb) as [s1 |]; [| discriminate].
  destruct (list_last ss) as [last |]; [| discriminate].
  destruct V as [-> | [[-> _] | V]].
  - unfold ret in H. simpl in H. injection H as <- <-.
    split; [now left | split; [reflexivity |]].
    intros other Na Ns. apply String.eqb_neq in Na, Ns. now rewrite Na, Ns.
  - unfold ret in H. simpl in H. injection H as <- <-.
    split; [now right | split; [reflexivity |]].
    intros other Na Ns. apply String.eqb_neq in Na, Ns. now rewrite Na, Ns.
  - rewrite V in H. discriminate H.
Qed.

(** X18: [size_divisibility] of a constructed pyramid is the stride of the
    lowest-resolution input feature, and every selected stride is positive
    and divides it. *)
Theorem size_divisibility_is_coarsest_stride :
  forall (bu : Backbone) (feats : list string) (oc : Z) (norm : string)
         (tb : option TopBlock) (fuse_type : string) (st st' : InitState)
         (fpn : FPN) (in_strides : list Z),
    FPN_init bu feats oc norm tb fuse_type st = (st', Ok fpn) ->
    mapM (dict_item (out_feature_strides bu)) feats = Ok in_strides ->
    list_last in_strides = Ok (size_divisibility fpn) /\
    forall s, In s in_strides -> 0 < s /\ (s | size_divisibility fpn).
Proof.
  intros bu feats oc norm tb fuse_type st st' fpn in_strides H Hs.
  destruct (FPN_init_Ok _ _ _ _ _ _ _ _ _ H)
    as (in_strides' & strides0 & last & Hs' & Ha & Hl & P & H0 & _ & _ & _
        & _ & _ & _ & _ & Hd).
  rewrite Hs in Hs'. injection Hs' as <-.
  unfold size_divisibility. rewrite Hd. split; [exact Hl |].
  pose proof (assert_strides_Ok _ Ha) as C.
  destruct (pyramid_strides_Ok _ _ H0) as [Pos _].
  intros s I. split; [exact (proj1 (Forall_forall _ _) Pos s I) |].
  destruct in_strides as [| s0 l] eqn:E; [destruct I |].
  rewrite <- E in *. assert (N0 : nth_error in_strides 0 = Some s0) by now subst.
  clear E. apply In_nth_error in I. destruct I as [i Hi].
  apply list_last_nth in Hl.
  assert (Li : (i < List.length in_strides)%nat)
    by (apply nth_error_Some; congruence).
  rewrite (contiguous_scaled _ _ C N0 i s Hi),
          (contiguous_scaled _ _ C N0 _ last Hl).
  exists (2 ^ (Z.of_nat (List.length in_strides - 1) - Z.of_nat i)).
  replace (Z.of_nat (List.length in_strides - 1))
    with (Z.of_nat (List.length in_strides - 1) - Z.of_nat i + Z.of_nat i)
    at 1 by lia.
  rewrite Z.pow_add_r by lia. ring.
Qed.

(** X19: over strides that start at a power of two [2^j] the outputs are
    the consecutive stages [p<j>], [p<j+1>], ... with stride [2^stage]
    each: one per selected feature, followed by [num_levels] more when a
    top block is attached (none for a negative [num_levels]). *)
Theorem power_of_two_strides_name_stages :
  forall (bu : Backbone) (feats : list string) (oc : Z) (norm : string)
         (tb : option TopBlock) (fuse_type : string) (st st' : InitState)
         (fpn : FPN) (in_strides : list Z) (j : Z),
    FPN_init bu feats oc norm tb fuse_type st = (st', Ok fpn) ->
    mapM (dict_item (out_feature_strides bu)) feats = Ok in_strides ->
    nth_error in_strides 0 = Some (2 ^ j) ->
    0 <= j ->
    _out_feature_strides fpn
    = map (fun z => (p_name z, 2 ^ z))
          (py_range j (j + Z.of_nat (List.length feats)
                       + match tb with
                         | None => 0
                         | Some b => Z.max 0 (num_levels b)
                         end)).
Proof.
  intros bu feats oc norm tb fuse_type st st' fpn in_strides j H Hs N0 J.
  destruct (FPN_init_Ok _ _ _ _ _ _ _ _ _ H)
    as (in_strides0 & _ & last0 & Hs0 & Ha & _).
  destruct (FPN_init_strides _ _ _ _ _ _ _ _ _ H)
    as (in_strides' & last & Hs' & Hl & P & _ & E).
  rewrite Hs in Hs0, Hs'. injection Hs0 as <-. injection Hs' as <-.
  pose proof (assert_strides_Ok _ Ha) as C.
  pose proof (mapM_length _ _ _ Hs) as Ls.
  assert (LL : Z.log2 last = j + Z.of_nat (List.length feats) - 1).
  { pose proof (list_last_nth _ _ Hl) as Hn.
    assert (P0 : 0 < 2 ^ j) by (apply Z.pow_pos_nonneg; lia).
    rewrite (contiguous_stage _ _ C N0 P0 _ _ Hn), Z.log2_pow2 by lia.
    destruct in_strides; [discriminate N0 | simpl in *; lia]. }
  destruct in_strides as [| s0 l]; [discriminate |]. injection N0 as ->.
  rewrite (contiguous_powers l j J C) in E. simpl List.length in Ls.
  rewrite <- Ls in LL |- *. rewrite E, map_map.
  set (n := Z.of_nat (S (List.length l))) in *.
  assert (Pyr : map (fun x => (p_name (Z.log2 (2 ^ x)), 2 ^ x)) (py_range j (j + n))
                = map (fun z => (p_name z, 2 ^ z)) (py_range j (j + n))).
  { apply map_ext_in. intros z I. apply py_range_In in I.
    now rewrite Z.log2_pow2 by lia. }
  rewrite Pyr. destruct tb as [b |].
  - rewrite LL, <- (py_range_app j (j + n) (j + n + Z.max 0 (num_levels b))),
            map_app by lia.
    f_equal.
    rewrite <- (map_map (fun s => s + 1) (fun z => (p_name z, 2 ^ z))), py_range_succ.
    replace (j + n - 1 + 1) with (j + n) by lia.
    destruct (Z.leb_spec (num_levels b) 0).
    + rewrite !py_range_nil by lia. reflexivity.
    + replace (j + n - 1 + num_levels b + 1)
        with (j + n + Z.max 0 (num_levels b)) by lia.
      reflexivity.
  - now rewrite app_nil_r, Z.add_0_r.
Qed.

End TopologyFacts.

(** ** The further properties on concrete networks and checkpoints *)

Local Open Scope string_scope.

Lemma prefixed_state_dict_round_trip_witness :
  backbone_entries (A := VectorArrays)
    [("backbone.fpn_lateral2.weight", array [1; 2]);
     ("backbone.fpn_output2.weight", array [3])] []
  = Ok [("fpn_lateral2.weight", weights [1; 2]);
        ("fpn_output2.weight", weights [3])].
Proof.
  apply (prefixed_state_dict_round_trip (A := VectorArrays)
           [("fpn_lateral2.weight", [1; 2]); ("fpn_output2.weight", [3])]).
  simpl. constructor.
  - intros [H | []]. discriminate H.
  - constructor; [intros [] | constructor].
Defined.

Lemma loaders_fail_early_witness :
  let fs := one_file "ckpt.pkl" [("backbone.w", PyOther (A := VectorArrays))] in
  let self := [("w", weights [7])] in
  outcome (load_pretrain fs self "ckpt.pkl") = Raise TypeError /\
  params (load_pretrain fs self "ckpt.pkl") = self /\
  printed (load_pretrain fs self "ckpt.pkl") = [] /\
  outcome (load_bottom_up_pretrain fs self "none.pkl") = Raise FileNotFoundError /\
  params (load_bottom_up_pretrain fs self "none.pkl") = self /\
  printed (load_bottom_up_pretrain fs self "none.pkl") = [].
Proof.
  intros fs self.
  assert (T : TypeError <> RuntimeError) by discriminate.
  assert (N : FileNotFoundError <> RuntimeError) by discriminate.
  destruct (loaders_fail_early_without_change (A := VectorArrays)
              fs self "ckpt.pkl" TypeError T) as [H1 _].
  destruct (loaders_fail_early_without_change (A := VectorArrays)
              fs self "none.pkl" FileNotFoundError N) as [_ H2].
  destruct (H1 eq_refl) as [P1 Q1]. destruct (H2 eq_refl) as [P2 Q2].
  repeat split; assumption.
Defined.



Lemma constructor_creates_conv_pairs_witness :
  exists st' fpn,
    FPN_init (sym_backbone resnet_levels) ["res4"; "res5"] 256 "BN"
             None "sum" fresh = (st', Ok fpn) /\
    map (fun l => (conv_in_channels l, conv_kernel_size l, conv_bias l))
        (lateral_convs fpn) = [(2048, 1, false); (1024, 1, false)] /\
    Forall2 (fun l c =>
               conv_in_channels l = c /\ conv_out_channels l = 256 /\
               conv_kernel_size l = 1 /\ conv_stride l = 1 /\
               conv_padding l = 0 /\ conv_bias l = String.eqb "BN" "" /\
               get_norm (Framework := SymFramework) "BN" 256 = Ok (conv_norm l))
            (lateral_convs fpn) (rev [1024; 2048]) /\
    Forall2 (fun o (_ : Z) =>
               conv_in_channels o = 256 /\ conv_out_channels o = 256 /\
               conv_kernel_size o = 3 /\ conv_stride o = 1 /\
               conv_padding o = 1 /\ conv_bias o = String.eqb "BN" "" /\
               get_norm (Framework := SymFramework) "BN" 256 = Ok (conv_norm o))
            (output_convs fpn) (rev [1024; 2048]) /\
    created st'
    = (created fresh
       ++ flat_map (fun lo => [fst lo; snd lo])
                   (combine (rev (lateral_convs fpn)) (rev (output_convs fpn))))%list.
Proof.
  eassert (Hi : FPN_init (sym_backbone resnet_levels) ["res4"; "res5"] 256 "BN"
                  None "sum" fresh = (_, Ok _)) by (vm_compute; reflexivity).
  do 2 eexists. split; [exact Hi |]. split; [reflexivity |].
  exact (constructor_creates_conv_pairs (F := SymFramework)
           _ _ _ _ _ _ _ _ _ [1024; 2048] Hi eq_refl).
Defined.

Lemma modules_match_conv_lists_witness :
  exists st' fpn,
    FPN_init (sym_backbone resnet_levels) ["res4"; "res5"] 256 ""
             None "sum" fresh = (st', Ok fpn) /\
    lateral_names fpn = ["fpn_lateral5"; "fpn_lateral4"] /\
    output_conv_names fpn = ["fpn_output5"; "fpn_output4"] /\
    Forall2 (fun name c => dict_get (modules fpn) name = Some c)
            (lateral_names fpn) (lateral_convs fpn) /\
    Forall2 (fun name c => dict_get (modules fpn) name = Some c)
            (output_conv_names fpn) (output_convs fpn).
Proof.
  eassert (Hi : FPN_init (sym_backbone resnet_levels) ["res4"; "res5"] 256 ""
                  None "sum" fresh = (_, Ok _)) by (vm_compute; reflexivity).
  do 2 eexists. split; [exact Hi |].
  apply (modules_match_conv_lists (F := SymFramework)
           _ _ _ _ _ _ _ _ _ [16; 32] 4 Hi eq_refl eq_refl).
  lia.
Defined.

Lemma coarsest_level_witness :
  exists st' fpn pyr,
    FPN_init (sym_backbone resnet_levels) ["res3"; "res4"; "res5"] 256 ""
             None "avg" fresh = (st', Ok fpn) /\
    pyramid fpn [("res2", SFeature "res2"); ("res3", SFeature "res3");
                 ("res4", SFeature "res4"); ("res5", SFeature "res5")]
    = Ok pyr /\
    list_last pyr = Ok (SConv 5 (SConv 4 (SFeature "res5"))) /\
    (List.length pyr <= 3)%nat.
Proof.
  eassert (Hi : FPN_init (sym_backbone resnet_levels) ["res3"; "res4"; "res5"]
                  256 "" None "avg" fresh = (_, Ok _))
    by (vm_compute; reflexivity).
  match type of Hi with
  | _ = (_, Ok ?fpn) =>
      eassert (Hp : pyramid (F := SymFramework) fpn
                      [("res2", SFeature "res2"); ("res3", SFeature "res3");
                       ("res4", SFeature "res4"); ("res5", SFeature "res5")]
                    = Ok _) by (vm_compute; reflexivity)
  end.
  destruct (coarsest_level_is_not_fused (F := SymFramework) _ _ _ Hp)
    as (name & x0 & l0 & o0 & p & f & Hn & Hx & Hl & Ho & Hcl & Hco & Hlast & Hlen).
  do 3 eexists. split; [exact Hi |]. split; [exact Hp |].
  vm_compute in Hn. injection Hn as <-.
  vm_compute in Hx. injection Hx as <-.
  vm_compute in Hl. injection Hl as <-.
  vm_compute in Ho. injection Ho as <-.
  vm_compute in Hcl. injection Hcl as <-.
  vm_compute in Hco. injection Hco as <-.
  split; [exact Hlast | exact Hlen].
Defined.

Lemma forward_returns_declared_names_witness :
  exists st' fpn outputs,
    build_resnet_fpn_backbone (sym_backbone resnet_levels) fresh = (st', Ok fpn) /\
    forward fpn SImage = Ok outputs /\
    dict_keys outputs = ["p2"; "p3"; "p4"; "p5"; "p6"; "res2"] /\
    exists buf results,
      forward_results fpn SImage = Ok (buf, results) /\
      forall i name, nth_error (_out_features fpn) i = Some name ->
                     dict_get outputs name = nth_error results i.
Proof.
  eassert (Hi : FPN_init (sym_backbone resnet_levels)
                  ["res2"; "res3"; "res4"; "res5"] 256 ""
                  (Some LastLevelMaxPool) "sum" fresh = (_, Ok _))
    by (vm_compute; reflexivity).
  match type of Hi with
  | _ = (_, Ok ?fpn) =>
      eassert (Hf : forward (F := SymFramework) fpn SImage = Ok _)
        by (vm_compute; reflexivity)
  end.
  do 3 eexists. split; [exact Hi |]. split; [exact Hf |].
  exact (forward_returns_declared_names (F := SymFramework)
           _ _ _ _ _ _ _ _ _ _ _ Hi Hf).
Defined.

Lemma top_block_emits_num_levels_witness :
  let p6c := nn_conv 0 2048 256 in
  let p7c := nn_conv 1 256 256 in
  let st1 := @Build_InitState SymFramework 2 [p6c; p7c] in
  let short := @CustomTopBlock SymFramework 2 "res5" (fun t => Ok [t]) in
  (exists st' fpn buf results,
      FPN_init (sym_backbone resnet_levels) ["res3"; "res4"; "res5"]
               256 "" (Some (LastLevelP6P7 p6c p7c)) "sum" st1 = (st', Ok fpn) /\
      forward_results fpn SImage = Ok (buf, results) /\
      exists pyr,
        pyramid fpn buf = Ok pyr /\
        results = (pyr ++ [SConv 0 (SFeature "res5");
                           SConv 1 (SRelu (SConv 0 (SFeature "res5")))])%list /\
        List.length pyr = 3%nat) /\
  (exists st' fpn,
      FPN_init (sym_backbone resnet_levels) ["res3"; "res4"; "res5"]
               256 "" (Some short) "sum" fresh = (st', Ok fpn) /\
      top_block_forward short (SFeature "res5") = Ok [SFeature "res5"] /\
      forward fpn SImage = Raise AssertionError).
Proof.
  intros p6c p7c st1 short. split.
  - eassert (Hi : FPN_init (sym_backbone resnet_levels) ["res3"; "res4"; "res5"]
                    256 "" (Some (LastLevelP6P7 p6c p7c)) "sum" st1 = (_, Ok _))
      by (vm_compute; reflexivity).
    match type of Hi with
    | _ = (_, Ok ?fpn) =>
        eassert (Hf : forward_results (F := SymFramework) fpn SImage = Ok (_, _))
          by (vm_compute; reflexivity)
    end.
    destruct (top_block_emits_num_levels (F := SymFramework)
                _ _ _ _ _ _ _ _ _ Hi) as [Hfw _].
    destruct (Hfw _ _ _ Hf) as (pyr & t & extra & Hp & Hin & He & Hr & Lp & _).
    do 4 eexists. split; [exact Hi |]. split; [exact Hf |].
    exists pyr. split; [exact Hp |]. split; [| exact Lp].
    vm_compute in Hin. injection Hin as <-.
    vm_compute in He. injection He as <-. exact Hr.
  - eassert (Hi : FPN_init (sym_backbone resnet_levels) ["res3"; "res4"; "res5"]
                    256 "" (Some short) "sum" fresh = (_, Ok _))
      by (vm_compute; reflexivity).
    destruct (top_block_emits_num_levels (F := SymFramework)
                _ _ _ _ _ _ _ _ _ Hi) as [_ Hconv].
    match type of Hi with
    | _ = (_, Ok ?fpn) =>
        eassert (Hp : pyramid (F := SymFramework) fpn
                        [("res2", SFeature "res2"); ("res3", SFeature "res3");
                         ("res4", SFeature "res4"); ("res5", SFeature "res5")]
                      = Ok _)
          by (vm_compute; reflexivity)
    end.
    destruct (Hconv SImage _ _ (SFeature "res5") [SFeature "res5"]
                    eq_refl Hp eq_refl eq_refl) as [_ Hbad].
    do 2 eexists. split; [exact Hi |]. split; [reflexivity |].
    apply Hbad. simpl. lia.
Defined.

(** The size-checking library obeys the size rules on tensors with
    positive extents. *)
Lemma size_conv_same (c : Conv2d string) (t : Size) (n h w : Z) :
  t = Build_Size n (conv_in_channels c) h w /\ 0 < h /\ 0 < w ->
  0 < conv_out_channels c ->
  conv_stride c = 1 ->
  0 <= conv_padding c ->
  conv_kernel_size c = 2 * conv_padding c + 1 ->
  exists t', size_conv c t = Ok t' /\
             (t' = Build_Size n (conv_out_channels c) h w /\ 0 < h /\ 0 < w).
Proof.
  intros (-> & Ph & Pw) Po Es Pp Ek. unfold size_conv, window_out.
  cbn [sz_batch sz_channels sz_height sz_width]. rewrite Es, Ek, Z.eqb_refl.
  replace (0 <? 2 * conv_padding c + 1)%Z with true by (symmetry; apply Z.ltb_lt; lia).
  replace (0 <=? conv_padding c)%Z with true by (symmetry; apply Z.leb_le; lia).
  replace (2 * conv_padding c + 1 <=? h + 2 * conv_padding c)%Z with true
    by (symmetry; apply Z.leb_le; lia).
  replace (2 * conv_padding c + 1 <=? w + 2 * conv_padding c)%Z with true
    by (symmetry; apply Z.leb_le; lia).
  cbn [andb Z.ltb Z.compare]. rewrite !Z.div_1_r.
  eexists. split; [reflexivity |]. split; [f_equal; lia | lia].
Qed.

Lemma size_interpolate_doubles (t : Size) (n c h w : Z) :
  t = Build_Size n c h w /\ 0 < h /\ 0 < w ->
  exists t', size_interpolate t 2 "nearest" = Ok t' /\
             (t' = Build_Size n c (2 * h) (2 * w) /\ 0 < 2 * h /\ 0 < 2 * w).
Proof.
  intros (-> & Ph & Pw). eexists. split; [reflexivity |].
  cbn [sz_batch sz_channels sz_height sz_width].
  split; [f_equal; lia | lia].
Qed.

Lemma size_add_same (a b : Size) (n c h w : Z) :
  a = Build_Size n c h w /\ 0 < h /\ 0 < w ->
  b = Build_Size n c h w /\ 0 < h /\ 0 < w ->
  exists t, size_add a b = Ok t /\ (t = Build_Size n c h w /\ 0 < h /\ 0 < w).
Proof.
  intros (-> & Ph & Pw) (-> & _). unfold size_add, broadcast_dim.
  cbn [sz_batch sz_channels sz_height sz_width]. rewrite !Z.eqb_refl.
  eexists. split; [reflexivity | auto].
Qed.

Lemma forward_returns_witness :
  exists st' fpn outputs,
    build_resnet_fpn_backbone (size_backbone resnet_levels) size_fresh
    = (st', Ok fpn) /\
    size_divisibility fpn = 32 /\
    forward fpn (images 2 64 96) = Ok outputs /\
    dict_get outputs "p2" = Some (Build_Size 2 256 16 24) /\
    dict_get outputs "p5" = Some (Build_Size 2 256 2 3).
Proof.
  eassert (Hi : FPN_init (size_backbone resnet_levels)
                  ["res2"; "res3"; "res4"; "res5"] 256 ""
                  (Some LastLevelMaxPool) "sum" size_fresh = (_, Ok _))
    by (cbv -[Z.div]; reflexivity).
  destruct (forward_returns (F := SizeFramework)
              (fun t n c h w => t = Build_Size n c h w /\ 0 < h /\ 0 < w)
              size_conv_same size_interpolate_doubles size_add_same
              (fun a n c h w S => ex_intro _ a (conj eq_refl S))
              _ _ _ _ _ _ _ _ _ (images 2 64 96) _ 2 64 96
              Hi eq_refl eq_refl)
    as (outputs & Ho & Hshape).
  - exists 2. reflexivity.
  - exists 3. reflexivity.
  - intros f s c [<- | [<- | [<- | [<- | []]]]] Gs Gc;
      vm_compute in Gs; vm_compute in Gc;
      injection Gs as <-; injection Gc as <-;
      (eexists; split; [reflexivity | split; [reflexivity | split; reflexivity]]).
  - discriminate.
  - intros b pyr [= <-] Hp. vm_compute in Hp. injection Hp as <-.
    do 2 eexists. split; [reflexivity |]. split; reflexivity.
  - destruct (Hshape 0%nat "res2" 4 eq_refl eq_refl)
      as (name2 & t2 & Hn2 & G2 & (-> & _)).
    destruct (Hshape 3%nat "res5" 32 eq_refl eq_refl)
      as (name5 & t5 & Hn5 & G5 & (-> & _)).
    vm_compute in Hn2. injection Hn2 as <-.
    vm_compute in Hn5. injection Hn5 as <-.
    do 2 eexists. exists outputs. split; [exact Hi |].
    split; [reflexivity |]. split; [exact Ho |].
    split; [exact G2 | exact G5].
Defined.

Lemma top_block_reads_selected_input_raw_witness :
  exists st' fpn buf results,
    build_vgg_fpn_backbone (sym_backbone vgg_levels) fresh = (st', Ok fpn) /\
    forward_results fpn SImage = Ok (buf, results) /\
    exists pyr raw extra,
      pyramid fpn buf = Ok pyr /\
      dict_get buf "p5" = Some raw /\
      top_block_forward (LastLevelConv (nn_conv 0 512 512)) raw = Ok extra /\
      results = (pyr ++ extra)%list /\
      raw = SFeature "p5" /\
      extra = [SConv 0 (SFeature "p5")].
Proof.
  eassert (Hi : build_vgg_fpn_backbone (sym_backbone vgg_levels) fresh
                = (_, Ok _)) by (vm_compute; reflexivity).
  match type of Hi with
  | _ = (_, Ok ?fpn) =>
      eassert (Hf : forward_results (F := SymFramework) fpn SImage = Ok (_, _))
        by (vm_compute; reflexivity)
  end.
  match type of Hi with
  | _ = (_, Ok ?fpn) =>
      destruct (top_block_reads_selected_input_raw (F := SymFramework)
                  fpn (LastLevelConv (nn_conv 0 512 512)) _ _ _ eq_refl
                  (or_intror (or_intror (or_intror (or_introl eq_refl)))) Hf)
        as (pyr & raw & extra & Hp & Hraw & Hfw & Hr)
  end.
  do 4 eexists. split; [exact Hi |]. split; [exact Hf |].
  exists pyr, raw, extra.
  split; [exact Hp |]. split; [exact Hraw |]. split; [exact Hfw |].
  split; [exact Hr |].
  vm_compute in Hraw. injection Hraw as <-.
  vm_compute in Hfw. injection Hfw as <-. auto.
Defined.

Lemma undeclared_feature_rejected_witness :
  FPN_init (sym_backbone resnet_levels) ["res2"; "res3"; "res9"] 256 ""
           (Some LastLevelMaxPool) "sum" fresh
  = (fresh, Raise KeyError).
Proof.
  apply (undeclared_feature_rejected (F := SymFramework)
           (sym_backbone resnet_levels) ["res2"; "res3"; "res9"] 256 ""
           (Some LastLevelMaxPool) "sum" fresh "res9").
  - simpl. tauto.
  - reflexivity.
Defined.

Lemma fuse_type_is_checked_last_witness :
  exists st' fpn,
    FPN_init (sym_backbone resnet_levels) ["res4"; "res5"] 256 ""
             None "avg" fresh = (st', Ok fpn) /\
    _fuse_type fpn = "avg" /\
    List.length (created st') = 4%nat /\
    FPN_init (sym_backbone resnet_levels) ["res4"; "res5"] 256 ""
             None "max" fresh = (st', Raise AssertionError).
Proof.
  eassert (Hi : FPN_init (sym_backbone resnet_levels) ["res4"; "res5"] 256 ""
                  None "avg" fresh = (_, Ok _)) by (vm_compute; reflexivity).
  destruct (fuse_type_is_checked_last (F := SymFramework)
              _ _ _ _ _ _ _ _ _ Hi) as (_ & Hfu & Hother).
  do 2 eexists. split; [exact Hi |]. split; [exact Hfu |].
  split; [reflexivity |].
  apply Hother; discriminate.
Defined.

Lemma size_divisibility_witness :
  exists st' fpn,
    build_resnet_fpn_backbone (sym_backbone resnet_levels) fresh = (st', Ok fpn) /\
    size_divisibility fpn = 32 /\
    list_last [4; 8; 16; 32] = Ok (size_divisibility fpn) /\
    forall s, In s [4; 8; 16; 32] -> 0 < s /\ (s | size_divisibility fpn).
Proof.
  eassert (Hi : build_resnet_fpn_backbone (sym_backbone resnet_levels) fresh
                = (_, Ok _)) by (vm_compute; reflexivity).
  do 2 eexists. split; [exact Hi |]. split; [reflexivity |].
  exact (size_divisibility_is_coarsest_stride (F := SymFramework)
           (sym_backbone resnet_levels) ["res2"; "res3"; "res4"; "res5"]
           256 "" (Some LastLevelMaxPool) "sum" fresh _ _ [4; 8; 16; 32]
           Hi eq_refl).
Defined.

Lemma power_of_two_strides_witness :
  let p6c := nn_conv 0 2048 256 in
  let p7c := nn_conv 1 256 256 in
  let st1 := @Build_InitState SymFramework 2 [p6c; p7c] in
  exists st' fpn,
    FPN_init (sym_backbone resnet_levels) ["res3"; "res4"; "res5"]
             256 "" (Some (LastLevelP6P7 p6c p7c)) "sum" st1 = (st', Ok fpn) /\
    _out_feature_strides fpn
    = [("p3", 8); ("p4", 16); ("p5", 32); ("p6", 64); ("p7", 128)].
Proof.
  intros p6c p7c st1.
  eassert (Hi : FPN_init (sym_backbone resnet_levels) ["res3"; "res4"; "res5"]
                  256 "" (Some (LastLevelP6P7 p6c p7c)) "sum" st1 = (_, Ok _))
    by (vm_compute; reflexivity).
  do 2 eexists. split; [exact Hi |].
  apply (power_of_two_strides_name_stages (F := SymFramework)
           _ _ _ _ _ _ _ _ _ [8; 16; 32] 3 Hi eq_refl eq_refl).
  lia.
Defined.

Local Close Scope string_scope.

(** ** Loading twice, and the top block of the VGG builder *)

Section LoadingTwice.
Context {A : Arrays}.

Lemma copy_state_again (own state_dict : dict Weights) :
  snd (copy_state own state_dict) = false ->
  copy_state (fst (copy_state own state_dict)) state_dict
  = (fst (copy_state own state_dict), false).
Proof.
  induction own as [| [k w] own IH]; simpl; [reflexivity |].
  destruct (copy_state own state_dict) as [rest bad]. simpl in IH.
  destruct (dict_get state_dict k) as [w' |] eqn:G.
  - destruct (same_shape (shape_of w) (shape_of w')) eqn:S; simpl;
      [| discriminate].
    intros ->. rewrite IH by reflexivity. now rewrite G, same_shape_refl.
  - simpl. intros ->. rewrite IH by reflexivity. now rewrite G.
Qed.

Lemma load_with_again (self : dict Weights) model_path out nc strict :
  outcome (load_with self model_path out nc strict) = Ok tt ->
  load_with (params (load_with self model_path out nc strict))
            model_path out nc strict
  = load_with self model_path out nc strict.
Proof.
  unfold load_with, load_state_dict. destruct nc as [checkpoint | e];
    [| discriminate].
  pose proof (copy_state_keys self checkpoint) as K.
  pose proof (copy_state_again self checkpoint) as I.
  destruct (copy_state self checkpoint) as [own' bad]. simpl in K, I.
  destruct bad; [discriminate |]. specialize (I eq_refl). simpl orb.
  destruct (strict && _) eqn:M; [discriminate |]. intros _. simpl.
  rewrite I, K. simpl orb. rewrite M. now rewrite K.
Qed.

(** X20: loading is idempotent.  After a call of either loader that
    returned, the same call on the parameters it left changes nothing and
    prints and returns the same. *)
Theorem loading_again_changes_nothing :
  forall (fs : FileSystem) (self : dict Weights) (model_path : string),
    (outcome (load_pretrain fs self model_path) = Ok tt ->
     load_pretrain fs (params (load_pretrain fs self model_path)) model_path
     = load_pretrain fs self model_path) /\
    (outcome (load_bottom_up_pretrain fs self model_path) = Ok tt ->
     load_bottom_up_pretrain
       fs (params (load_bottom_up_pretrain fs self model_path)) model_path
     = load_bottom_up_pretrain fs self model_path).
Proof.
  intros fs self model_path. split; apply load_with_again.
Qed.

End LoadingTwice.

Section Builders.
Context {F : Framework}.

(** X21: [build_vgg_fpn_backbone] declares 256 channels for every output,
    the top level included, but creates the convolution of its top block
    with 512 input and output channels; the top block reads ["p5"], which
    is one of the selected bottom-up features. *)
Theorem vgg_top_block_has_512_channels :
  forall (bu : Backbone) (st st' : InitState) (fpn : FPN),
    build_vgg_fpn_backbone bu st = (st', Ok fpn) ->
    (exists p5,
        top_block fpn = Some (LastLevelConv p5) /\
        conv_in_channels p5 = 512 /\ conv_out_channels p5 = 512 /\
        conv_kernel_size p5 = 3 /\ conv_stride p5 = 2 /\
        conv_padding p5 = 1) /\
    In "p5"%string (in_features fpn) /\
    (forall name, In name (_out_features fpn) ->
                  dict_get (_out_feature_channels fpn) name = Some 256) /\
    (exists top, list_last (_out_features fpn) = Ok top /\
                 top = p_name (Z.log2 (size_divisibility fpn) + 1)).
Proof.
  intros bu st st' fpn H. unfold build_vgg_fpn_backbone in H.
  apply ibind_Ok in H. destruct H as (tb & st1 & Htb & H).
  unfold LastLevelConv_init, ibind, new_Conv2d, ret in Htb.
  injection Htb as <- <-.
  destruct (FPN_init_Ok _ _ _ _ _ _ _ _ _ H)
    as (in_strides & strides0 & last & Hs & _ & Hl & P & _ & _ & Hn & Hc
        & Ht & Hfe & _ & _ & Hd).
  destruct (FPN_init_strides _ _ _ _ _ _ _ _ _ H)
    as (in_strides' & last' & Hs' & Hl' & _ & _ & E).
  rewrite Hs in Hs'. injection Hs' as <-.
  rewrite Hl in Hl'. injection Hl' as <-.
  split; [eexists; split; [exact Ht | repeat split] |].
  split; [rewrite Hfe; simpl; tauto |].
  split.
  - intros name I. rewrite Hc.
    exact (dict_comprehension_get (fun _ => 256) _ _ I).
  - unfold size_divisibility. rewrite Hd, Hn, E. simpl num_levels.
    rewrite py_range_one. unfold dict_keys. rewrite map_app. simpl.
    eexists. split; [apply list_last_app | reflexivity].
Qed.

End Builders.

Local Open Scope string_scope.

Lemma loading_again_witness :
  let fs := one_file "ckpt.pkl" [("backbone.a", array [1; 2])] in
  let self := [("a", weights [0; 0])] in
  outcome (load_pretrain fs self "ckpt.pkl") = Ok tt /\
  params (load_pretrain fs self "ckpt.pkl") = [("a", weights [1; 2])] /\
  load_pretrain fs (params (load_pretrain fs self "ckpt.pkl")) "ckpt.pkl"
  = load_pretrain fs self "ckpt.pkl".
Proof.
  intros fs self. split; [reflexivity | split; [reflexivity |]].
  exact (proj1 (loading_again_changes_nothing (A := VectorArrays)
                  fs self "ckpt.pkl") eq_refl).
Defined.

Lemma vgg_top_block_witness :
  exists st' fpn,
    build_vgg_fpn_backbone (sym_backbone vgg_levels) fresh = (st', Ok fpn) /\
    top_block fpn = Some (LastLevelConv (nn_conv 0 512 512)) /\
    _out_features fpn = ["p2"; "p3"; "p4"; "p5"; "p6"] /\
    (forall name, In name (_out_features fpn) ->
                  dict_get (_out_feature_channels fpn) name = Some 256).
Proof.
  eassert (Hi : build_vgg_fpn_backbone (sym_backbone vgg_levels) fresh
                = (_, Ok _)) by (vm_compute; reflexivity).
  destruct (vgg_top_block_has_512_channels (F := SymFramework) _ _ _ _ Hi)
    as (_ & _ & Hc & _).
  do 2 eexists. split; [exact Hi |].
  split; [reflexivity | split; [reflexivity | exact Hc]].
Defined.
